(** * api-fetcher: the request core, the error mappers, the Modrinth facet
    serialisation and the client methods that chain requests, embedded from
    [dist/esm/index.js] (the bundled [ky] retry engine and [BaseAPIClient])
    and from [src/api/*.ts], [src/types/*.ts].

    Asynchronous calls are modelled by state passing: a request runs against
    a script of what each attempt meets and yields its completion (returned
    or thrown), the events it caused (fetches and pauses) and the rest of the
    script. Mutable facet groups live in a store, and a builder holds
    references into it. Numbers are exact rationals with the IEEE special
    values; strings are sequences of 8-bit code units. *)

From Stdlib Require Import ZArith QArith Qpower String Ascii List Lia DecimalString.
From stdpp Require Import base option strings list gmap.

Open Scope Z_scope.

(** ** JavaScript numbers

    Finite values are carried as reduced rationals, with the three special
    values of IEEE-754 next to them.  Arithmetic is exact: the rounding of
    doubles is not part of this model. *)

Inductive number : Type :=
| Fin (q : Q)
| PosInf
| NegInf
| NaN.

Module Num.

Definition of_Z (z : Z) : number := Fin (inject_Z z).
Definition of_nat (n : nat) : number := of_Z (Z.of_nat n).

Definition Qltb (a b : Q) : bool := negb (Qle_bool b a).

Definition isNaN (a : number) : bool :=
  match a with NaN => true | _ => false end.

(** [a < b] *)
Definition lt (a b : number) : bool :=
  match a, b with
  | NaN, _ => false
  | _, NaN => false
  | Fin x, Fin y => Qltb x y
  | Fin _, PosInf => true
  | Fin _, NegInf => false
  | PosInf, _ => false
  | NegInf, NegInf => false
  | NegInf, _ => true
  end.

(** [a > b] *)
Definition gt (a b : number) : bool := lt b a.

(** [a >= b] *)
Definition ge (a b : number) : bool :=
  match a, b with
  | NaN, _ => false
  | _, NaN => false
  | _, _ => negb (lt a b)
  end.

(** [a - b] *)
Definition sub (a b : number) : number :=
  match a, b with
  | NaN, _ => NaN
  | _, NaN => NaN
  | Fin x, Fin y => Fin (Qred (x - y))
  | Fin _, PosInf => NegInf
  | Fin _, NegInf => PosInf
  | PosInf, PosInf => NaN
  | PosInf, _ => PosInf
  | NegInf, NegInf => NaN
  | NegInf, _ => NegInf
  end.

Definition scale_inf (positive : bool) (y : Q) : number :=
  if Qltb 0 y then (if positive then PosInf else NegInf)
  else if Qltb y 0 then (if positive then NegInf else PosInf)
  else NaN.

(** [a * b] *)
Definition mul (a b : number) : number :=
  match a, b with
  | NaN, _ => NaN
  | _, NaN => NaN
  | Fin x, Fin y => Fin (Qred (x * y))
  | PosInf, Fin y => scale_inf true y
  | NegInf, Fin y => scale_inf false y
  | Fin x, PosInf => scale_inf true x
  | Fin x, NegInf => scale_inf false x
  | PosInf, PosInf => PosInf
  | NegInf, NegInf => PosInf
  | PosInf, NegInf => NegInf
  | NegInf, PosInf => NegInf
  end.

(** [Math.min(a, b)] *)
Definition min (a b : number) : number :=
  match a, b with
  | NaN, _ => NaN
  | _, NaN => NaN
  | _, _ => if lt a b then a else b
  end.

(** [2 ** e] for an integral exponent. *)
Definition pow2 (e : Z) : number := Fin (Qred (Qpower 2 e)).

End Num.

(** ** Completions: a JavaScript call either returns or throws. *)

Inductive completion (E A : Type) : Type :=
| Return (a : A)
| Throw (e : E).
Arguments Return {E A} a.
Arguments Throw {E A} e.

(** [a ?? b] *)
Definition nullish {A} (a b : option A) : option A :=
  match a with Some _ => a | None => b end.
Infix "??" := nullish (at level 45, left associativity).

(** A string is truthy unless it is empty. *)
Definition truthy_string (s : string) : bool := negb (String.eqb s "").

(** [string | null]: [null] is falsy. *)
Definition truthy_nullable (o : option string) : bool :=
  match o with
  | Some s => truthy_string s
  | None => false
  end.

(** ASCII lower-casing, as [String.prototype.toLowerCase] and the header
    name normalisation of [Headers] act on ASCII names. *)
Definition lower_ascii (c : ascii) : ascii :=
  let n := N_of_ascii c in
  if ((65 <=? n) && (n <=? 90))%N then ascii_of_N (n + 32) else c.

Fixpoint toLowerCase (s : string) : string :=
  match s with
  | EmptyString => EmptyString
  | String c r => String (lower_ascii c) (toLowerCase r)
  end.

(** ** JavaScript values, as far as the code handles them: parsed JSON
    bodies, query parameters and error details. Objects keep the insertion
    order of their properties. *)

#[warnings="-register-all"]
Inductive JSValue : Type :=
| VUndefined
| VNull
| VBool (b : bool)
| VNum (n : number)
| VStr (s : string)
| VArr (items : list JSValue)
| VObj (props : list (string * JSValue)).

(** ToBoolean *)
Definition truthy (v : JSValue) : bool :=
  match v with
  | VUndefined | VNull => false
  | VBool b => b
  | VNum (Fin q) => negb (Qeq_bool q 0)
  | VNum NaN => false
  | VNum _ => true
  | VStr s => truthy_string s
  | VArr _ | VObj _ => true
  end.

Fixpoint lookup_prop (props : list (string * JSValue)) (key : string) : JSValue :=
  match props with
  | [] => VUndefined
  | (k, v) :: rest => if String.eqb k key then v else lookup_prop rest key
  end.

(** [o[key] = v]: an existing property keeps its place, a new one goes last. *)
Fixpoint set_prop (props : list (string * JSValue)) (key : string) (v : JSValue)
  : list (string * JSValue) :=
  match props with
  | [] => [(key, v)]
  | (k, x) :: rest =>
      if String.eqb k key then (k, v) :: rest else (k, x) :: set_prop rest key v
  end.

(** [v.key]: reading a property of [undefined] or [null] is a TypeError
    ([None]); a missing property reads as [undefined]. *)
Definition get_prop (v : JSValue) (key : string) : option JSValue :=
  match v with
  | VUndefined | VNull => None
  | VObj props => Some (lookup_prop props key)
  | _ => Some VUndefined
  end.

(** ** The functions of the JavaScript runtime the code calls

    [Number(s)], [Date.parse(s)] and the conversion of a number to a string
    belong to the engine, not to the repository: the development is
    parametrised by them. *)

Class Runtime : Type := {
  JS_Number : string -> number;
  Date_parse : string -> number;
  Number_toString : number -> string
}.

(** ** JSON text *)

Module JSON.

Definition dquote : ascii := "034"%char.
Definition backslash : ascii := "092"%char.

Definition hex_digit (n : N) : ascii :=
  if (n <? 10)%N then ascii_of_N (48 + n) else ascii_of_N (87 + n).

(** One code unit of QuoteJSONString. Code units are the 8-bit characters
    of [string]; none of them is a surrogate. *)
Definition quote_char (c : ascii) : string :=
  let n := N_of_ascii c in
  if (n =? 8)%N then String backslash "b"
  else if (n =? 9)%N then String backslash "t"
  else if (n =? 10)%N then String backslash "n"
  else if (n =? 12)%N then String backslash "f"
  else if (n =? 13)%N then String backslash "r"
  else if (n =? 34)%N then String backslash (String dquote "")
  else if (n =? 92)%N then String backslash (String backslash "")
  else if (n <? 32)%N then
    String backslash
      (String "u" (String "0" (String "0"
        (String (hex_digit (n / 16)) (String (hex_digit (n mod 16)) "")))))
  else String c "".

Fixpoint quote_chars (s : string) : string :=
  match s with
  | EmptyString => EmptyString
  | String c r => quote_char c +:+ quote_chars r
  end.

Definition QuoteJSONString (s : string) : string :=
  String dquote (quote_chars s +:+ String dquote "").

Definition brackets (inner : string) : string := "[" +:+ inner +:+ "]".
Definition braces (inner : string) : string := "{" +:+ inner +:+ "}".

Section Stringify.
Context `{Runtime}.

(** [JSON.stringify(v)] without indentation; [None] is [undefined]. *)
Fixpoint stringify (v : JSValue) : option string :=
  match v with
  | VUndefined => None
  | VNull => Some "null"%string
  | VBool b => Some (if b then "true" else "false")%string
  | VNum n =>
      Some (match n with Fin _ => Number_toString n | _ => "null"%string end)
  | VStr s => Some (QuoteJSONString s)
  | VArr items =>
      Some (brackets
              (String.concat ","
                 (List.map (fun x => default "null"%string (stringify x)) items)))
  | VObj props =>
      Some (braces
              (String.concat ","
                 (List.flat_map
                    (fun kv =>
                       match stringify (snd kv) with
                       | Some sx => [QuoteJSONString (fst kv) +:+ ":" +:+ sx]
                       | None => []
                       end) props)))
  end.

End Stringify.

(** *** Reading JSON text back: strings and arrays

    The part of the JSON grammar that facet queries are written in: string
    literals with their escapes, and arrays. White space and the other forms
    of values are not read, so whatever is read here [JSON.parse] reads the
    same way. *)

Definition hex_value (c : ascii) : option N :=
  let n := N_of_ascii c in
  if ((48 <=? n) && (n <=? 57))%N then Some (n - 48)%N
  else if ((97 <=? n) && (n <=? 102))%N then Some (n - 87)%N
  else if ((65 <=? n) && (n <=? 70))%N then Some (n - 55)%N
  else None.

Definition hex4 (a b c d : ascii) : option N :=
  match hex_value a, hex_value b, hex_value c, hex_value d with
  | Some x, Some y, Some z, Some w => Some (((x * 16 + y) * 16 + z) * 16 + w)%N
  | _, _, _, _ => None
  end.

(** The character a one-letter escape stands for. *)
Definition unescape (e : ascii) : option ascii :=
  let n := N_of_ascii e in
  if (n =? 34)%N then Some dquote
  else if (n =? 92)%N then Some backslash
  else if (n =? 47)%N then Some "/"%char
  else if (n =? 98)%N then Some (ascii_of_N 8)
  else if (n =? 102)%N then Some (ascii_of_N 12)
  else if (n =? 110)%N then Some (ascii_of_N 10)
  else if (n =? 114)%N then Some (ascii_of_N 13)
  else if (n =? 116)%N then Some (ascii_of_N 9)
  else None.

Definition push_char (c : ascii) (r : option (string * string))
  : option (string * string) :=
  match r with
  | Some (str, rest) => Some (String c str, rest)
  | None => None
  end.

(** The characters of a string literal, after its opening quote. *)
Fixpoint parse_chars (s : string) : option (string * string) :=
  match s with
  | EmptyString => None
  | String c r =>
      if Ascii.eqb c dquote then Some (EmptyString, r)
      else if Ascii.eqb c backslash then
        match r with
        | EmptyString => None
        | String e r' =>
            if Ascii.eqb e "u" then
              match r' with
              | String h1 (String h2 (String h3 (String h4 r''))) =>
                  match hex4 h1 h2 h3 h4 with
                  | Some n =>
                      if (n <? 256)%N then push_char (ascii_of_N n) (parse_chars r'')
                      else None
                  | None => None
                  end
              | _ => None
              end
            else
              match unescape e with
              | Some ch => push_char ch (parse_chars r')
              | None => None
              end
        end
      else if (N_of_ascii c <? 32)%N then None
      else push_char c (parse_chars r)
  end.

Fixpoint parse_value (fuel : nat) (s : string) : option (JSValue * string) :=
  match fuel with
  | O => None
  | S fuel =>
      match s with
      | EmptyString => None
      | String c r =>
          if Ascii.eqb c dquote then
            match parse_chars r with
            | Some (str, rest) => Some (VStr str, rest)
            | None => None
            end
          else if Ascii.eqb c "[" then
            match r with
            | String "]" rest => Some (VArr [], rest)
            | _ =>
                match parse_elements fuel r with
                | Some (items, rest) => Some (VArr items, rest)
                | None => None
                end
            end
          else None
      end
  end
with parse_elements (fuel : nat) (s : string) : option (list JSValue * string) :=
  match fuel with
  | O => None
  | S fuel =>
      match parse_value fuel s with
      | Some (v, String "," rest) =>
          match parse_elements fuel rest with
          | Some (vs, rest') => Some (v :: vs, rest')
          | None => None
          end
      | Some (v, String "]" rest) => Some ([v], rest)
      | _ => None
      end
  end.

(** [JSON.parse(text)] on that part of the grammar: the whole text must be
    one value. Every step consumes a character, so the length of the text
    is fuel enough. *)
Definition parse (text : string) : option JSValue :=
  match parse_value (S (String.length text)) text with
  | Some (v, EmptyString) => Some v
  | _ => None
  end.

(** The text of an array of string arrays, written out: the wire format of
    the [facets] parameter. *)
Definition row_text (row : list string) : string :=
  brackets (String.concat "," (List.map QuoteJSONString row)).

Definition wire_format (rows : list (list string)) : string :=
  brackets (String.concat "," (List.map row_text rows)).

(** Fuel that lets [parse_elements] read the rows. *)
Fixpoint fuel_for (rows : list (list string)) : nat :=
  match rows with
  | [] => O
  | row :: rest => Nat.max (length row + 2) (S (fuel_for rest))
  end.

End JSON.


(** ** ky: errors, options, timeout and retry (dist/esm/index.js) *)

Module Ky.

(** [Headers]: names are stored lower-cased and [get] is case-insensitive. *)
Definition headers_get (h : gmap string string) (name : string) : option string :=
  h !! toLowerCase name.

(** A response: [body] is what [response.json()] decodes the body to, or
    [None] for a body that is not JSON text, an empty one included. *)
Record Response : Type := {
  status : Z;
  headers : gmap string string;
  body : option JSValue
}.

(** [response.ok] *)
Definition ok (r : Response) : bool :=
  (200 <=? status r) && (status r <=? 299).

(** What a rejected [fetch] carries: an error name and, on Node, a code. *)
Record Failure : Type := {
  failure_name : string;
  failure_code : option string
}.

Inductive KyError : Type :=
| TimeoutError
| HTTPError (response : Response)
| FetchError (cause : Failure)
| RangeError.

Definition is_TimeoutError (e : KyError) : bool :=
  match e with TimeoutError => true | _ => false end.

Definition includes (l : list Z) (x : Z) : bool := bool_decide (x ∈ l).
Definition includes_str (l : list string) (x : string) : bool := bool_decide (x ∈ l).

(** [var maxSafeTimeout = 2147483647] *)
Definition maxSafeTimeout : number := Num.of_Z 2147483647.

Definition retryMethods : list string :=
  ["get"; "put"; "head"; "delete"; "options"; "trace"]%string.
Definition retryStatusCodes : list Z := [408; 413; 429; 500; 502; 503; 504].
Definition retryAfterStatusCodes : list Z := [413; 429; 503].

Record RetryOptions : Type := {
  limit : number;
  methods : list string;
  statusCodes : list Z;
  afterStatusCodes : list Z;
  maxRetryAfter : option number;  (* [None]: explicitly [undefined] *)
  backoffLimit : number;
  delay : nat -> number
}.

(** [delay: (attemptCount) => 0.3 * 2 ** (attemptCount - 1) * 1000] *)
Definition defaultDelay (attemptCount : nat) : number :=
  Num.mul (Num.mul (Fin (3 # 10)) (Num.pow2 (Z.of_nat attemptCount - 1)))
          (Num.of_Z 1000).

Definition defaultRetryOptions : RetryOptions := {|
  limit := Num.of_Z 2;
  methods := retryMethods;
  statusCodes := retryStatusCodes;
  afterStatusCodes := retryAfterStatusCodes;
  maxRetryAfter := Some PosInf;
  backoffLimit := PosInf;
  delay := defaultDelay
|}.

(** The [retry] option as a caller may give it: absent, a number, or an
    object whose present fields replace the defaults. *)
Record RetryFields : Type := {
  f_limit : option number;
  f_methods : option (list string);
  f_statusCodes : option (list Z);
  f_afterStatusCodes : option (list Z);
  f_maxRetryAfter : option (option number);
  f_backoffLimit : option number;
  f_delay : option (nat -> number)
}.

Inductive RetryInput : Type :=
| RetryAbsent
| RetryNumber (n : number)
| RetryObject (r : RetryFields).

Definition with_limit (n : number) (r : RetryOptions) : RetryOptions := {|
  limit := n;
  methods := methods r;
  statusCodes := statusCodes r;
  afterStatusCodes := afterStatusCodes r;
  maxRetryAfter := maxRetryAfter r;
  backoffLimit := backoffLimit r;
  delay := delay r
|}.

Definition normalizeRetryOptions (retry : RetryInput) : RetryOptions :=
  match retry with
  | RetryAbsent => defaultRetryOptions
  | RetryNumber n => with_limit n defaultRetryOptions
  | RetryObject r => {|
      limit := default (limit defaultRetryOptions) (f_limit r);
      methods := default (methods defaultRetryOptions) (f_methods r);
      statusCodes := default (statusCodes defaultRetryOptions) (f_statusCodes r);
      afterStatusCodes :=
        default (afterStatusCodes defaultRetryOptions) (f_afterStatusCodes r);
      maxRetryAfter :=
        default (maxRetryAfter defaultRetryOptions) (f_maxRetryAfter r);
      backoffLimit := default (backoffLimit defaultRetryOptions) (f_backoffLimit r);
      delay := default (delay defaultRetryOptions) (f_delay r)
    |}
  end.

(** The options a caller hands to [ky(input, options)]. *)
Record Options : Type := {
  o_method : option string;
  o_searchParams : option (list (string * JSValue));
  o_headers : list (string * string);
  o_json : option JSValue;
  o_retry : RetryInput;
  o_timeout : option number;
  o_throwHttpErrors : option bool
}.

(** [this._options], as the constructor normalises it. *)
Record KyOptions : Type := {
  method : string;
  retry : RetryOptions;
  throwHttpErrors : bool;
  timeout_ms : number
}.

Definition requestMethods : list string :=
  ["get"; "post"; "put"; "patch"; "head"; "delete"]%string.

Definition upper_ascii (c : ascii) : ascii :=
  let n := N_of_ascii c in
  if ((97 <=? n) && (n <=? 122))%N then ascii_of_N (n - 32) else c.

Fixpoint toUpperCase (s : string) : string :=
  match s with
  | EmptyString => EmptyString
  | String c r => String (upper_ascii c) (toUpperCase r)
  end.

Definition normalizeRequestMethod (input : string) : string :=
  if includes_str requestMethods input then toUpperCase input else input.

(** [constructor(input, options = {})]: the fields the request loop reads. *)
Definition constructor (options : Options) : KyOptions := {|
  method := normalizeRequestMethod (default "GET"%string (o_method options));
  retry := normalizeRetryOptions (o_retry options);
  throwHttpErrors := negb (bool_decide (o_throwHttpErrors options = Some false));
  timeout_ms := default (Num.of_Z 10000) (o_timeout options)
|}.

(** [this.request]: what goes on the wire. *)
Record Request : Type := {
  r_method : string;
  r_url : string;
  r_searchParams : option (list (string * JSValue));
  r_headers : list (string * string);
  r_body : option JSValue
}.

Definition request_of (input : string) (options : Options) : Request := {|
  r_method := method (constructor options);
  r_url := input;
  r_searchParams := o_searchParams options;
  r_headers := o_headers options;
  r_body := o_json options
|}.

Section Retry.
Context `{Runtime}.

(** The header-driven branch of [_calculateRetryDelay] (lines 516-523). *)
Definition retryAfterDelay (r : RetryOptions) (now : number) (retryAfter : string)
  : number :=
  let after := Num.mul (JS_Number retryAfter) (Num.of_Z 1000) in
  let after :=
    if Num.isNaN after then Num.sub (Date_parse retryAfter) now
    else if Num.ge after (Date_parse "2024-01-01") then Num.sub after now
    else after in
  let max := default after (maxRetryAfter r) in
  if Num.lt after max then after else max.

(** The header the retry hint is read from (line 514). *)
Definition retryAfterHeader (response : Response) : option string :=
  headers_get (headers response) "Retry-After"
  ?? headers_get (headers response) "RateLimit-Reset"
  ?? headers_get (headers response) "X-RateLimit-Reset"
  ?? headers_get (headers response) "X-Rate-Limit-Reset".

(** [_calculateRetryDelay(error)]: the counter is incremented first; the
    result is the new counter and either the delay or the rethrown error.
    [now] is what [Date.now()] reads during the call. *)
Definition _calculateRetryDelay (r : RetryOptions) (now : number)
    (_retryCount : nat) (error : KyError)
  : nat * completion KyError number :=
  let _retryCount := S _retryCount in
  (_retryCount,
   if Num.gt (Num.of_nat _retryCount) (limit r) || is_TimeoutError error
   then Throw error
   else
     let backoff :=
       Return (Num.min (backoffLimit r) (delay r _retryCount)) in
     match error with
     | HTTPError response =>
         if negb (includes (statusCodes r) (status response)) then Throw error
         else
           let retryAfter := retryAfterHeader response in
           if truthy_nullable retryAfter
              && includes (afterStatusCodes r) (status response)
           then Return (retryAfterDelay r now (default EmptyString retryAfter))
           else if status response =? 413 then Throw error
           else backoff
     | _ => backoff
     end).

End Retry.

(** *** The environment of one client

    A script describes what each successive attempt meets: how long the
    server takes to answer a [fetch], what comes back, and what [Date.now()]
    reads when the failure of that attempt is handled.

    Outside the model: hooks, progress callbacks and a caller's abort signal,
    none of which [BaseAPIClient] configures, and [timeout: false]. *)

Record Attempt : Type := {
  latency : number;
  answer : Response + Failure;
  clock : number
}.

(** What the client did: a [fetch] of a request under a timer of so many
    milliseconds, or a pause before the next attempt. *)
Inductive Event : Type :=
| EvFetch (request : Request) (timer : number)
| EvDelay (ms : number).

(** [timeout(request, init, abortController, options)]: the timer of
    [options.timeout] ms races the fetch. *)
Definition timeout (a : Attempt) (o : KyOptions) : completion KyError Response :=
  if Num.lt (latency a) (timeout_ms o) then
    match answer a with
    | inl response => Return response
    | inr cause => Throw (FetchError cause)
    end
  else Throw TimeoutError.

(** [function_] of [Ky.create]: one attempt. A timer above [maxSafeTimeout]
    is refused before anything is fetched. *)
Definition function_ (o : KyOptions) (a : Attempt) : completion KyError Response :=
  if Num.gt (timeout_ms o) maxSafeTimeout then Throw RangeError
  else
    match timeout a o with
    | Return response =>
        if negb (ok response) && throwHttpErrors o
        then Throw (HTTPError response)
        else Return response
    | Throw e => Throw e
    end.

(** What one call of [function_] leaves in the record of events. *)
Definition attempt_events (o : KyOptions) (request : Request) : list Event :=
  if Num.gt (timeout_ms o) maxSafeTimeout then []
  else [EvFetch request (timeout_ms o)].

(** How a call ended, what it did, and the part of the script it left.
    [None] as result: the script ended before the call settled. *)
Record Outcome (A : Type) : Type := {
  result : option A;
  events : list Event;
  remaining : list Attempt
}.
Arguments result {A} _.
Arguments events {A} _.
Arguments remaining {A} _.

Definition after_fetch {A} (e : list Event) (o : Outcome A) : Outcome A :=
  {| result := result o; events := e ++ events o; remaining := remaining o |}.

Section Loop.
Context `{Runtime}.

(** [_retry(function_)] *)
Fixpoint _retry (o : KyOptions) (request : Request) (_retryCount : nat)
    (script : list Attempt) : Outcome (completion KyError Response) :=
  match script with
  | [] => {| result := None; events := []; remaining := [] |}
  | a :: rest =>
      let fetched := attempt_events o request in
      match function_ o a with
      | Return response =>
          {| result := Some (Return response); events := fetched; remaining := rest |}
      | Throw error =>
          match _calculateRetryDelay (retry o) (clock a) _retryCount error with
          | (_, Throw e) =>
              {| result := Some (Throw e); events := fetched; remaining := rest |}
          | (count, Return d) =>
              let ms := Num.min d maxSafeTimeout in
              if (count <? 1)%nat then
                {| result := Some (Throw error); events := fetched; remaining := rest |}
              else after_fetch (fetched ++ [EvDelay ms]) (_retry o request count rest)
          end
      end
  end.

(** [Ky.create(input, options)], awaited. *)
Definition create (input : string) (options : Options) (script : list Attempt)
  : Outcome (completion KyError Response) :=
  let o := constructor options in
  let request := request_of input options in
  let isRetriableMethod :=
    includes_str (methods (retry o)) (toLowerCase (method o)) in
  if isRetriableMethod then _retry o request 0 script
  else
    match script with
    | [] => {| result := None; events := []; remaining := [] |}
    | a :: rest =>
        {| result := Some (function_ o a);
           events := attempt_events o request;
           remaining := rest |}
    end.

End Loop.

(** *** The [prefixUrl] option *)

(** [s.startsWith("/")] *)
Definition startsWith_slash (s : string) : bool :=
  match s with
  | String "/" _ => true
  | _ => false
  end.

(** [s.endsWith("/")] *)
Fixpoint endsWith_slash (s : string) : bool :=
  match s with
  | EmptyString => false
  | String c EmptyString => Ascii.eqb c "/"
  | String _ r => endsWith_slash r
  end.

(** The [prefixUrl] step of the constructor (lines 452 and 461-469) for an
    [input] that is a string: what [this._input] becomes, or the message of
    the [Error] thrown. *)
Definition prefixed_input (prefixUrl : option string) (input : string)
  : completion string string :=
  let prefixUrl := default EmptyString prefixUrl in
  if truthy_string prefixUrl then
    if startsWith_slash input then
      Throw "`input` must not begin with a slash when using `prefixUrl`"%string
    else
      Return ((if endsWith_slash prefixUrl then prefixUrl else prefixUrl +:+ "/")
              +:+ input)
  else Return input.

End Ky.


(** ** Service errors (src/types/*.ts)

    The three error-code enums are string enums whose members carry their own
    names; [BaseAPIClient] passes the codes as plain strings. One type holds
    the members of all three. *)

Inductive ErrorCode : Type :=
| EXTERNAL_FILE_DOWNLOAD
| RESOURCE_NOT_FOUND
| INVALID_SEARCH_PARAMETERS
| API_REQUEST_FAILED
| NETWORK_ERROR
| INVALID_RESPONSE
| RATE_LIMIT_EXCEEDED
| UNAUTHORIZED
| INVALID_VERSION
| DOWNLOAD_FAILED
| VALIDATION_ERROR.

(** The [error: any] that reaches [handleError], by the properties it reads. *)
Record ErrorLike : Type := {
  e_response : option Ky.Response;
  e_name : option string;
  e_code : option string
}.

Definition of_KyError (e : Ky.KyError) : ErrorLike :=
  match e with
  | Ky.TimeoutError =>
      {| e_response := None; e_name := Some "TimeoutError"%string; e_code := None |}
  | Ky.HTTPError r =>
      {| e_response := Some r; e_name := Some "HTTPError"%string; e_code := None |}
  | Ky.FetchError c =>
      {| e_response := None;
         e_name := Some (Ky.failure_name c);
         e_code := Ky.failure_code c |}
  | Ky.RangeError =>
      {| e_response := None; e_name := Some "RangeError"%string; e_code := None |}
  end.

Inductive ErrorClass : Type := SpigetError | ModrinthError | HangarError.

Inductive Detail : Type :=
| DValue (v : JSValue)
| DCause (e : ErrorLike).

(** [SpigetError] and [ModrinthError] call the third field [details],
    [HangarError] calls it [context]. *)
Record ServiceError : Type := {
  class : ErrorClass;
  code : ErrorCode;
  message : string;
  details : list (string * Detail)
}.

(** [error.name === "NetworkError" || error.code === "ECONNRESET" ||
    error.code === "ENOTFOUND"] *)
Definition is_network_error (error : ErrorLike) : bool :=
  bool_decide (e_name error = Some "NetworkError"%string)
  || bool_decide (e_code error = Some "ECONNRESET"%string)
  || bool_decide (e_code error = Some "ENOTFOUND"%string).

(** What an API method may throw: a service error, the SyntaxError of
    [response.json()] on a body that is not JSON, or the TypeError of reading
    a property of [undefined]. *)
Inductive Thrown : Type :=
| Service (e : ServiceError)
| SyntaxError
| TypeError.

(** ** Reading a response body

    What the API methods do with the value a body decodes to: conversion to
    a string in a template literal, [length], the element at index 0,
    [Array.prototype.find], [Object.keys] and strict equality with a number
    or a string. [None] stands for the TypeError of the operation. The keys
    read by name through [get_prop] are never [length] or an index. *)

Section Values.
Context `{Runtime}.

(** ToString, as a template literal applies it. *)
Fixpoint ToString (v : JSValue) : string :=
  match v with
  | VUndefined => "undefined"
  | VNull => "null"
  | VBool b => if b then "true" else "false"
  | VNum n => Number_toString n
  | VStr s => s
  | VArr items =>
      String.concat ","
        (List.map (fun x => match x with
                            | VUndefined | VNull => EmptyString
                            | _ => ToString x
                            end) items)
  | VObj _ => "[object Object]"
  end.

End Values.

(** [v.length] *)
Definition get_length (v : JSValue) : option JSValue :=
  match v with
  | VUndefined | VNull => None
  | VArr items => Some (VNum (Num.of_nat (length items)))
  | VStr s => Some (VNum (Num.of_nat (String.length s)))
  | VObj props => Some (lookup_prop props "length")
  | _ => Some VUndefined
  end.

(** [v[0]] *)
Definition first_item (v : JSValue) : option JSValue :=
  match v with
  | VUndefined | VNull => None
  | VArr items => Some (List.hd VUndefined items)
  | VStr (String c _) => Some (VStr (String c EmptyString))
  | VObj props => Some (lookup_prop props "0")
  | _ => Some VUndefined
  end.

(** [v === 0] *)
Definition is_zero (v : JSValue) : bool :=
  match v with
  | VNum (Fin q) => Qeq_bool q 0
  | _ => false
  end.

(** [v === s] for a string [s] *)
Definition is_string (s : string) (v : JSValue) : bool :=
  match v with
  | VStr t => String.eqb t s
  | _ => false
  end.

(** [items.find(callback)]: the first element the callback holds true of,
    [undefined] when there is none; the callback may throw. *)
Fixpoint find (callback : JSValue -> option JSValue) (items : list JSValue)
  : option JSValue :=
  match items with
  | [] => Some VUndefined
  | x :: rest =>
      match callback x with
      | None => None
      | Some t => if truthy t then Some x else find callback rest
      end
  end.

(** [v.find(callback)]: only an array has the method. *)
Definition array_find (callback : JSValue -> option JSValue) (v : JSValue)
  : option JSValue :=
  match v with
  | VArr items => find callback items
  | _ => None
  end.

(** The name of an array index. *)
Definition index_name (i : nat) : string := NilZero.string_of_uint (Nat.to_uint i).

(** [Object.keys(v)]: the properties of an object are listed in [props] in
    the order the engine enumerates them, which is the order of insertion
    for names that are not array indices. *)
Definition keys (v : JSValue) : option (list string) :=
  match v with
  | VUndefined | VNull => None
  | VObj props => Some (List.map fst props)
  | VArr items => Some (List.map index_name (seq 0 (length items)))
  | VStr s => Some (List.map index_name (seq 0 (String.length s)))
  | _ => Some []
  end.

(** ** Awaited calls in sequence

    An API method is a function of the script: it consumes the attempts its
    requests meet. [andThen] is [await] followed by the rest of the method;
    a rejection ends the method, as does the end of the script. *)

Definition Call (A : Type) : Type :=
  list Ky.Attempt -> Ky.Outcome (completion Thrown A).

Definition returning {A} (a : A) : Call A :=
  fun script =>
    {| Ky.result := Some (Return a); Ky.events := []; Ky.remaining := script |}.

Definition throwing {A} (e : Thrown) : Call A :=
  fun script =>
    {| Ky.result := Some (Throw e); Ky.events := []; Ky.remaining := script |}.

(** An operation that may end in a TypeError. *)
Definition reading {A} (v : option A) : Call A :=
  match v with
  | Some a => returning a
  | None => throwing TypeError
  end.

Definition andThen {A B} (first : Call A) (next : A -> Call B) : Call B :=
  fun script =>
    let o := first script in
    match Ky.result o with
    | Some (Return a) =>
        let o' := next a (Ky.remaining o) in
        {| Ky.result := Ky.result o';
           Ky.events := Ky.events o ++ Ky.events o';
           Ky.remaining := Ky.remaining o' |}
    | Some (Throw e) =>
        {| Ky.result := Some (Throw e);
           Ky.events := Ky.events o;
           Ky.remaining := Ky.remaining o |}
    | None =>
        {| Ky.result := None;
           Ky.events := Ky.events o;
           Ky.remaining := Ky.remaining o |}
    end.

Notation "x <~ y ; z" := (andThen y (fun x => z))
  (at level 20, y at level 100, z at level 200, only parsing).

(** ** BaseAPIClient (dist/esm/index.js, lines 603-660) *)

Module BaseAPIClient.

Record Client : Type := {
  baseUrl : string;
  userAgent : string
}.

(** [a || d] on an optional string *)
Definition or_else (a : option string) (d : string) : string :=
  match a with
  | Some s => if truthy_string s then s else d
  | None => d
  end.

Definition constructor (baseUrl : string) (userAgent : option string) : Client := {|
  baseUrl := baseUrl;
  userAgent := or_else userAgent "shulkers/1.0.0"
|}.

Definition getHeaders (c : Client) : list (string * string) :=
  [("User-Agent"%string, userAgent c)].

Section Requests.
Context `{Runtime}.

Definition buildSearchParams (options : list (string * JSValue))
  : list (string * JSValue) :=
  fold_left
    (fun params kv =>
       match snd kv with
       | VUndefined => params
       | VArr items =>
           set_prop params (fst kv)
             (VStr (default EmptyString (JSON.stringify (VArr items))))
       | value => set_prop params (fst kv) value
       end)
    options [].

(** The virtual [handleError(error, defaultCode, defaultMessage)]. *)
Variable handleError : ErrorLike -> ErrorCode -> string -> ServiceError.

(** The [try] / [catch] around the awaited request: a failure of ky goes
    through [handleError]; [onReturn] is what the method does with the
    response. *)
Definition settle {A} (onReturn : Ky.Response -> completion Thrown A)
    (defaultCode : ErrorCode) (defaultMessage : string)
    (o : Ky.Outcome (completion Ky.KyError Ky.Response))
  : Ky.Outcome (completion Thrown A) :=
  {| Ky.result :=
       match Ky.result o with
       | Some (Return response) => Some (onReturn response)
       | Some (Throw error) =>
           Some (Throw (Service
                   (handleError (of_KyError error) defaultCode defaultMessage)))
       | None => None
       end;
     Ky.events := Ky.events o;
     Ky.remaining := Ky.remaining o |}.

(** [return response.json()]: the platform's [json()], whose rejection is
    not caught by the [catch] above it. *)
Definition response_json (response : Ky.Response) : completion Thrown JSValue :=
  match Ky.body response with
  | Some v => Return v
  | None => Throw SyntaxError
  end.

Definition makeRequest (c : Client) (endpoint : string)
    (searchParams : option (list (string * JSValue))) (script : list Ky.Attempt)
  : Ky.Outcome (completion Thrown JSValue) :=
  settle response_json API_REQUEST_FAILED ("Failed to fetch " +:+ endpoint)
    (Ky.create (baseUrl c +:+ endpoint)
       {| Ky.o_method := Some "get"%string;
          Ky.o_searchParams := option_map buildSearchParams searchParams;
          Ky.o_headers := getHeaders c;
          Ky.o_json := None;
          Ky.o_retry := Ky.RetryAbsent;
          Ky.o_timeout := None;
          Ky.o_throwHttpErrors := None |}
       script).

Definition makePostRequest (c : Client) (endpoint : string) (body : JSValue)
    (searchParams : option (list (string * JSValue))) (script : list Ky.Attempt)
  : Ky.Outcome (completion Thrown JSValue) :=
  settle response_json API_REQUEST_FAILED ("Failed to post to " +:+ endpoint)
    (Ky.create (baseUrl c +:+ endpoint)
       {| Ky.o_method := Some "post"%string;
          Ky.o_searchParams := option_map buildSearchParams searchParams;
          Ky.o_headers := getHeaders c;
          Ky.o_json := Some body;
          Ky.o_retry := Ky.RetryAbsent;
          Ky.o_timeout := None;
          Ky.o_throwHttpErrors := None |}
       script).

Definition makeRawRequest (c : Client) (url : string) (script : list Ky.Attempt)
  : Ky.Outcome (completion Thrown Ky.Response) :=
  settle (fun response => Return response) DOWNLOAD_FAILED
    ("Failed to download from " +:+ url)
    (Ky.create url
       {| Ky.o_method := Some "get"%string;
          Ky.o_searchParams := None;
          Ky.o_headers := getHeaders c;
          Ky.o_json := None;
          Ky.o_retry := Ky.RetryAbsent;
          Ky.o_timeout := None;
          Ky.o_throwHttpErrors := None |}
       script).

(** What [handleError] is given when ky's constructor refuses its input. *)
Definition input_TypeError : ErrorLike :=
  {| e_response := None; e_name := Some "TypeError"%string; e_code := None |}.

(** [makeRawRequest(url)] on a [url] read from a response body, which need
    not be a string. For anything else the constructor of [Ky] throws a
    TypeError inside the [try] ([this._input.headers] of [undefined] or
    [null], the check of line 458 for the rest), before any fetch. *)
Definition makeRawRequest_value (c : Client) (url : JSValue) : Call Ky.Response :=
  match url with
  | VStr s => makeRawRequest c s
  | _ =>
      throwing (Service (handleError input_TypeError DOWNLOAD_FAILED
                           ("Failed to download from " +:+ ToString url)))
  end.

End Requests.

End BaseAPIClient.

(** One turn of the loop of [buildSearchParams], and what it makes of a
    value that is defined. *)
Definition params_step `{Runtime} (params : list (string * JSValue))
    (kv : string * JSValue) : list (string * JSValue) :=
  match snd kv with
  | VUndefined => params
  | VArr items =>
      set_prop params (fst kv)
        (VStr (default EmptyString (JSON.stringify (VArr items))))
  | value => set_prop params (fst kv) value
  end.

Definition sent_value `{Runtime} (v : JSValue) : JSValue :=
  match v with
  | VArr items => VStr (default EmptyString (JSON.stringify (VArr items)))
  | _ => v
  end.

(** ** SpigetAPI (src/api/spiget.ts) *)

Module Spiget.

Record SpigetAPIOptions : Type := {
  opt_baseUrl : option string;
  opt_userAgent : option string
}.

Definition constructor (options : SpigetAPIOptions) : BaseAPIClient.Client :=
  BaseAPIClient.constructor
    (default "https://api.spiget.org/v2"%string (opt_baseUrl options))
    (opt_userAgent options).

Definition raise (code : ErrorCode) (message : string)
    (details : list (string * Detail)) : ServiceError :=
  {| class := SpigetError; code := code; message := message; details := details |}.

Definition handleError (error : ErrorLike) (defaultCode : ErrorCode)
    (defaultMessage : string) : ServiceError :=
  let fallthrough :=
    if is_network_error error then
      raise NETWORK_ERROR "Network error occurred" [("spigetError"%string, DCause error)]
    else raise defaultCode defaultMessage [("spigetError"%string, DCause error)] in
  match e_response error with
  | Some response =>
      let status := Ky.status response in
      let context :=
        [("status"%string, DValue (VNum (Num.of_Z status)));
         ("spigetError"%string, DCause error)] in
      if status =? 404 then raise RESOURCE_NOT_FOUND "Resource not found" context
      else if status =? 401 then raise UNAUTHORIZED "Unauthorized access" context
      else if status =? 429 then raise RATE_LIMIT_EXCEEDED "Rate limit exceeded" context
      else if (400 <=? status) && (status <? 500) then
        raise INVALID_SEARCH_PARAMETERS "Invalid request parameters" context
      else if 500 <=? status then raise API_REQUEST_FAILED "Server error" context
      else fallthrough
  | None => fallthrough
  end.

Section Methods.
Context `{Runtime}.

Definition getResource (c : BaseAPIClient.Client) (resourceId : number)
    (script : list Ky.Attempt) : Ky.Outcome (completion Thrown JSValue) :=
  BaseAPIClient.makeRequest handleError c
    ("/resources/" +:+ Number_toString resourceId) None script.

Definition downloadResource (c : BaseAPIClient.Client) (resourceId : number)
    (script : list Ky.Attempt) : Ky.Outcome (completion Thrown Ky.Response) :=
  let fetched := getResource c resourceId script in
  let stop (r : completion Thrown Ky.Response) :=
    {| Ky.result := Some r;
       Ky.events := Ky.events fetched;
       Ky.remaining := Ky.remaining fetched |} in
  match Ky.result fetched with
  | None =>
      {| Ky.result := None;
         Ky.events := Ky.events fetched;
         Ky.remaining := Ky.remaining fetched |}
  | Some (Throw e) => stop (Throw e)
  | Some (Return resource) =>
      match get_prop resource "external" with
      | None => stop (Throw TypeError)
      | Some external =>
          if truthy external then
            match get_prop resource "file" with
            | None => stop (Throw TypeError)
            | Some file =>
                match get_prop file "externalUrl" with
                | None => stop (Throw TypeError)
                | Some externalUrl =>
                    stop (Throw (Service (raise EXTERNAL_FILE_DOWNLOAD
                      ("Cannot download external resource "
                       +:+ Number_toString resourceId
                       +:+ ". Use externalUrl instead.")
                      [("resourceId"%string, DValue (VNum resourceId));
                       ("externalUrl"%string, DValue externalUrl)])))
                end
            end
          else
            let raw :=
              BaseAPIClient.makeRawRequest handleError c
                (BaseAPIClient.baseUrl c +:+ "/resources/"
                 +:+ Number_toString resourceId +:+ "/download")
                (Ky.remaining fetched) in
            {| Ky.result := Ky.result raw;
               Ky.events := Ky.events fetched ++ Ky.events raw;
               Ky.remaining := Ky.remaining raw |}
      end
  end.

(** [downloadResourceVersion(resourceId, versionId)], with
    [versionId: string | number]. *)
Definition downloadResourceVersion (c : BaseAPIClient.Client) (resourceId : number)
    (versionId : JSValue) : Call Ky.Response :=
  resource <~ getResource c resourceId ;
  external <~ reading (get_prop resource "external") ;
  if truthy external then
    (file <~ reading (get_prop resource "file") ;
     externalUrl <~ reading (get_prop file "externalUrl") ;
     throwing (Service (raise EXTERNAL_FILE_DOWNLOAD
       ("Cannot download external resource " +:+ Number_toString resourceId
        +:+ ". Use externalUrl instead.")
       [("resourceId"%string, DValue (VNum resourceId));
        ("versionId"%string, DValue versionId);
        ("externalUrl"%string, DValue externalUrl)])))
  else
    BaseAPIClient.makeRawRequest handleError c
      (BaseAPIClient.baseUrl c +:+ "/resources/" +:+ Number_toString resourceId
       +:+ "/versions/" +:+ ToString versionId +:+ "/download").

End Methods.

End Spiget.


(** ** Modrinth facets (src/types/modrinthType.ts) and ModrinthAPI
    (src/api/modrinth.ts) *)

Module Modrinth.

Inductive ModrinthFacetType : Type :=
| PROJECT_TYPE | CATEGORIES | VERSIONS | CLIENT_SIDE | SERVER_SIDE
| OPEN_SOURCE | TITLE | AUTHOR | FOLLOWS | PROJECT_ID | LICENSE
| DOWNLOADS | COLOR | CREATED_TIMESTAMP | MODIFIED_TIMESTAMP.

Definition facetTypeValue (t : ModrinthFacetType) : string :=
  match t with
  | PROJECT_TYPE => "project_type"
  | CATEGORIES => "categories"
  | VERSIONS => "versions"
  | CLIENT_SIDE => "client_side"
  | SERVER_SIDE => "server_side"
  | OPEN_SOURCE => "open_source"
  | TITLE => "title"
  | AUTHOR => "author"
  | FOLLOWS => "follows"
  | PROJECT_ID => "project_id"
  | LICENSE => "license"
  | DOWNLOADS => "downloads"
  | COLOR => "color"
  | CREATED_TIMESTAMP => "created_timestamp"
  | MODIFIED_TIMESTAMP => "modified_timestamp"
  end.

Inductive ModrinthFacetOperation : Type :=
| EQUAL | NOT_EQUAL | GREATER_THAN | GREATER_THAN_OR_EQUAL
| LESS_THAN | LESS_THAN_OR_EQUAL.

Definition operationValue (o : ModrinthFacetOperation) : string :=
  match o with
  | EQUAL => ":"
  | NOT_EQUAL => "!="
  | GREATER_THAN => ">"
  | GREATER_THAN_OR_EQUAL => ">="
  | LESS_THAN => "<"
  | LESS_THAN_OR_EQUAL => "<="
  end.

(** [value: string | number | boolean] *)
Inductive FacetValue : Type :=
| FString (s : string)
| FNumber (n : number)
| FBoolean (b : bool).

Record ModrinthFacet : Type := {
  type : ModrinthFacetType;
  operation : ModrinthFacetOperation;
  value : FacetValue
}.

(** A [ModrinthFacetGroup] is a mutable object: the store maps each group to
    the facets it holds now. A [ModrinthFacetBuilder] holds references to
    groups, not copies. *)
Definition facets_of (store : gmap nat (list ModrinthFacet)) (g : nat)
  : list ModrinthFacet :=
  default [] (store !! g).

Section Facets.
Context `{Runtime}.

(** The template literal [`${this.type}${this.operation}${this.value}`] *)
Definition toString (f : ModrinthFacet) : string :=
  facetTypeValue (type f) +:+ operationValue (operation f) +:+
  match value f with
  | FString s => s
  | FNumber n => Number_toString n
  | FBoolean b => if b then "true" else "false"
  end.

(** *** ModrinthFacetGroup *)

(** [new ModrinthFacetGroup(facets)]: a fresh object holding a copy. *)
Definition newGroup (store : gmap nat (list ModrinthFacet))
    (facets : list ModrinthFacet) : nat * gmap nat (list ModrinthFacet) :=
  let g := fresh (dom store) in
  (g, <[g := facets]> store).

Definition group_addFacet (store : gmap nat (list ModrinthFacet)) (g : nat)
    (facet : ModrinthFacet) : gmap nat (list ModrinthFacet) :=
  <[g := facets_of store g ++ [facet]]> store.

Definition group_clear (store : gmap nat (list ModrinthFacet)) (g : nat)
  : gmap nat (list ModrinthFacet) :=
  <[g := []]> store.

Definition isEmpty (store : gmap nat (list ModrinthFacet)) (g : nat) : bool :=
  (length (facets_of store g) =? 0)%nat.

Definition toArray (store : gmap nat (list ModrinthFacet)) (g : nat) : list string :=
  List.map toString (facets_of store g).

(** *** ModrinthFacetBuilder: its state is [this.groups]. *)

Definition addGroup (store : gmap nat (list ModrinthFacet)) (groups : list nat)
    (group : nat) : list nat :=
  if negb (isEmpty store group) then groups ++ [group] else groups.

Definition addFacet (store : gmap nat (list ModrinthFacet)) (groups : list nat)
    (facet : ModrinthFacet) : list nat * gmap nat (list ModrinthFacet) :=
  let (group, store') := newGroup store [facet] in
  (groups ++ [group], store').

(** [groups.forEach((group) => this.addGroup(group))] *)
Definition addGroups (store : gmap nat (list ModrinthFacet)) (groups : list nat)
    (added : list nat) : list nat :=
  fold_left (addGroup store) added groups.

(** A fresh builder after a sequence of [addGroup] calls; each call is given
    with the store as it was at that moment, so groups may have been changed
    between the calls. *)
Definition adding (calls : list (gmap nat (list ModrinthFacet) * nat)) : list nat :=
  fold_left (fun groups call => addGroup (fst call) groups (snd call)) calls [].

(** The value [JSON.stringify] is given: string arrays inside an array. *)
Definition array_of_arrays (rows : list (list string)) : JSValue :=
  VArr (List.map (fun row => VArr (List.map VStr row)) rows).

Definition build (store : gmap nat (list ModrinthFacet)) (groups : list nat)
  : string :=
  if (length groups =? 0)%nat then EmptyString
  else
    let facetArray := List.map (toArray store) groups in
    default EmptyString (JSON.stringify (array_of_arrays facetArray)).

(** *** ModrinthAPI.processFacets *)

(** [string | ModrinthFacetBuilder | ModrinthFacetGroup | ModrinthFacet[]],
    and whatever else reaches the last line at run time. *)
Inductive FacetsInput : Type :=
| RawString (s : string)
| Builder (groups : list nat)
| Group (g : nat)
| FacetArray (facets : list ModrinthFacet)
| Other.

Definition processFacets (store : gmap nat (list ModrinthFacet))
    (facets : FacetsInput) : string :=
  match facets with
  | RawString s => s
  | Builder groups => build store groups
  | Group g =>
      default EmptyString (JSON.stringify (array_of_arrays [toArray store g]))
  | FacetArray fs =>
      default EmptyString (JSON.stringify (array_of_arrays [List.map toString fs]))
  | Other => EmptyString
  end.

(** *** The other methods of ModrinthFacetGroup *)

(** [addFacets(facets)]: [this.facets.push(...facets)] *)
Definition group_addFacets (store : gmap nat (list ModrinthFacet)) (g : nat)
    (facets : list ModrinthFacet) : gmap nat (list ModrinthFacet) :=
  <[g := facets_of store g ++ facets]> store.

(** [size()] *)
Definition group_size (store : gmap nat (list ModrinthFacet)) (g : nat) : nat :=
  length (facets_of store g).

(** [toString()] of a group: [JSON.stringify(this.toArray())] *)
Definition group_toString (store : gmap nat (list ModrinthFacet)) (g : nat)
  : string :=
  default EmptyString (JSON.stringify (VArr (List.map VStr (toArray store g)))).

(** [ModrinthFacet.projectType], [.categories] and [.versions] *)
Definition facet_projectType (value : string) : ModrinthFacet :=
  {| type := PROJECT_TYPE; operation := EQUAL; value := FString value |}.

Definition facet_categories (value : string) : ModrinthFacet :=
  {| type := CATEGORIES; operation := EQUAL; value := FString value |}.

Definition facet_versions (value : string) : ModrinthFacet :=
  {| type := VERSIONS; operation := EQUAL; value := FString value |}.

(** [ModrinthFacetGroup.projectTypes(types)]: a new group, then
    [types.forEach((type) => group.addFacet(ModrinthFacet.projectType(type)))] *)
Definition group_projectTypes (store : gmap nat (list ModrinthFacet))
    (types : list string) : nat * gmap nat (list ModrinthFacet) :=
  let (group, store) := newGroup store [] in
  (group,
   fold_left (fun st t => group_addFacet st group (facet_projectType t)) types store).

Definition group_categories (store : gmap nat (list ModrinthFacet))
    (categories : list string) : nat * gmap nat (list ModrinthFacet) :=
  let (group, store) := newGroup store [] in
  (group,
   fold_left (fun st c => group_addFacet st group (facet_categories c))
     categories store).

Definition group_versions (store : gmap nat (list ModrinthFacet))
    (versions : list string) : nat * gmap nat (list ModrinthFacet) :=
  let (group, store) := newGroup store [] in
  (group,
   fold_left (fun st v => group_addFacet st group (facet_versions v)) versions store).

(** *** The other methods of ModrinthFacetBuilder *)

(** [facets.forEach((facet) => this.addFacet(facet))] *)
Definition addFacets (store : gmap nat (list ModrinthFacet)) (groups : list nat)
    (facets : list ModrinthFacet) : list nat * gmap nat (list ModrinthFacet) :=
  fold_left (fun builder facet => addFacet (snd builder) (fst builder) facet)
    facets (groups, store).

(** [removeGroup(group)]: [indexOf] finds the first reference to this very
    object, [splice(index, 1)] takes it out. *)
Fixpoint removeGroup (groups : list nat) (group : nat) : list nat :=
  match groups with
  | [] => []
  | g :: rest => if (g =? group)%nat then rest else g :: removeGroup rest group
  end.

(** [isEmpty()] and [size()] of the builder *)
Definition builder_isEmpty (groups : list nat) : bool := (length groups =? 0)%nat.

Definition builder_size (groups : list nat) : nat := length groups.

End Facets.

Definition raise (code : ErrorCode) (message : string)
    (details : list (string * Detail)) : ServiceError :=
  {| class := ModrinthError; code := code; message := message; details := details |}.

Definition handleError (error : ErrorLike) (defaultCode : ErrorCode)
    (defaultMessage : string) : ServiceError :=
  let fallthrough :=
    if is_network_error error then
      raise NETWORK_ERROR "Network error occurred" [("modrinthError"%string, DCause error)]
    else raise defaultCode defaultMessage [("modrinthError"%string, DCause error)] in
  match e_response error with
  | Some response =>
      let status := Ky.status response in
      let context :=
        [("status"%string, DValue (VNum (Num.of_Z status)));
         ("modrinthError"%string, DCause error)] in
      if status =? 404 then raise RESOURCE_NOT_FOUND "Resource not found" context
      else if status =? 401 then raise UNAUTHORIZED "Unauthorized access" context
      else if status =? 429 then raise RATE_LIMIT_EXCEEDED "Rate limit exceeded" context
      else if (400 <=? status) && (status <? 500) then
        raise INVALID_SEARCH_PARAMETERS "Invalid request parameters" context
      else if 500 <=? status then raise API_REQUEST_FAILED "Server error" context
      else fallthrough
  | None => fallthrough
  end.

(** *** ModrinthAPI: the methods *)

Module ModrinthSortIndex.

Inductive t : Type := RELEVANCE | DOWNLOADS | FOLLOWS | NEWEST | UPDATED.

Definition value (i : t) : string :=
  match i with
  | RELEVANCE => "relevance"
  | DOWNLOADS => "downloads"
  | FOLLOWS => "follows"
  | NEWEST => "newest"
  | UPDATED => "updated"
  end.

End ModrinthSortIndex.

Record ModrinthAPIOptions : Type := {
  opt_baseUrl : option string;
  opt_userAgent : option string
}.

Definition constructor (options : ModrinthAPIOptions) : BaseAPIClient.Client :=
  BaseAPIClient.constructor
    (BaseAPIClient.or_else (opt_baseUrl options) "https://api.modrinth.com/v2")
    (Some (BaseAPIClient.or_else (opt_userAgent options) "shulkers/1.0.0")).

(** A [facets] value of another type than the four shapes is [Other]; one
    that is falsy, like one that is absent, is [None]. *)
Record ModrinthSearchOptions : Type := {
  query : option string;
  facets : option FacetsInput;
  index : option ModrinthSortIndex.t;
  offset : option number;
  limit : option number
}.

(** ToBoolean of a [facets] value: objects are truthy. *)
Definition facets_truthy (f : FacetsInput) : bool :=
  match f with
  | RawString s => truthy_string s
  | _ => true
  end.

Section Methods.
Context `{Runtime}.

(** The [params] object of [searchProjects] (lines 112-122). *)
Definition searchParams (store : gmap nat (list ModrinthFacet))
    (options : ModrinthSearchOptions) : list (string * JSValue) :=
  let index := default ModrinthSortIndex.RELEVANCE (index options) in
  let offset := default (Num.of_Z 0) (offset options) in
  let limit := default (Num.of_Z 10) (limit options) in
  let params :=
    [("index"%string, VStr (ModrinthSortIndex.value index));
     ("offset"%string, VNum offset);
     ("limit"%string, VNum limit)] in
  let params :=
    match query options with
    | Some s => if truthy_string s then set_prop params "query" (VStr s) else params
    | None => params
    end in
  let params :=
    match facets options with
    | Some f =>
        if facets_truthy f
        then set_prop params "facets" (VStr (processFacets store f))
        else params
    | None => params
    end in
  params.

Definition searchProjects (store : gmap nat (list ModrinthFacet))
    (c : BaseAPIClient.Client) (options : ModrinthSearchOptions) : Call JSValue :=
  BaseAPIClient.makeRequest handleError c "/search" (Some (searchParams store options)).

(** [getRandomProjects(count = 10)]; the error carries no details. *)
Definition getRandomProjects (c : BaseAPIClient.Client) (count : option number)
  : Call JSValue :=
  let count := default (Num.of_Z 10) count in
  if Num.lt count (Num.of_Z 0) || Num.gt count (Num.of_Z 100) then
    throwing (Service (raise INVALID_SEARCH_PARAMETERS
                         "Count must be between 0 and 100" []))
  else
    BaseAPIClient.makeRequest handleError c "/projects_random"
      (Some [("count"%string, VNum count)]).

(** [getProjectVersions(id, options = {})]: [options] is the object the
    caller wrote. *)
Definition getProjectVersions (c : BaseAPIClient.Client) (id : string)
    (options : list (string * JSValue)) : Call JSValue :=
  BaseAPIClient.makeRequest handleError c ("/project/" +:+ id +:+ "/version")
    (Some options).

(** [getVersion(id)]: [id] may be what a response body held. *)
Definition getVersion (c : BaseAPIClient.Client) (id : JSValue) : Call JSValue :=
  BaseAPIClient.makeRequest handleError c ("/version/" +:+ ToString id) None.

Definition downloadFile (c : BaseAPIClient.Client) (url : JSValue)
  : Call Ky.Response :=
  BaseAPIClient.makeRawRequest_value handleError c url.

Definition downloadVersionFile (c : BaseAPIClient.Client) (versionId : JSValue)
  : Call Ky.Response :=
  version <~ getVersion c versionId ;
  files <~ reading (get_prop version "files") ;
  found <~ reading (array_find (fun file => get_prop file "primary") files) ;
  primaryFile <~ (if truthy found then returning found
                  else reading (first_item files)) ;
  if negb (truthy primaryFile) then
    throwing (Service (raise RESOURCE_NOT_FOUND
                         ("No files found for version " +:+ ToString versionId) []))
  else
    url <~ reading (get_prop primaryFile "url") ;
    downloadFile c url.

Definition downloadVersionFileByName (c : BaseAPIClient.Client)
    (versionId : JSValue) (filename : string) : Call Ky.Response :=
  version <~ getVersion c versionId ;
  files <~ reading (get_prop version "files") ;
  file <~ reading (array_find
                     (fun f => option_map (fun name => VBool (is_string filename name))
                                 (get_prop f "filename")) files) ;
  if negb (truthy file) then
    throwing (Service (raise RESOURCE_NOT_FOUND
                         ("File " +:+ filename +:+ " not found in version "
                          +:+ ToString versionId) []))
  else
    url <~ reading (get_prop file "url") ;
    downloadFile c url.

Definition downloadLatestProjectFile (c : BaseAPIClient.Client) (projectId : string)
    (options : list (string * JSValue)) : Call Ky.Response :=
  versions <~ getProjectVersions c projectId options ;
  len <~ reading (get_length versions) ;
  if is_zero len then
    throwing (Service (raise RESOURCE_NOT_FOUND
                         ("No versions found for project " +:+ projectId) []))
  else
    latest <~ reading (first_item versions) ;
    id <~ reading (get_prop latest "id") ;
    downloadVersionFile c id.

End Methods.

End Modrinth.

(** ** HangarAPI (src/api/hangar.ts) *)

Module Hangar.

Inductive HangarCategory : Type :=
| ADMIN_TOOLS | CHAT | DEV_TOOLS | ECONOMY | GAMEPLAY | GAMES
| PROTECTION | ROLE_PLAYING | WORLD_MANAGEMENT | MISC.

Definition categoryValue (c : HangarCategory) : string :=
  match c with
  | ADMIN_TOOLS => "admin_tools"
  | CHAT => "chat"
  | DEV_TOOLS => "dev_tools"
  | ECONOMY => "economy"
  | GAMEPLAY => "gameplay"
  | GAMES => "games"
  | PROTECTION => "protection"
  | ROLE_PLAYING => "role_playing"
  | WORLD_MANAGEMENT => "world_management"
  | MISC => "misc"
  end.

Inductive HangarPlatform : Type := PAPER | VELOCITY | WATERFALL.

Definition platformValue (p : HangarPlatform) : string :=
  match p with
  | PAPER => "PAPER"
  | VELOCITY => "VELOCITY"
  | WATERFALL => "WATERFALL"
  end.

Inductive HangarProjectSort : Type :=
| VIEWS | DOWNLOADS | NEWEST | STARS | UPDATED | RECENT_DOWNLOADS | RECENT_VIEWS.

Definition sortValue (s : HangarProjectSort) : string :=
  match s with
  | VIEWS => "views"
  | DOWNLOADS => "downloads"
  | NEWEST => "newest"
  | STARS => "stars"
  | UPDATED => "updated"
  | RECENT_DOWNLOADS => "recent_downloads"
  | RECENT_VIEWS => "recent_views"
  end.

(** [T | T[]] *)
Inductive OneOrMany (T : Type) : Type :=
| One (x : T)
| Many (xs : list T).
Arguments One {T} x.
Arguments Many {T} xs.

Record HangarProjectSearchOptions : Type := {
  q : option string;
  category : option (OneOrMany HangarCategory);
  platform : option (OneOrMany HangarPlatform);
  owner : option string;
  sort : option HangarProjectSort;
  limit : option number;
  offset : option number
}.

Record HangarAPIOptions : Type := {
  opt_baseUrl : option string;
  opt_userAgent : option string;
  opt_timeout : option number
}.

Definition constructor (options : HangarAPIOptions) : BaseAPIClient.Client :=
  BaseAPIClient.constructor
    (BaseAPIClient.or_else (opt_baseUrl options) "https://hangar.papermc.io/api/v1")
    (Some (BaseAPIClient.or_else (opt_userAgent options) "shulkers/1.0.0")).

Definition raise (code : ErrorCode) (message : string)
    (details : list (string * Detail)) : ServiceError :=
  {| class := HangarError; code := code; message := message; details := details |}.

Definition handleError (error : ErrorLike) (defaultCode : ErrorCode)
    (defaultMessage : string) : ServiceError :=
  let fallthrough :=
    if is_network_error error then
      raise NETWORK_ERROR "Network error occurred" [("hangarError"%string, DCause error)]
    else raise defaultCode defaultMessage [("hangarError"%string, DCause error)] in
  match e_response error with
  | Some response =>
      let status := Ky.status response in
      let context :=
        [("status"%string, DValue (VNum (Num.of_Z status)));
         ("hangarError"%string, DCause error)] in
      if status =? 404 then raise RESOURCE_NOT_FOUND "Resource not found" context
      else if (status =? 401) || (status =? 403) then
        raise UNAUTHORIZED
          "Unauthorized access - this endpoint may require authentication" context
      else if status =? 429 then raise RATE_LIMIT_EXCEEDED "Rate limit exceeded" context
      else if status =? 422 then
        raise VALIDATION_ERROR
          "Validation error - check your request parameters" context
      else if (400 <=? status) && (status <? 500) then
        raise INVALID_SEARCH_PARAMETERS "Invalid request parameters" context
      else if 500 <=? status then raise API_REQUEST_FAILED "Server error" context
      else fallthrough
  | None => fallthrough
  end.

(** [if (cond) params[key] = v] *)
Definition set_if (cond : bool) (key : string) (v : JSValue)
    (params : list (string * JSValue)) : list (string * JSValue) :=
  if cond then set_prop params key v else params.

(** The [params] object [searchProjects] builds (lines 127-152). *)
Definition searchParams (options : HangarProjectSearchOptions)
  : list (string * JSValue) :=
  let params := [] in
  let params :=
    match q options with
    | Some s => set_if (truthy_string s) "q" (VStr s) params
    | None => params
    end in
  let params :=
    match owner options with
    | Some s => set_if (truthy_string s) "owner" (VStr s) params
    | None => params
    end in
  let params :=
    match sort options with
    | Some s => set_if (truthy_string (sortValue s)) "sort" (VStr (sortValue s)) params
    | None => params
    end in
  let params :=
    match limit options with
    | Some l => set_prop params "limit" (VNum (Num.min l (Num.of_Z 25)))
    | None => params
    end in
  let params :=
    match offset options with
    | Some o => set_prop params "offset" (VNum o)
    | None => params
    end in
  let params :=
    match category options with
    | Some (One c) =>
        set_if (truthy_string (categoryValue c)) "category"
          (VArr [VStr (categoryValue c)]) params
    | Some (Many cs) =>
        set_prop params "category" (VArr (List.map (fun c => VStr (categoryValue c)) cs))
    | None => params
    end in
  let params :=
    match platform options with
    | Some (One p) =>
        set_if (truthy_string (platformValue p)) "platform"
          (VArr [VStr (platformValue p)]) params
    | Some (Many ps) =>
        set_prop params "platform" (VArr (List.map (fun p => VStr (platformValue p)) ps))
    | None => params
    end in
  params.

Inductive HangarVersionChannel : Type := RELEASE | SNAPSHOT | ALPHA | BETA.

Definition channelValue (c : HangarVersionChannel) : string :=
  match c with
  | RELEASE => "Release"
  | SNAPSHOT => "Snapshot"
  | ALPHA => "Alpha"
  | BETA => "Beta"
  end.

(** [HangarVersionSearchOptions]: [platform], [channel], [limit], [offset] *)
Record HangarVersionSearchOptions : Type := {
  version_platform : option (OneOrMany HangarPlatform);
  version_channel : option (OneOrMany HangarVersionChannel);
  version_limit : option number;
  version_offset : option number
}.

(** The [params] object [getProjectVersions] builds (lines 230-251). *)
Definition versionParams (options : HangarVersionSearchOptions)
  : list (string * JSValue) :=
  let params := [] in
  let params :=
    match version_limit options with
    | Some l => set_prop params "limit" (VNum l)
    | None => params
    end in
  let params :=
    match version_offset options with
    | Some o => set_prop params "offset" (VNum o)
    | None => params
    end in
  let params :=
    match version_platform options with
    | Some (One p) =>
        set_if (truthy_string (platformValue p)) "platform"
          (VArr [VStr (platformValue p)]) params
    | Some (Many ps) =>
        set_prop params "platform" (VArr (List.map (fun p => VStr (platformValue p)) ps))
    | None => params
    end in
  let params :=
    match version_channel options with
    | Some (One ch) =>
        set_if (truthy_string (channelValue ch)) "channel"
          (VArr [VStr (channelValue ch)]) params
    | Some (Many chs) =>
        set_prop params "channel" (VArr (List.map (fun ch => VStr (channelValue ch)) chs))
    | None => params
    end in
  params.

(** The [options] object [getLatestVersion] builds (lines 364-366). *)
Definition latestOptions (platform : option HangarPlatform)
    (channel : option HangarVersionChannel) : HangarVersionSearchOptions := {|
  version_limit := Some (Num.of_Z 1);
  version_platform :=
    match platform with
    | Some p => if truthy_string (platformValue p) then Some (One p) else None
    | None => None
    end;
  version_channel :=
    match channel with
    | Some ch => if truthy_string (channelValue ch) then Some (One ch) else None
    | None => None
    end;
  version_offset := None
|}.

(** An optional enum member as a value: [undefined] when it is absent. *)
Definition optional_value {T} (value : T -> string) (x : option T) : JSValue :=
  match x with
  | Some t => VStr (value t)
  | None => VUndefined
  end.

Section Methods.
Context `{Runtime}.

Definition searchProjects (c : BaseAPIClient.Client)
    (options : HangarProjectSearchOptions) (script : list Ky.Attempt)
  : Ky.Outcome (completion Thrown JSValue) :=
  BaseAPIClient.makeRequest handleError c "/projects" (Some (searchParams options))
    script.

(** [slugOrId: string | number] is carried as the value it is. *)
Definition getProjectVersions (c : BaseAPIClient.Client) (slugOrId : JSValue)
    (options : HangarVersionSearchOptions) : Call JSValue :=
  BaseAPIClient.makeRequest handleError c
    ("/projects/" +:+ ToString slugOrId +:+ "/versions")
    (Some (versionParams options)).

(** [getProjectVersion(slugOrId, version)]: [version] may be what a response
    body held. *)
Definition getProjectVersion (c : BaseAPIClient.Client) (slugOrId version : JSValue)
  : Call JSValue :=
  BaseAPIClient.makeRequest handleError c
    ("/projects/" +:+ ToString slugOrId +:+ "/versions/" +:+ ToString version) None.

Definition downloadVersion (c : BaseAPIClient.Client) (slugOrId version : JSValue)
    (platform : HangarPlatform) : Call Ky.Response :=
  versionDetails <~ getProjectVersion c slugOrId version ;
  downloads <~ reading (get_prop versionDetails "downloads") ;
  downloadInfo <~ reading (get_prop downloads (platformValue platform)) ;
  if negb (truthy downloadInfo) then
    (availablePlatforms <~ reading (keys downloads) ;
     throwing (Service (raise RESOURCE_NOT_FOUND
       ("Version " +:+ ToString version +:+ " is not available for platform "
        +:+ platformValue platform)
       [("slugOrId"%string, DValue slugOrId);
        ("version"%string, DValue version);
        ("platform"%string, DValue (VStr (platformValue platform)));
        ("availablePlatforms"%string,
         DValue (VArr (List.map VStr availablePlatforms)))])))
  else
    url <~ reading (get_prop downloadInfo "downloadUrl") ;
    BaseAPIClient.makeRawRequest_value handleError c url.

Definition getLatestVersion (c : BaseAPIClient.Client) (slugOrId : JSValue)
    (platform : option HangarPlatform) (channel : option HangarVersionChannel)
  : Call JSValue :=
  versionsResult <~ getProjectVersions c slugOrId (latestOptions platform channel) ;
  result <~ reading (get_prop versionsResult "result") ;
  len <~ reading (get_length result) ;
  if is_zero len then
    throwing (Service (raise RESOURCE_NOT_FOUND
      ("No versions found for project " +:+ ToString slugOrId)
      [("slugOrId"%string, DValue slugOrId);
       ("platform"%string, DValue (optional_value platformValue platform));
       ("channel"%string, DValue (optional_value channelValue channel))]))
  else
    latestVersionCompact <~ reading (first_item result) ;
    name <~ reading (get_prop latestVersionCompact "name") ;
    getProjectVersion c slugOrId name.

Definition downloadLatestVersion (c : BaseAPIClient.Client) (slugOrId : JSValue)
    (platform : HangarPlatform) (channel : option HangarVersionChannel)
  : Call Ky.Response :=
  latestVersion <~ getLatestVersion c slugOrId (Some platform) channel ;
  name <~ reading (get_prop latestVersion "name") ;
  downloadVersion c slugOrId name platform.

End Methods.

End Hangar.


(** The [handleError] each client class supplies. *)
Definition handleError_of (service : ErrorClass)
  : ErrorLike -> ErrorCode -> string -> ServiceError :=
  match service with
  | SpigetError => Spiget.handleError
  | ModrinthError => Modrinth.handleError
  | HangarError => Hangar.handleError
  end.

(** No status branch of [handleError] applies: there is no response, or its
    status is below 400. *)
Definition no_status_branch (error : ErrorLike) : Prop :=
  match e_response error with
  | None => True
  | Some response => Ky.status response < 400
  end.

(** Every [fetch] the events record was of this request under this timer. *)
Definition fetches_only (request : Ky.Request) (timer : number)
    (events : list Ky.Event) : Prop :=
  Forall (fun e => match e with
                   | Ky.EvFetch r t => r = request /\ t = timer
                   | Ky.EvDelay _ => True
                   end) events.

(** Whether a file of a version is flagged primary, and the file
    [downloadVersionFile] is to pick: the first one flagged primary or, when
    none is, the first file. *)
Definition is_primary (file : JSValue) : bool :=
  truthy (default VUndefined (get_prop file "primary")).

Definition primary_or_first (files : list JSValue) : JSValue :=
  match List.filter is_primary files with
  | file :: _ => file
  | [] => List.hd VUndefined files
  end.

(** An answer that ky's defaults retry by backoff: a retry status other
    than 413, with none of the four hint headers. *)
Definition retried_by_backoff (response : Ky.Response) : Prop :=
  Ky.status response ∈ Ky.retryStatusCodes
  /\ Ky.status response <> 413
  /\ Ky.retryAfterHeader response = None.

(** Counting what a call did. *)
Definition is_fetch (e : Ky.Event) : bool :=
  match e with
  | Ky.EvFetch _ _ => true
  | Ky.EvDelay _ => false
  end.

Definition is_delay (e : Ky.Event) : bool := negb (is_fetch e).

Definition fetch_count (events : list Ky.Event) : nat :=
  length (List.filter is_fetch events).

Definition delay_count (events : list Ky.Event) : nat :=
  length (List.filter is_delay events).

(** The URLs fetched, in order. *)
Definition fetched_urls (events : list Ky.Event) : list string :=
  List.flat_map (fun e => match e with
                          | Ky.EvFetch request _ => [Ky.r_url request]
                          | Ky.EvDelay _ => []
                          end) events.

(** A pause within [maxSafeTimeout]. *)
Definition pause_within (e : Ky.Event) : Prop :=
  match e with
  | Ky.EvDelay ms => Num.gt ms Ky.maxSafeTimeout = false
  | Ky.EvFetch _ _ => True
  end.

(** ** The wording of the specification, to compare the code with *)

Module Spec.

Section Wait.
Context `{Runtime}.

(** Section 4.1, step 3: a value that parses as a number is seconds from
    now, unless in milliseconds it reaches the epoch threshold, when it is an
    absolute time and now is subtracted; any other value is an HTTP date, and
    the wait is its distance from now. *)
Definition header_wait (now : number) (retryAfter : string) : number :=
  let seconds := JS_Number retryAfter in
  if Num.isNaN seconds then Num.sub (Date_parse retryAfter) now
  else
    let ms := Num.mul seconds (Num.of_Z 1000) in
    if Num.ge ms (Date_parse "2024-01-01") then Num.sub ms now else ms.

(** Clamping from above: the wait while it is below the maximum, the
    maximum otherwise; no clamping when no maximum is configured. *)
Definition clamp (wait : number) (maximum : option number) : number :=
  match maximum with
  | Some m => if Num.lt wait m then wait else m
  | None => wait
  end.

Definition retry_wait (now : number) (retryAfter : string)
    (maximum : option number) : number :=
  clamp (header_wait now retryAfter) maximum.

End Wait.

(** Section 4.2, the mapping table: the listed statuses, then 400-499, then
    500-599; a failure without a response that names a network error; the
    caller's default for any other input. *)

Definition mapped_code (service : ErrorClass) (error : ErrorLike)
    (defaultCode : ErrorCode) : ErrorCode :=
  let hangar := match service with HangarError => true | _ => false end in
  match e_response error with
  | Some response =>
      let status := Ky.status response in
      if status =? 404 then RESOURCE_NOT_FOUND
      else if (status =? 401) || (hangar && (status =? 403)) then UNAUTHORIZED
      else if status =? 429 then RATE_LIMIT_EXCEEDED
      else if hangar && (status =? 422) then VALIDATION_ERROR
      else if (400 <=? status) && (status <=? 499) then INVALID_SEARCH_PARAMETERS
      else if (500 <=? status) && (status <=? 599) then API_REQUEST_FAILED
      else defaultCode
  | None => if is_network_error error then NETWORK_ERROR else defaultCode
  end.

End Spec.

(** ** A concrete runtime for the examples

    [Number] on the empty string and on unsigned decimal integers,
    [Date.parse] at two sample dates, and the decimal form of integers.
    Outside these inputs the three functions below are placeholders; the
    theorems never depend on them, only the closed examples do. *)

Module Sample.

Fixpoint digits (acc : Z) (s : string) : option Z :=
  match s with
  | EmptyString => Some acc
  | String c r =>
      let n := N_of_ascii c in
      if ((48 <=? n) && (n <=? 57))%N
      then digits (10 * acc + Z.of_N (n - 48)) r
      else None
  end.

(** [Number("") = 0], [Number("120") = 120] *)
Definition number_of_string (s : string) : number :=
  match digits 0 s with
  | Some z => Num.of_Z z
  | None => NaN
  end.

(** [Date.parse("2024-01-01") = 1704067200000] and
    [Date.parse("Wed, 21 Oct 2015 07:28:00 GMT") = 1445412480000] *)
Definition date_parse (s : string) : number :=
  if String.eqb s "2024-01-01" then Num.of_Z 1704067200000
  else if String.eqb s "Wed, 21 Oct 2015 07:28:00 GMT" then Num.of_Z 1445412480000
  else NaN.

Definition string_of_number (n : number) : string :=
  match n with
  | Fin q => NilZero.string_of_int (Z.to_int (Qnum q / Zpos (Qden q)))
  | PosInf => "Infinity"
  | NegInf => "-Infinity"
  | NaN => "NaN"
  end.

Definition runtime : Runtime := {|
  JS_Number := number_of_string;
  Date_parse := date_parse;
  Number_toString := string_of_number
|}.

(** A server that answers after 50 ms; the failure handler reads the clock
    at 1,800,000,000,000 ms. *)
Definition answering (response : Ky.Response) : Ky.Attempt := {|
  Ky.latency := Num.of_Z 50;
  Ky.answer := inl response;
  Ky.clock := Num.of_Z 1800000000000
|}.

(** A server that never answers. *)
Definition silent : Ky.Attempt := {|
  Ky.latency := PosInf;
  Ky.answer := inr {| Ky.failure_name := "AbortError"; Ky.failure_code := None |};
  Ky.clock := Num.of_Z 1800000000000
|}.

Definition respond (status : Z) (headers : list (string * string))
    (body : option JSValue) : Ky.Response := {|
  Ky.status := status;
  Ky.headers := list_to_map headers;
  Ky.body := body
|}.

Definition ok_empty : Ky.Response := respond 200 [] None.
Definition too_large : Ky.Response := respond 413 [] None.
Definition too_large_hinted : Ky.Response :=
  respond 413 [("retry-after", "2")]%string None.
Definition limited_blank : Ky.Response :=
  respond 429 [("retry-after", "")]%string None.
Definition unavailable_2s : Ky.Response :=
  respond 503 [("retry-after", "2")]%string None.
Definition now : number := Num.of_Z 1800000000000.
Definition status_600 : Ky.Response := respond 600 [] None.
Definition external_file : JSValue :=
  VObj [("type", VStr "external");
        ("externalUrl", VStr "https://example.org/plugin.jar")]%string.
Definition external_resource : JSValue :=
  VObj [("id", VNum (Num.of_Z 42));
        ("external", VBool true);
        ("file", external_file)]%string.
Definition spiget : BaseAPIClient.Client :=
  Spiget.constructor {| Spiget.opt_baseUrl := None; Spiget.opt_userAgent := None |}.
Definition slow (response : Ky.Response) : Ky.Attempt := {|
  Ky.latency := Num.of_Z 7000;
  Ky.answer := inl response;
  Ky.clock := now
|}.

Definition external_script : list Ky.Attempt :=
  [answering (respond 200 [] (Some external_resource)); answering ok_empty].

Definition hangar : BaseAPIClient.Client :=
  Hangar.constructor {| Hangar.opt_baseUrl := None;
                        Hangar.opt_userAgent := None;
                        Hangar.opt_timeout := None |}.

(** [{ q: "", category: "chat", limit: 30, offset: 0 }] *)
Definition blank_query : Hangar.HangarProjectSearchOptions := {|
  Hangar.q := Some ""%string;
  Hangar.category := Some (Hangar.One Hangar.CHAT);
  Hangar.platform := None;
  Hangar.owner := None;
  Hangar.sort := None;
  Hangar.limit := Some (Num.of_Z 30);
  Hangar.offset := Some (Num.of_Z 0)
|}.

(** [{ q: "worldedit", platform: ["PAPER", "VELOCITY"], sort: "downloads",
       limit: 100 }] *)
Definition worldedit_query : Hangar.HangarProjectSearchOptions := {|
  Hangar.q := Some "worldedit"%string;
  Hangar.category := None;
  Hangar.platform := Some (Hangar.Many [Hangar.PAPER; Hangar.VELOCITY]);
  Hangar.owner := None;
  Hangar.sort := Some Hangar.DOWNLOADS;
  Hangar.limit := Some (Num.of_Z 100);
  Hangar.offset := None
|}.

(** Writes a text with apostrophes for its double quotes. *)
Fixpoint dq (s : string) : string :=
  match s with
  | EmptyString => EmptyString
  | String c r => String (if Ascii.eqb c "'" then JSON.dquote else c) (dq r)
  end.

Definition version (v : string) : Modrinth.ModrinthFacet := {|
  Modrinth.type := Modrinth.VERSIONS;
  Modrinth.operation := Modrinth.EQUAL;
  Modrinth.value := Modrinth.FString v
|}.

Definition popular : Modrinth.ModrinthFacet := {|
  Modrinth.type := Modrinth.DOWNLOADS;
  Modrinth.operation := Modrinth.GREATER_THAN_OR_EQUAL;
  Modrinth.value := Modrinth.FNumber (Num.of_Z 1000)
|}.

(** Group 0 holds two version facets, group 1 is empty, group 2 holds one
    download facet. *)
Definition groups : gmap nat (list Modrinth.ModrinthFacet) :=
  <[0%nat := [version "1.20.1"; version "1.19.4"]]>
    (<[1%nat := []]> (<[2%nat := [popular]]> ∅)).

Definition get : Ky.Options := {|
  Ky.o_method := Some "get"%string;
  Ky.o_searchParams := None;
  Ky.o_headers := [];
  Ky.o_json := None;
  Ky.o_retry := Ky.RetryAbsent;
  Ky.o_timeout := None;
  Ky.o_throwHttpErrors := None
|}.


Definition modrinth : BaseAPIClient.Client :=
  Modrinth.constructor {| Modrinth.opt_baseUrl := None;
                          Modrinth.opt_userAgent := None |}.

(** A version with two files, the second flagged primary. *)
Definition version_files : list JSValue :=
  [VObj [("url", VStr "https://cdn.modrinth.com/data/AANobbMI/sodium-sources.jar");
         ("filename", VStr "sodium-sources.jar");
         ("primary", VBool false)];
   VObj [("url", VStr "https://cdn.modrinth.com/data/AANobbMI/sodium.jar");
         ("filename", VStr "sodium.jar");
         ("primary", VBool true)]]%string.

Definition version_body : JSValue :=
  VObj [("id", VStr "Yp8wLY1P"); ("files", VArr version_files)]%string.

Definition version_script : list Ky.Attempt :=
  [answering (respond 200 [] (Some version_body)); answering ok_empty].

(** The versions of a project, newest first, then that version, then its
    file. *)
Definition latest_file_script : list Ky.Attempt :=
  answering (respond 200 [] (Some (VArr [VObj [("id", VStr "Yp8wLY1P")];
                                         VObj [("id", VStr "rAfhHfow")]])))%string
  :: version_script.

(** A Hangar version that is available for Paper only. *)
Definition paper_only : JSValue :=
  VObj [("name", VStr "7.2.15");
        ("downloads",
         VObj [("PAPER",
                VObj [("downloadUrl",
                       VStr "https://hangar.papermc.io/api/v1/projects/WorldEdit/versions/7.2.15/PAPER/download")])])]%string.

(** A page of versions with one entry, and an empty page. *)
Definition one_version : JSValue :=
  VObj [("pagination", VObj [("count", VNum (Num.of_Z 1))]);
        ("result", VArr [VObj [("name", VStr "7.2.15")]])]%string.

Definition no_version : JSValue :=
  VObj [("pagination", VObj [("count", VNum (Num.of_Z 0))]);
        ("result", VArr [])]%string.

(** A resource hosted by Spiget, then its file. *)
Definition hosted_script : list Ky.Attempt :=
  [answering (respond 200 [] (Some (VObj [("external"%string, VBool false)])));
   answering ok_empty].

End Sample.


(** * Properties *)

(** ** Numbers *)

Lemma isNaN_times_1000 (x : number) :
  Num.isNaN (Num.mul x (Num.of_Z 1000)) = Num.isNaN x.
Proof. destruct x; reflexivity. Qed.

(** The conditional [a < b ? a : b] is [Math.min(a, b)] unless [a] is NaN. *)
Lemma conditional_is_min (a b : number) :
  Num.isNaN a = false -> (if Num.lt a b then a else b) = Num.min a b.
Proof. destruct a, b; simpl; intros E; solve [reflexivity | discriminate E]. Qed.

Lemma truthy_string_nonempty (s : string) : s <> EmptyString -> truthy_string s = true.
Proof.
  intros Hs. unfold truthy_string.
  destruct (String.eqb_spec s ""); [contradiction | reflexivity].
Qed.

(** ** Strings *)

Lemma length_app (s t : string) :
  String.length (s +:+ t) = (String.length s + String.length t)%nat.
Proof. induction s as [|c s IH]; simpl; [reflexivity | now rewrite IH]. Qed.

Lemma app_longer (s t : string) : t <> EmptyString -> s <> s +:+ t.
Proof.
  intros Ht E. apply (f_equal String.length) in E. rewrite length_app in E.
  destruct t; [contradiction | simpl in E; lia].
Qed.

(** ** JSON text: writing and reading back *)

Lemma app_cons (x : ascii) (a b : string) : String x a +:+ b = String x (a +:+ b).
Proof. reflexivity. Qed.

Lemma app_nil (b : string) : EmptyString +:+ b = b.
Proof. reflexivity. Qed.

Lemma app_assoc_string (a b c : string) : (a +:+ b) +:+ c = a +:+ (b +:+ c).
Proof.
  induction a as [|x a IH]; [reflexivity|].
  rewrite !app_cons. now rewrite IH.
Qed.

Section Writing.
Context `{Runtime}.

Lemma stringify_strings (row : list string) :
  List.map (fun x => default "null"%string (JSON.stringify x)) (List.map VStr row)
  = List.map JSON.QuoteJSONString row.
Proof. induction row as [|s row IH]; simpl; [reflexivity | now rewrite IH]. Qed.

Lemma stringify_row (row : list string) :
  JSON.stringify (VArr (List.map VStr row)) = Some (JSON.row_text row).
Proof. cbn [JSON.stringify]. now rewrite stringify_strings. Qed.

Lemma stringify_rows (rows : list (list string)) :
  List.map (fun x => default "null"%string (JSON.stringify x))
    (List.map (fun row => VArr (List.map VStr row)) rows)
  = List.map JSON.row_text rows.
Proof.
  induction rows as [|row rows IH]; [reflexivity|].
  cbn [List.map]. rewrite IH, stringify_row. reflexivity.
Qed.

(** [JSON.stringify] of an array of string arrays is the wire format. *)
Lemma stringify_array_of_arrays (rows : list (list string)) :
  JSON.stringify (Modrinth.array_of_arrays rows) = Some (JSON.wire_format rows).
Proof.
  unfold Modrinth.array_of_arrays. cbn [JSON.stringify].
  now rewrite stringify_rows.
Qed.

End Writing.

(** Reading one quoted character gives the character back. *)
Lemma parse_quote_char (c : ascii) (tail : string) :
  JSON.parse_chars (JSON.quote_char c +:+ tail)
  = JSON.push_char c (JSON.parse_chars tail).
Proof.
  destruct c as [[] [] [] [] [] [] [] []]; reflexivity.
Qed.

Lemma parse_quote_chars (s rest : string) :
  JSON.parse_chars (JSON.quote_chars s +:+ String JSON.dquote rest) = Some (s, rest).
Proof.
  induction s as [|c s IH].
  - reflexivity.
  - cbn [JSON.quote_chars]. rewrite app_assoc_string, parse_quote_char, IH.
    reflexivity.
Qed.

Lemma quoted_then (s rest : string) :
  JSON.QuoteJSONString s +:+ rest
  = String JSON.dquote (JSON.quote_chars s +:+ String JSON.dquote rest).
Proof.
  unfold JSON.QuoteJSONString.
  now rewrite app_cons, app_assoc_string, app_cons, app_nil.
Qed.

Lemma parse_value_string (fuel : nat) (s rest : string) :
  JSON.parse_value (S fuel) (JSON.QuoteJSONString s +:+ rest) = Some (VStr s, rest).
Proof.
  rewrite quoted_then. cbn [JSON.parse_value].
  change (Ascii.eqb JSON.dquote JSON.dquote) with true. cbv iota.
  now rewrite parse_quote_chars.
Qed.

Lemma parse_elements_step (fuel : nat) (s : string) :
  JSON.parse_elements (S fuel) s =
    match JSON.parse_value fuel s with
    | Some (v, String "," rest) =>
        match JSON.parse_elements fuel rest with
        | Some (vs, rest') => Some (v :: vs, rest')
        | None => None
        end
    | Some (v, String "]" rest) => Some ([v], rest)
    | _ => None
    end.
Proof. reflexivity. Qed.

Lemma concat_cons (sep x y : string) (l : list string) :
  String.concat sep (x :: y :: l) = x +:+ sep +:+ String.concat sep (y :: l).
Proof. reflexivity. Qed.

(** The elements of a non-empty array of strings. *)
Lemma parse_elements_strings (row : list string) :
  forall (x : string) (fuel : nat) (rest : string),
    (length row + 1 <= fuel)%nat ->
    JSON.parse_elements (S fuel)
      (String.concat "," (List.map JSON.QuoteJSONString (x :: row))
       +:+ String "]" rest)
    = Some (List.map VStr (x :: row), rest).
Proof.
  induction row as [|y row IH]; intros x fuel rest Hfuel.
  - destruct fuel as [|fuel]; [simpl in Hfuel; lia|].
    rewrite parse_elements_step. cbn [List.map String.concat].
    rewrite parse_value_string. reflexivity.
  - destruct fuel as [|fuel]; [simpl in Hfuel; lia|].
    rewrite parse_elements_step. cbn [List.map].
    rewrite concat_cons, !app_assoc_string, parse_value_string.
    rewrite app_cons, app_nil. cbv beta iota.
    pose proof (IH y fuel rest) as IHy. cbn [List.map] in IHy.
    rewrite IHy; [reflexivity | simpl in Hfuel; lia].
Qed.

Lemma brackets_then (inner rest : string) :
  JSON.brackets inner +:+ rest = String "[" (inner +:+ String "]" rest).
Proof.
  unfold JSON.brackets.
  now rewrite !app_cons, !app_nil, app_assoc_string, app_cons, app_nil.
Qed.

Lemma concat_quoted_head (x : string) (row : list string) (tail : string) :
  exists t, String.concat "," (List.map JSON.QuoteJSONString (x :: row)) +:+ tail
            = String JSON.dquote t.
Proof.
  destruct row as [|y row]; cbn [List.map]; [cbn [String.concat]|rewrite concat_cons];
    unfold JSON.QuoteJSONString at 1; rewrite app_cons; eexists; reflexivity.
Qed.

Lemma parse_value_array (fuel : nat) (r t : string) (c : ascii) :
  r = String c t -> Ascii.eqb c "]" = false ->
  JSON.parse_value (S fuel) (String "[" r) =
    match JSON.parse_elements fuel r with
    | Some (items, rest) => Some (VArr items, rest)
    | None => None
    end.
Proof.
  intros -> Hc. cbn [JSON.parse_value].
  change (Ascii.eqb "[" JSON.dquote) with false.
  change (Ascii.eqb "[" "[") with true. cbv beta iota.
  destruct c as [[] [] [] [] [] [] [] []]; try discriminate Hc; reflexivity.
Qed.

(** An array of strings, read as a value. *)
Lemma parse_value_row (row : list string) (fuel : nat) (rest : string) :
  (length row + 2 <= fuel)%nat ->
  JSON.parse_value fuel (JSON.row_text row +:+ rest)
  = Some (VArr (List.map VStr row), rest).
Proof.
  intros Hfuel. destruct fuel as [|fuel]; [lia|].
  unfold JSON.row_text. rewrite brackets_then.
  destruct row as [|x row].
  - reflexivity.
  - destruct fuel as [|fuel]; [simpl in Hfuel; lia|].
    destruct (concat_quoted_head x row (String "]" rest)) as [t Ht].
    rewrite (parse_value_array (S fuel) _ t JSON.dquote Ht eq_refl).
    rewrite parse_elements_strings by (simpl in Hfuel; lia).
    reflexivity.
Qed.

(** The elements of a non-empty array of string arrays. *)
Lemma parse_elements_rows (rows : list (list string)) :
  forall (row : list string) (fuel : nat) (rest : string),
    (JSON.fuel_for (row :: rows) <= fuel)%nat ->
    JSON.parse_elements (S fuel)
      (String.concat "," (List.map JSON.row_text (row :: rows)) +:+ String "]" rest)
    = Some (List.map (fun r => VArr (List.map VStr r)) (row :: rows), rest).
Proof.
  induction rows as [|next rows IH]; intros row fuel rest Hfuel;
    cbn [JSON.fuel_for] in Hfuel.
  - rewrite parse_elements_step. cbn [List.map String.concat].
    rewrite parse_value_row by lia. reflexivity.
  - destruct fuel as [|fuel]; [lia|].
    rewrite parse_elements_step. cbn [List.map].
    rewrite concat_cons, !app_assoc_string, parse_value_row by lia.
    rewrite app_cons, app_nil. cbv beta iota.
    pose proof (IH next fuel rest) as IHnext. cbn [List.map JSON.fuel_for] in IHnext.
    rewrite IHnext by lia. reflexivity.
Qed.

(** The wire format, read as a value. *)
Lemma parse_value_wire (rows : list (list string)) (fuel : nat) (rest : string) :
  (JSON.fuel_for rows + 1 <= fuel)%nat ->
  JSON.parse_value (S fuel) (JSON.wire_format rows +:+ rest)
  = Some (Modrinth.array_of_arrays rows, rest).
Proof.
  intros Hfuel. unfold JSON.wire_format, Modrinth.array_of_arrays.
  rewrite brackets_then.
  destruct rows as [|row rows].
  - reflexivity.
  - destruct fuel as [|fuel]; [lia|].
    assert (exists t, String.concat "," (List.map JSON.row_text (row :: rows))
                      +:+ String "]" rest = String "[" t) as [t Ht].
    { destruct rows as [|next rows]; cbn [List.map];
        [cbn [String.concat]|rewrite concat_cons];
        unfold JSON.row_text at 1; unfold JSON.brackets;
        rewrite !app_cons; eexists; reflexivity. }
    rewrite (parse_value_array (S fuel) _ t "[" Ht eq_refl).
    rewrite parse_elements_rows by lia.
    reflexivity.
Qed.

Lemma length_quoted (s : string) : (2 <= String.length (JSON.QuoteJSONString s))%nat.
Proof.
  unfold JSON.QuoteJSONString. cbn [String.length]. rewrite length_app. simpl. lia.
Qed.

Lemma length_brackets (inner : string) :
  String.length (JSON.brackets inner) = (String.length inner + 2)%nat.
Proof.
  unfold JSON.brackets. rewrite app_cons, app_nil. cbn [String.length].
  rewrite length_app. simpl. lia.
Qed.

Lemma length_concat_quoted (row : list string) :
  (length row <= S (String.length (String.concat "," (List.map JSON.QuoteJSONString row))))%nat.
Proof.
  induction row as [|x row IH]; [simpl; lia|].
  destruct row as [|y row].
  - cbn [List.map String.concat length]. pose proof (length_quoted x). lia.
  - cbn [List.map]. rewrite concat_cons, !length_app.
    cbn [List.map] in IH. pose proof (length_quoted x).
    cbn [length] in *. simpl String.length at 2. lia.
Qed.

Lemma length_row_text (row : list string) :
  (length row + 1 <= String.length (JSON.row_text row))%nat.
Proof.
  unfold JSON.row_text. rewrite length_brackets.
  pose proof (length_concat_quoted row). lia.
Qed.

Lemma fuel_for_bound (rows : list (list string)) :
  (JSON.fuel_for rows
   <= String.length (String.concat "," (List.map JSON.row_text rows)) + 1)%nat.
Proof.
  induction rows as [|row rows IH]; [simpl; lia|].
  cbn [JSON.fuel_for].
  pose proof (length_row_text row) as Hrow.
  destruct rows as [|next rows].
  - cbn [List.map String.concat JSON.fuel_for]. lia.
  - cbn [List.map] in *. rewrite concat_cons, !length_app.
    simpl String.length at 2. lia.
Qed.

(** Reading the wire format back gives the rows it was written from. *)
Lemma parse_wire_format (rows : list (list string)) :
  JSON.parse (JSON.wire_format rows) = Some (Modrinth.array_of_arrays rows).
Proof.
  unfold JSON.parse.
  pose proof (parse_value_wire rows (String.length (JSON.wire_format rows)) "") as Hp.
  assert (Hnil : forall s, s +:+ "" = s).
  { induction s as [|c s IHs]; [reflexivity|]. rewrite app_cons. now rewrite IHs. }
  rewrite Hnil in Hp. rewrite Hp; [reflexivity|].
  unfold JSON.wire_format. rewrite length_brackets.
  pose proof (fuel_for_bound rows). lia.
Qed.

(** ** The retry engine *)

Section RetryFacts.
Context `{Runtime}.

(** Every call increments the counter. *)
Lemma calculateRetryDelay_counts (r : Ky.RetryOptions) (now : number) (n : nat)
    (error : Ky.KyError) :
  fst (Ky._calculateRetryDelay r now n error) = S n.
Proof. reflexivity. Qed.

Lemma calculateRetryDelay_timeout (r : Ky.RetryOptions) (now : number) (n : nat) :
  snd (Ky._calculateRetryDelay r now n Ky.TimeoutError) = Throw Ky.TimeoutError.
Proof.
  unfold Ky._calculateRetryDelay; simpl.
  now rewrite orb_true_r.
Qed.

(** An attempt that ends in anything but the RangeError did fetch. *)
Lemma attempt_fetched (o : Ky.KyOptions) (request : Ky.Request) (a : Ky.Attempt)
    (c : completion Ky.KyError Ky.Response) :
  Ky.function_ o a = c -> c <> Throw Ky.RangeError ->
  Ky.attempt_events o request = [Ky.EvFetch request (Ky.timeout_ms o)].
Proof.
  unfold Ky.function_, Ky.attempt_events.
  destruct (Num.gt (Ky.timeout_ms o) Ky.maxSafeTimeout); [|reflexivity].
  intros <- Hc. now contradiction Hc.
Qed.

(** The timer decides: an attempt times out exactly when the server does not
    answer before a timer that is within [maxSafeTimeout]. *)
Lemma timeout_fires (a : Ky.Attempt) (o : Ky.KyOptions) :
  Ky.function_ o a = Throw Ky.TimeoutError
  <-> Num.gt (Ky.timeout_ms o) Ky.maxSafeTimeout = false
      /\ Num.lt (Ky.latency a) (Ky.timeout_ms o) = false.
Proof.
  unfold Ky.function_, Ky.timeout.
  destruct (Num.gt (Ky.timeout_ms o) Ky.maxSafeTimeout).
  - split; [discriminate | intros [E _]; discriminate E].
  - destruct (Num.lt (Ky.latency a) (Ky.timeout_ms o)).
    + split; [|intros [_ E]; discriminate E].
      destruct (Ky.answer a) as [response|cause]; [|discriminate].
      destruct (negb (Ky.ok response) && Ky.throwHttpErrors o); discriminate.
    + split; [intros _; split; reflexivity | reflexivity].
Qed.

(** One step of the loop when the delay computation rethrows. *)
Lemma retry_rethrows (o : Ky.KyOptions) (request : Ky.Request) (n : nat)
    (a : Ky.Attempt) (rest : list Ky.Attempt) (error thrown : Ky.KyError) :
  Ky.function_ o a = Throw error ->
  snd (Ky._calculateRetryDelay (Ky.retry o) (Ky.clock a) n error) = Throw thrown ->
  Ky._retry o request n (a :: rest) =
    {| Ky.result := Some (Throw thrown);
       Ky.events := Ky.attempt_events o request;
       Ky.remaining := rest |}.
Proof.
  intros Hf Hc. cbn [Ky._retry]. rewrite Hf.
  destruct (Ky._calculateRetryDelay (Ky.retry o) (Ky.clock a) n error) as [count c].
  simpl in Hc. now subst c.
Qed.

(** The delay computation on a 413 whose response gives no usable hint. *)
Lemma calculateRetryDelay_413 (r : Ky.RetryOptions) (now : number) (n : nat)
    (response : Ky.Response) :
  Ky.status response = 413 ->
  Ky.retryAfterHeader response = None
  \/ Ky.retryAfterHeader response = Some EmptyString
  \/ 413 ∉ Ky.afterStatusCodes r ->
  snd (Ky._calculateRetryDelay r now n (Ky.HTTPError response))
  = Throw (Ky.HTTPError response).
Proof.
  intros Hs Hhint. unfold Ky._calculateRetryDelay; simpl.
  destruct (Num.gt _ _); simpl; [reflexivity|].
  destruct (Ky.includes (Ky.statusCodes r) (Ky.status response)); simpl; [|reflexivity].
  rewrite Hs.
  destruct Hhint as [-> | [-> | Hnot]].
  - reflexivity.
  - reflexivity.
  - unfold Ky.includes. rewrite (bool_decide_eq_false_2 _ Hnot).
    now rewrite andb_false_r.
Qed.

End RetryFacts.

(** C1 (as amended). A 413 failure whose response carries no non-empty
    Retry-After, RateLimit-Reset, X-RateLimit-Reset or X-Rate-Limit-Reset
    header, or met under a configuration whose afterStatusCodes leave 413
    out, is never retried: whatever the limit, the retryable statuses, the
    backoff and the counter are, the delay computation rethrows the failure
    and the loop hands it to the caller after that one fetch. *)
Theorem payload_too_large_without_hint_is_not_retried `{Runtime}
    (o : Ky.KyOptions) (request : Ky.Request) (a : Ky.Attempt)
    (rest : list Ky.Attempt) (response : Ky.Response) (n : nat) :
  Ky.function_ o a = Throw (Ky.HTTPError response) ->
  Ky.status response = 413 ->
  Ky.retryAfterHeader response = None
  \/ Ky.retryAfterHeader response = Some EmptyString
  \/ 413 ∉ Ky.afterStatusCodes (Ky.retry o) ->
  snd (Ky._calculateRetryDelay (Ky.retry o) (Ky.clock a) n (Ky.HTTPError response))
  = Throw (Ky.HTTPError response)
  /\ Ky._retry o request n (a :: rest) =
       {| Ky.result := Some (Throw (Ky.HTTPError response));
          Ky.events := [Ky.EvFetch request (Ky.timeout_ms o)];
          Ky.remaining := rest |}.
Proof.
  intros Hf Hs Hhint.
  assert (Hc := calculateRetryDelay_413 (Ky.retry o) (Ky.clock a) n response Hs Hhint).
  split; [exact Hc|].
  rewrite <- (attempt_fetched o request a _ Hf) by discriminate.
  now apply retry_rethrows with (error := Ky.HTTPError response).
Qed.

Lemma payload_too_large_without_hint_witness :
  snd (Ky._calculateRetryDelay (H := Sample.runtime)
         (Ky.retry (Ky.constructor Sample.get)) (Ky.clock (Sample.answering Sample.too_large))
         0 (Ky.HTTPError Sample.too_large))
  = Throw (Ky.HTTPError Sample.too_large)
  /\ Ky._retry (H := Sample.runtime) (Ky.constructor Sample.get)
       (Ky.request_of "https://api.spiget.org/v2/status" Sample.get) 0
       [Sample.answering Sample.too_large; Sample.answering Sample.ok_empty] =
       {| Ky.result := Some (Throw (Ky.HTTPError Sample.too_large));
          Ky.events :=
            [Ky.EvFetch (Ky.request_of "https://api.spiget.org/v2/status" Sample.get)
               (Ky.timeout_ms (Ky.constructor Sample.get))];
          Ky.remaining := [Sample.answering Sample.ok_empty] |}.
Proof.
  apply (payload_too_large_without_hint_is_not_retried (H := Sample.runtime)).
  - vm_compute. reflexivity.
  - reflexivity.
  - left. vm_compute. reflexivity.
Defined.

(** C1, as stated, fails: under the default configuration a 413 whose
    response carries [Retry-After: 2] is retried. The delay computation
    returns 2000 ms instead of rethrowing, and the request is fetched a second
    time, whose answer the caller receives. *)
Lemma payload_too_large_with_retry_after_is_retried :
  Ky.status Sample.too_large_hinted = 413
  /\ snd (Ky._calculateRetryDelay (H := Sample.runtime) Ky.defaultRetryOptions
            Sample.now 0 (Ky.HTTPError Sample.too_large_hinted))
     = Return (Num.of_Z 2000)
  /\ Ky.create (H := Sample.runtime) "https://api.spiget.org/v2/status" Sample.get
       [Sample.answering Sample.too_large_hinted; Sample.answering Sample.ok_empty] =
       {| Ky.result := Some (Return Sample.ok_empty);
          Ky.events :=
            [Ky.EvFetch (Ky.request_of "https://api.spiget.org/v2/status" Sample.get)
               (Num.of_Z 10000);
             Ky.EvDelay (Num.of_Z 2000);
             Ky.EvFetch (Ky.request_of "https://api.spiget.org/v2/status" Sample.get)
               (Num.of_Z 10000)];
          Ky.remaining := [] |}.
Proof. repeat split; vm_compute; reflexivity. Qed.

(** C7. A timeout failure is never retried. When an attempt ends in a
    TimeoutError, then at every value of the retry counter (whatever budget
    is left), under every retry configuration, the loop ends with that
    TimeoutError after the one fetch and leaves the rest of the script
    untouched; the same holds for the whole request, whether its method is
    retriable or not. *)
Theorem timeout_failure_is_terminal `{Runtime}
    (o : Ky.KyOptions) (request : Ky.Request) (a : Ky.Attempt)
    (rest : list Ky.Attempt) :
  Ky.function_ o a = Throw Ky.TimeoutError ->
  (forall _retryCount : nat,
      Ky._retry o request _retryCount (a :: rest) =
        {| Ky.result := Some (Throw Ky.TimeoutError);
           Ky.events := [Ky.EvFetch request (Ky.timeout_ms o)];
           Ky.remaining := rest |})
  /\ (forall (input : string) (options : Ky.Options),
         Ky.constructor options = o ->
         Ky.request_of input options = request ->
         Ky.create input options (a :: rest) =
           {| Ky.result := Some (Throw Ky.TimeoutError);
              Ky.events := [Ky.EvFetch request (Ky.timeout_ms o)];
              Ky.remaining := rest |}).
Proof.
  intros Hf.
  assert (Hev := attempt_fetched o request a _ Hf ltac:(discriminate)).
  assert (Hloop : forall n, Ky._retry o request n (a :: rest) =
            {| Ky.result := Some (Throw Ky.TimeoutError);
               Ky.events := [Ky.EvFetch request (Ky.timeout_ms o)];
               Ky.remaining := rest |}).
  { intros n. rewrite <- Hev.
    apply retry_rethrows with (error := Ky.TimeoutError); [exact Hf|].
    apply calculateRetryDelay_timeout. }
  split; [exact Hloop|].
  intros input options Ho Hr. unfold Ky.create. rewrite Ho, Hr.
  destruct (Ky.includes_str _ _); [apply Hloop|].
  now rewrite Hf, Hev.
Qed.

Lemma timeout_failure_is_terminal_witness :
  (forall _retryCount : nat,
      Ky._retry (H := Sample.runtime) (Ky.constructor Sample.get)
        (Ky.request_of "https://api.modrinth.com/v2/search" Sample.get) _retryCount
        [Sample.silent; Sample.answering Sample.ok_empty] =
        {| Ky.result := Some (Throw Ky.TimeoutError);
           Ky.events :=
             [Ky.EvFetch (Ky.request_of "https://api.modrinth.com/v2/search" Sample.get)
                (Ky.timeout_ms (Ky.constructor Sample.get))];
           Ky.remaining := [Sample.answering Sample.ok_empty] |})
  /\ (forall (input : string) (options : Ky.Options),
         Ky.constructor options = Ky.constructor Sample.get ->
         Ky.request_of input options
         = Ky.request_of "https://api.modrinth.com/v2/search" Sample.get ->
         Ky.create (H := Sample.runtime) input options
           [Sample.silent; Sample.answering Sample.ok_empty] =
           {| Ky.result := Some (Throw Ky.TimeoutError);
              Ky.events :=
                [Ky.EvFetch (Ky.request_of "https://api.modrinth.com/v2/search" Sample.get)
                   (Ky.timeout_ms (Ky.constructor Sample.get))];
              Ky.remaining := [Sample.answering Sample.ok_empty] |}).
Proof.
  apply (timeout_failure_is_terminal (H := Sample.runtime)).
  vm_compute. reflexivity.
Defined.

(** A POST is not retriable and meets the same end. *)
Example post_timeout_is_terminal :
  Ky.result
    (Ky.create (H := Sample.runtime) "https://api.modrinth.com/v2/version_files"
       {| Ky.o_method := Some "post"%string;
          Ky.o_searchParams := None;
          Ky.o_headers := [];
          Ky.o_json := Some (VObj []);
          Ky.o_retry := Ky.RetryNumber PosInf;
          Ky.o_timeout := Some (Num.of_Z 100);
          Ky.o_throwHttpErrors := None |}
       [Sample.slow Sample.ok_empty; Sample.answering Sample.ok_empty])
  = Some (Throw Ky.TimeoutError).
Proof. vm_compute. reflexivity. Qed.

(** The code's header branch is the wait of the specification. *)
Lemma retryAfterDelay_is_spec `{Runtime} (r : Ky.RetryOptions) (now : number)
    (retryAfter : string) :
  Ky.retryAfterDelay r now retryAfter
  = Spec.retry_wait now retryAfter (Ky.maxRetryAfter r).
Proof.
  unfold Ky.retryAfterDelay, Spec.retry_wait, Spec.header_wait, Spec.clamp.
  rewrite isNaN_times_1000.
  set (after := if Num.isNaN (JS_Number retryAfter) then _ else _).
  destruct (Ky.maxRetryAfter r) as [m|]; simpl; [reflexivity|].
  now destruct (Num.lt after after).
Qed.

(** Clamping is [Math.min] whenever the wait is a number. *)
Lemma clamp_is_min (wait m : number) :
  Num.isNaN wait = false -> Spec.clamp wait (Some m) = Num.min wait m.
Proof. apply conditional_is_min. Qed.

(** C2 (as amended). For a retried HTTP failure (the counter within the
    limit, the status among the retryable ones) whose status is among
    afterStatusCodes (413, 429, 503 unless configured otherwise) and whose
    response carries a non-empty value in the first present of Retry-After,
    RateLimit-Reset, X-RateLimit-Reset, X-Rate-Limit-Reset, the computed delay
    is the wait of the specification: a value that parses as a number counts
    seconds from now (times 1000), unless in milliseconds it reaches the
    threshold [Date.parse("2024-01-01")], when now is subtracted from it; any
    other value is parsed as a date and now is subtracted; the result is
    clamped to maxRetryAfter. *)
Theorem retry_after_wait `{Runtime} (r : Ky.RetryOptions) (now : number)
    (n : nat) (response : Ky.Response) (retryAfter : string) :
  Num.gt (Num.of_nat (S n)) (Ky.limit r) = false ->
  Ky.status response ∈ Ky.statusCodes r ->
  Ky.status response ∈ Ky.afterStatusCodes r ->
  Ky.retryAfterHeader response = Some retryAfter ->
  retryAfter <> EmptyString ->
  snd (Ky._calculateRetryDelay r now n (Ky.HTTPError response))
  = Return (Spec.retry_wait now retryAfter (Ky.maxRetryAfter r)).
Proof.
  intros Hbudget Hretry Hafter Hheader Hvalue.
  unfold Ky._calculateRetryDelay; simpl.
  rewrite Hbudget; simpl.
  unfold Ky.includes.
  rewrite (bool_decide_eq_true_2 _ Hretry), (bool_decide_eq_true_2 _ Hafter); simpl.
  rewrite Hheader. cbn [truthy_nullable default].
  rewrite (truthy_string_nonempty retryAfter Hvalue); simpl.
  now rewrite retryAfterDelay_is_spec.
Qed.

Lemma retry_after_wait_witness :
  snd (Ky._calculateRetryDelay (H := Sample.runtime) Ky.defaultRetryOptions Sample.now 0
         (Ky.HTTPError Sample.unavailable_2s))
  = Return (Spec.retry_wait (H := Sample.runtime) Sample.now "2"
              (Ky.maxRetryAfter Ky.defaultRetryOptions)).
Proof.
  apply (retry_after_wait (H := Sample.runtime)).
  - vm_compute. reflexivity.
  - refine (bool_decide_unpack _ _). vm_compute. exact I.
  - refine (bool_decide_unpack _ _). vm_compute. exact I.
  - vm_compute. reflexivity.
  - discriminate.
Defined.

(** C2, as stated, fails on a header that is present and empty: a 429 whose
    response carries [Retry-After:] with no value is retried after the
    exponential backoff (300 ms on the first retry), while the wait computed
    from the header as the specification words it is [Number("") * 1000 = 0]
    ms. *)
Lemma blank_retry_after_falls_back_to_backoff :
  Ky.retryAfterHeader Sample.limited_blank = Some EmptyString
  /\ snd (Ky._calculateRetryDelay (H := Sample.runtime) Ky.defaultRetryOptions
            Sample.now 0 (Ky.HTTPError Sample.limited_blank))
     = Return (Num.of_Z 300)
  /\ Spec.retry_wait (H := Sample.runtime) Sample.now EmptyString
       (Ky.maxRetryAfter Ky.defaultRetryOptions)
     = Num.of_Z 0.
Proof. repeat split; vm_compute; reflexivity. Qed.

(** Section 8 of the specification: a 503 with [Retry-After: 2] followed by
    a 200 gives the 200 after a pause of 2000 ms and two fetches. *)
Example unavailable_then_ok :
  Ky.create (H := Sample.runtime) "https://api.spiget.org/v2/status" Sample.get
    [Sample.answering Sample.unavailable_2s; Sample.answering Sample.ok_empty] =
    {| Ky.result := Some (Return Sample.ok_empty);
       Ky.events :=
         [Ky.EvFetch (Ky.request_of "https://api.spiget.org/v2/status" Sample.get)
            (Num.of_Z 10000);
          Ky.EvDelay (Num.of_Z 2000);
          Ky.EvFetch (Ky.request_of "https://api.spiget.org/v2/status" Sample.get)
            (Num.of_Z 10000)];
       Ky.remaining := [] |}.
Proof. vm_compute. reflexivity. Qed.

(** A 413 without a hint is fetched once. *)
Example too_large_once :
  Ky.create (H := Sample.runtime) "https://api.spiget.org/v2/status" Sample.get
    [Sample.answering Sample.too_large; Sample.answering Sample.ok_empty] =
    {| Ky.result := Some (Throw (Ky.HTTPError Sample.too_large));
       Ky.events :=
         [Ky.EvFetch (Ky.request_of "https://api.spiget.org/v2/status" Sample.get)
            (Num.of_Z 10000)];
       Ky.remaining := [Sample.answering Sample.ok_empty] |}.
Proof. vm_compute. reflexivity. Qed.

(** [BaseAPIClient] gives ky no [retry] option: the defaults apply, and the
    statuses whose headers are honoured are 413, 429 and 503. *)
Lemma default_after_status_codes :
  Ky.afterStatusCodes (Ky.normalizeRetryOptions Ky.RetryAbsent) = [413; 429; 503].
Proof. reflexivity. Qed.

(** The three branches of the wait, evaluated. *)
Example wait_seconds :
  Spec.retry_wait (H := Sample.runtime) Sample.now "120" (Some PosInf)
  = Num.of_Z 120000.
Proof. vm_compute. reflexivity. Qed.

Example wait_epoch_seconds :
  Spec.retry_wait (H := Sample.runtime) Sample.now "1800000005" (Some PosInf)
  = Num.of_Z 5000.
Proof. vm_compute. reflexivity. Qed.

Example wait_http_date :
  Spec.retry_wait (H := Sample.runtime) (Num.of_Z 1445412470000)
    "Wed, 21 Oct 2015 07:28:00 GMT" (Some (Num.of_Z 4000))
  = Num.of_Z 4000.
Proof. vm_compute. reflexivity. Qed.

(** ** What a request puts on the wire *)

Section Wire.
Context `{Runtime}.

Lemma retry_fetches_only (o : Ky.KyOptions) (request : Ky.Request)
    (script : list Ky.Attempt) :
  forall n, fetches_only request (Ky.timeout_ms o)
              (Ky.events (Ky._retry o request n script)).
Proof.
  unfold fetches_only.
  induction script as [|a rest IH]; intros n; cbn [Ky._retry].
  - constructor.
  - assert (Hone : Forall
              (fun e => match e with
                        | Ky.EvFetch r t => r = request /\ t = Ky.timeout_ms o
                        | Ky.EvDelay _ => True
                        end) (Ky.attempt_events o request)).
    { unfold Ky.attempt_events. destruct (Num.gt _ _); repeat constructor. }
    destruct (Ky.function_ o a) as [response|error]; cbv beta iota.
    + exact Hone.
    + destruct (Ky._calculateRetryDelay (Ky.retry o) (Ky.clock a) n error)
        as [count [d|e]].
      * destruct (count <? 1)%nat; [exact Hone|].
        cbn [Ky.after_fetch Ky.events].
        apply Forall_app. split; [|apply IH].
        apply Forall_app. split; [exact Hone | repeat constructor].
      * exact Hone.
Qed.

Lemma create_fetches_only (input : string) (options : Ky.Options)
    (script : list Ky.Attempt) :
  fetches_only (Ky.request_of input options)
    (Ky.timeout_ms (Ky.constructor options))
    (Ky.events (Ky.create input options script)).
Proof.
  unfold Ky.create.
  destruct (Ky.includes_str _ _).
  - apply retry_fetches_only.
  - destruct script; cbn [Ky.events]; [constructor|].
    unfold Ky.attempt_events. destruct (Num.gt _ _); repeat constructor.
Qed.

End Wire.

(** ** The error mappers *)

(** C3 (as amended). Each service's mapper sends 404 to RESOURCE_NOT_FOUND,
    401 (and 403 for Hangar) to UNAUTHORIZED, 429 to RATE_LIMIT_EXCEEDED, 422
    for Hangar to VALIDATION_ERROR, every other status in 400-499 to
    INVALID_SEARCH_PARAMETERS and every status from 500 up, with no upper
    bound, to API_REQUEST_FAILED. A failure that none of these branches takes
    (no response, or a status below 400) maps to NETWORK_ERROR when its name
    is NetworkError or its code is ECONNRESET or ENOTFOUND, and to the
    caller's default kind and message otherwise. *)
Theorem error_mapping_table (service : ErrorClass) (error : ErrorLike)
    (defaultCode : ErrorCode) (defaultMessage : string) :
  let thrown := handleError_of service error defaultCode defaultMessage in
  let hangar := match service with HangarError => true | _ => false end in
  class thrown = service
  /\ (forall response, e_response error = Some response ->
        let status := Ky.status response in
        (status = 404 -> code thrown = RESOURCE_NOT_FOUND)
        /\ (status = 401 -> code thrown = UNAUTHORIZED)
        /\ (status = 403 ->
            code thrown = if hangar then UNAUTHORIZED else INVALID_SEARCH_PARAMETERS)
        /\ (status = 429 -> code thrown = RATE_LIMIT_EXCEEDED)
        /\ (status = 422 ->
            code thrown = if hangar then VALIDATION_ERROR else INVALID_SEARCH_PARAMETERS)
        /\ (400 <= status <= 499 -> status ∉ [401; 403; 404; 422; 429] ->
            code thrown = INVALID_SEARCH_PARAMETERS)
        /\ (500 <= status -> code thrown = API_REQUEST_FAILED))
  /\ (no_status_branch error -> is_network_error error = true ->
      code thrown = NETWORK_ERROR)
  /\ (no_status_branch error -> is_network_error error = false ->
      code thrown = defaultCode /\ message thrown = defaultMessage).
Proof.
  intros thrown hangar. subst thrown hangar.
  split; [|split; [|split]].
  - destruct service; unfold handleError_of, Spiget.handleError,
      Modrinth.handleError, Hangar.handleError;
      destruct (e_response error) as [response|];
      repeat match goal with
             | |- context [if ?c then _ else _] => destruct c
             end; reflexivity.
  - intros response Hresponse status. subst status.
    repeat split; intros;
      destruct service; unfold handleError_of, Spiget.handleError,
        Modrinth.handleError, Hangar.handleError; rewrite Hresponse;
      repeat match goal with
             | Hs : Ky.status response = _ |- _ => rewrite Hs; clear Hs
             end;
      try reflexivity.
    all: repeat match goal with
           | Hn : _ ∉ _ |- _ =>
               rewrite !not_elem_of_cons in Hn;
               destruct Hn as (? & ? & ? & ? & ? & _)
           end.
    all: repeat match goal with
           | |- context [?a =? ?b] =>
               destruct (Z.eqb_spec a b); [lia|]
           end; simpl.
    all: try (replace (400 <=? Ky.status response) with true
                by (symmetry; apply Z.leb_le; lia);
              replace (Ky.status response <? 500) with true
                by (symmetry; apply Z.ltb_lt; lia); reflexivity).
    all: repeat match goal with
           | |- context [?a <=? ?b] =>
               destruct (Z.leb_spec a b); simpl
           | |- context [?a <? ?b] =>
               destruct (Z.ltb_spec a b); simpl
           end; solve [reflexivity | lia].
  - intros Hnone Hnet; unfold no_status_branch in Hnone.
    destruct service; unfold handleError_of, Spiget.handleError,
      Modrinth.handleError, Hangar.handleError;
      destruct (e_response error) as [response|]; rewrite ?Hnet; try reflexivity;
      repeat match goal with
             | |- context [?a =? ?b] => destruct (Z.eqb_spec a b); [lia|]
             end; simpl;
      repeat match goal with
             | |- context [?a <=? ?b] => destruct (Z.leb_spec a b); [lia|]; simpl
             end; reflexivity.
  - intros Hnone Hnet; unfold no_status_branch in Hnone.
    destruct service; unfold handleError_of, Spiget.handleError,
      Modrinth.handleError, Hangar.handleError;
      destruct (e_response error) as [response|]; rewrite ?Hnet;
      try (split; reflexivity);
      repeat match goal with
             | |- context [?a =? ?b] => destruct (Z.eqb_spec a b); [lia|]
             end; simpl;
      repeat match goal with
             | |- context [?a <=? ?b] => destruct (Z.leb_spec a b); [lia|]; simpl
             end; split; reflexivity.
Qed.

Lemma error_mapping_table_witness :
  code (Hangar.handleError (of_KyError (Ky.HTTPError (Sample.respond 422 [] None)))
          API_REQUEST_FAILED "Failed to fetch /projects")
  = VALIDATION_ERROR.
Proof.
  pose proof (error_mapping_table HangarError
                (of_KyError (Ky.HTTPError (Sample.respond 422 [] None)))
                API_REQUEST_FAILED "Failed to fetch /projects") as T.
  cbv zeta in T.
  destruct T as (_ & Hstatus & _).
  destruct (Hstatus (Sample.respond 422 [] None) eq_refl) as (_ & _ & _ & _ & H422 & _).
  exact (H422 eq_refl).
Defined.

(** C3, as stated, fails above 599: a response with status 600 is neither in
    400-499 nor in 500-599, so the table of the specification sends it to the
    caller's default (here DOWNLOAD_FAILED), but every mapper answers
    API_REQUEST_FAILED. *)
Lemma status_600_is_api_request_failed :
  Ky.status Sample.status_600 = 600
  /\ Spec.mapped_code SpigetError (of_KyError (Ky.HTTPError Sample.status_600))
       DOWNLOAD_FAILED = DOWNLOAD_FAILED
  /\ code (Spiget.handleError (of_KyError (Ky.HTTPError Sample.status_600))
             DOWNLOAD_FAILED "Failed to download from https://example.org/a.jar")
     = API_REQUEST_FAILED
  /\ code (Modrinth.handleError (of_KyError (Ky.HTTPError Sample.status_600))
             DOWNLOAD_FAILED "Failed to download from https://example.org/a.jar")
     = API_REQUEST_FAILED
  /\ code (Hangar.handleError (of_KyError (Ky.HTTPError Sample.status_600))
             DOWNLOAD_FAILED "Failed to download from https://example.org/a.jar")
     = API_REQUEST_FAILED.
Proof. repeat split; vm_compute; reflexivity. Qed.

(** Section 8 of the specification: a 404 is fetched once and maps to
    RESOURCE_NOT_FOUND. *)
Example not_found_once :
  let outcome :=
    BaseAPIClient.makeRequest (H := Sample.runtime) Spiget.handleError
      Sample.spiget "/resources/0" None
      [Sample.answering (Sample.respond 404 [] None);
       Sample.answering Sample.ok_empty] in
  (exists e, Ky.result outcome = Some (Throw (Service e))
             /\ code e = RESOURCE_NOT_FOUND)
  /\ length (Ky.events outcome) = 1%nat.
Proof. split; [eexists; split|]; vm_compute; reflexivity. Qed.

(** Below 600 the mappers agree with the table of the specification. *)
Lemma mapped_code_below_600 (service : ErrorClass) (error : ErrorLike)
    (defaultCode : ErrorCode) (defaultMessage : string) :
  (forall response, e_response error = Some response -> Ky.status response < 600) ->
  (forall response, e_response error = Some response ->
     400 <= Ky.status response \/ is_network_error error = false) ->
  code (handleError_of service error defaultCode defaultMessage)
  = Spec.mapped_code service error defaultCode.
Proof.
  intros Hlt Hnet.
  destruct service; unfold handleError_of, Spiget.handleError, Modrinth.handleError,
    Hangar.handleError, Spec.mapped_code;
    (destruct (e_response error) as [response|];
     [ specialize (Hlt response eq_refl); specialize (Hnet response eq_refl)
     | destruct (is_network_error error); reflexivity ]);
    repeat match goal with
           | |- context [?a =? ?b] => destruct (Z.eqb_spec a b); simpl; try reflexivity
           end;
    repeat match goal with
           | |- context [?a <=? ?b] => destruct (Z.leb_spec a b); simpl; try reflexivity
           | |- context [?a <? ?b] => destruct (Z.ltb_spec a b); simpl; try reflexivity
           end; try lia;
    destruct Hnet as [Hge | ->]; solve [lia | reflexivity].
Qed.

(** The mapper keeps the failure it was given among the details. *)
Lemma mapper_keeps_cause (service : ErrorClass) (error : ErrorLike)
    (defaultCode : ErrorCode) (defaultMessage : string) :
  DCause error
  ∈ List.map snd (details (handleError_of service error defaultCode defaultMessage)).
Proof.
  destruct service; unfold handleError_of, Spiget.handleError, Modrinth.handleError,
    Hangar.handleError;
    destruct (e_response error) as [response|];
    repeat match goal with
           | |- context [if ?c then _ else _] => destruct c
           end; simpl; set_solver.
Qed.

(** ** The per-attempt timer *)

Section Timer.
Context `{Runtime}.

Lemma makeRequest_fetches_only
    (handleError : ErrorLike -> ErrorCode -> string -> ServiceError)
    (c : BaseAPIClient.Client) (endpoint : string)
    (searchParams : option (list (string * JSValue))) (script : list Ky.Attempt) :
  fetches_only
    {| Ky.r_method := "GET";
       Ky.r_url := BaseAPIClient.baseUrl c +:+ endpoint;
       Ky.r_searchParams := option_map BaseAPIClient.buildSearchParams searchParams;
       Ky.r_headers := BaseAPIClient.getHeaders c;
       Ky.r_body := None |}
    (Num.of_Z 10000)
    (Ky.events (BaseAPIClient.makeRequest handleError c endpoint searchParams script)).
Proof.
  unfold BaseAPIClient.makeRequest, BaseAPIClient.settle. cbn [Ky.events].
  match goal with
  | |- fetches_only _ _ (Ky.events (Ky.create ?u ?o ?s)) =>
      exact (create_fetches_only u o s)
  end.
Qed.

Lemma makePostRequest_fetches_only
    (handleError : ErrorLike -> ErrorCode -> string -> ServiceError)
    (c : BaseAPIClient.Client) (endpoint : string) (body : JSValue)
    (searchParams : option (list (string * JSValue))) (script : list Ky.Attempt) :
  fetches_only
    {| Ky.r_method := "POST";
       Ky.r_url := BaseAPIClient.baseUrl c +:+ endpoint;
       Ky.r_searchParams := option_map BaseAPIClient.buildSearchParams searchParams;
       Ky.r_headers := BaseAPIClient.getHeaders c;
       Ky.r_body := Some body |}
    (Num.of_Z 10000)
    (Ky.events (BaseAPIClient.makePostRequest handleError c endpoint body
                  searchParams script)).
Proof.
  unfold BaseAPIClient.makePostRequest, BaseAPIClient.settle. cbn [Ky.events].
  match goal with
  | |- fetches_only _ _ (Ky.events (Ky.create ?u ?o ?s)) =>
      exact (create_fetches_only u o s)
  end.
Qed.

Lemma makeRawRequest_fetches_only
    (handleError : ErrorLike -> ErrorCode -> string -> ServiceError)
    (c : BaseAPIClient.Client) (url : string) (script : list Ky.Attempt) :
  fetches_only
    {| Ky.r_method := "GET";
       Ky.r_url := url;
       Ky.r_searchParams := None;
       Ky.r_headers := BaseAPIClient.getHeaders c;
       Ky.r_body := None |}
    (Num.of_Z 10000)
    (Ky.events (BaseAPIClient.makeRawRequest handleError c url script)).
Proof.
  unfold BaseAPIClient.makeRawRequest, BaseAPIClient.settle. cbn [Ky.events].
  match goal with
  | |- fetches_only _ _ (Ky.events (Ky.create ?u ?o ?s)) =>
      exact (create_fetches_only u o s)
  end.
Qed.

End Timer.

(** C6, on the code. The [timeout] a HangarAPI is constructed with is
    dropped: the client is the one built without it, and every fetch of its
    [searchProjects], as of any [makeRequest], [makePostRequest] and
    [makeRawRequest], runs under the default timer of 10,000 ms. *)
Theorem hangar_timeout_option_is_ignored `{Runtime}
    (options : Hangar.HangarAPIOptions) :
  let timers_are_default (events : list Ky.Event) :=
    Forall (fun e => match e with
                     | Ky.EvFetch _ timer => timer = Num.of_Z 10000
                     | Ky.EvDelay _ => True
                     end) events in
  let c := Hangar.constructor options in
  c = Hangar.constructor {| Hangar.opt_baseUrl := Hangar.opt_baseUrl options;
                            Hangar.opt_userAgent := Hangar.opt_userAgent options;
                            Hangar.opt_timeout := None |}
  /\ (forall search script,
        timers_are_default (Ky.events (Hangar.searchProjects c search script)))
  /\ (forall endpoint searchParams script,
        timers_are_default
          (Ky.events (BaseAPIClient.makeRequest Hangar.handleError c endpoint
                        searchParams script)))
  /\ (forall endpoint body searchParams script,
        timers_are_default
          (Ky.events (BaseAPIClient.makePostRequest Hangar.handleError c endpoint
                        body searchParams script)))
  /\ (forall url script,
        timers_are_default
          (Ky.events (BaseAPIClient.makeRawRequest Hangar.handleError c url script))).
Proof.
  intros timers_are_default c. subst timers_are_default c.
  assert (Hweaken : forall request events,
             fetches_only request (Num.of_Z 10000) events ->
             Forall (fun e => match e with
                              | Ky.EvFetch _ timer => timer = Num.of_Z 10000
                              | Ky.EvDelay _ => True
                              end) events).
  { intros request events Hall. eapply Forall_impl; [exact Hall|].
    intros [r t|ms]; [intros [_ Ht]; exact Ht | trivial]. }
  split; [reflexivity|]. repeat split; intros.
  - unfold Hangar.searchProjects.
    eapply Hweaken, makeRequest_fetches_only.
  - eapply Hweaken, makeRequest_fetches_only.
  - eapply Hweaken, makePostRequest_fetches_only.
  - eapply Hweaken, makeRawRequest_fetches_only.
Qed.

(** A client built with [timeout: 5000] still waits 7,000 ms for an answer
    and returns it, where a 5,000 ms timer would have ended the attempt. *)
Example hangar_timeout_5000_waits_7000 :
  let client :=
    Hangar.constructor {| Hangar.opt_baseUrl := None;
                          Hangar.opt_userAgent := None;
                          Hangar.opt_timeout := Some (Num.of_Z 5000) |} in
  let search :=
    {| Hangar.q := Some "worldedit"%string; Hangar.category := None;
       Hangar.platform := None; Hangar.owner := None; Hangar.sort := None;
       Hangar.limit := None; Hangar.offset := None |} in
  let outcome :=
    Hangar.searchProjects (H := Sample.runtime) client search
      [Sample.slow (Sample.respond 200 [] (Some (VObj [])))] in
  Ky.result outcome = Some (Return (VObj []))
  /\ exists request, Ky.events outcome = [Ky.EvFetch request (Num.of_Z 10000)].
Proof. split; [vm_compute; reflexivity | eexists; vm_compute; reflexivity]. Qed.

(** ** Spiget downloads *)

(** C9. When the metadata fetched for a resource says it is external,
    [downloadResource] throws a SpigetError of kind EXTERNAL_FILE_DOWNLOAD
    whose details carry the resource id and the resource's externalUrl, and
    no request reaches the download endpoint: the only fetches are those of
    the metadata. *)
Theorem external_resource_download_fails_fast `{Runtime}
    (c : BaseAPIClient.Client) (resourceId : number) (script : list Ky.Attempt)
    (resource external file externalUrl : JSValue) :
  Ky.result (Spiget.getResource c resourceId script) = Some (Return resource) ->
  get_prop resource "external" = Some external ->
  truthy external = true ->
  get_prop resource "file" = Some file ->
  get_prop file "externalUrl" = Some externalUrl ->
  let outcome := Spiget.downloadResource c resourceId script in
  Ky.result outcome =
    Some (Throw (Service
      {| class := SpigetError;
         code := EXTERNAL_FILE_DOWNLOAD;
         message := "Cannot download external resource "
                    +:+ Number_toString resourceId +:+ ". Use externalUrl instead.";
         details := [("resourceId"%string, DValue (VNum resourceId));
                     ("externalUrl"%string, DValue externalUrl)] |}))
  /\ Ky.events outcome = Ky.events (Spiget.getResource c resourceId script)
  /\ Forall (fun e => forall request timer,
                 e = Ky.EvFetch request timer ->
                 Ky.r_url request
                 <> BaseAPIClient.baseUrl c +:+ "/resources/"
                    +:+ Number_toString resourceId +:+ "/download")
       (Ky.events outcome).
Proof.
  intros Hmeta Hext Htruthy Hfile Hurl outcome. subst outcome.
  unfold Spiget.downloadResource.
  rewrite Hmeta, Hext, Htruthy, Hfile, Hurl. cbn [Ky.result Ky.events].
  split; [reflexivity|]. split; [reflexivity|].
  pose proof (makeRequest_fetches_only Spiget.handleError c
                ("/resources/" +:+ Number_toString resourceId) None script) as Hwire.
  unfold fetches_only in Hwire. unfold Spiget.getResource.
  eapply Forall_impl; [exact Hwire|].
  intros e He request timer ->. destruct He as [-> _]. cbn [Ky.r_url].
  intros E. apply (inj _) in E. apply (inj _) in E.
  revert E. apply app_longer. discriminate.
Qed.

Lemma external_resource_download_witness :
  Ky.result (Spiget.downloadResource (H := Sample.runtime) Sample.spiget (Num.of_Z 42)
               Sample.external_script) =
    Some (Throw (Service
      {| class := SpigetError;
         code := EXTERNAL_FILE_DOWNLOAD;
         message := "Cannot download external resource "
                    +:+ Number_toString (Runtime := Sample.runtime) (Num.of_Z 42)
                    +:+ ". Use externalUrl instead.";
         details := [("resourceId"%string, DValue (VNum (Num.of_Z 42)));
                     ("externalUrl"%string,
                      DValue (VStr "https://example.org/plugin.jar"))] |}))
  /\ Ky.events (Spiget.downloadResource (H := Sample.runtime) Sample.spiget
                  (Num.of_Z 42) Sample.external_script)
     = Ky.events (Spiget.getResource (H := Sample.runtime) Sample.spiget (Num.of_Z 42)
                    Sample.external_script)
  /\ Forall (fun e => forall request timer,
                 e = Ky.EvFetch request timer ->
                 Ky.r_url request
                 <> BaseAPIClient.baseUrl Sample.spiget +:+ "/resources/"
                    +:+ Number_toString (Runtime := Sample.runtime) (Num.of_Z 42)
                    +:+ "/download")
       (Ky.events (Spiget.downloadResource (H := Sample.runtime) Sample.spiget
                     (Num.of_Z 42) Sample.external_script)).
Proof.
  refine (external_resource_download_fails_fast (H := Sample.runtime) Sample.spiget
            (Num.of_Z 42) Sample.external_script Sample.external_resource (VBool true)
            Sample.external_file (VStr "https://example.org/plugin.jar") _ _ _ _ _).
  - vm_compute. reflexivity.
  - reflexivity.
  - reflexivity.
  - reflexivity.
  - reflexivity.
Defined.

(** A resource that is not external is downloaded: the second request goes
    to the download endpoint. *)
Example hosted_resource_is_downloaded :
  let c := Spiget.constructor {| Spiget.opt_baseUrl := None;
                                 Spiget.opt_userAgent := None |} in
  let outcome :=
    Spiget.downloadResource (H := Sample.runtime) c (Num.of_Z 42)
      [Sample.answering
         (Sample.respond 200 [] (Some (VObj [("external"%string, VBool false)])));
       Sample.answering Sample.ok_empty] in
  Ky.result outcome = Some (Return Sample.ok_empty)
  /\ List.map (fun e => match e with
                        | Ky.EvFetch r _ => Ky.r_url r
                        | Ky.EvDelay _ => EmptyString
                        end) (Ky.events outcome)
     = ["https://api.spiget.org/v2/resources/42";
        "https://api.spiget.org/v2/resources/42/download"]%string.
Proof. split; vm_compute; reflexivity. Qed.

(** ** Hangar project search *)

Lemma sort_truthy (s : Hangar.HangarProjectSort) :
  truthy_string (Hangar.sortValue s) = true.
Proof. destruct s; reflexivity. Qed.

Lemma category_truthy (c : Hangar.HangarCategory) :
  truthy_string (Hangar.categoryValue c) = true.
Proof. destruct c; reflexivity. Qed.

Lemma platform_truthy (p : Hangar.HangarPlatform) :
  truthy_string (Hangar.platformValue p) = true.
Proof. destruct p; reflexivity. Qed.

(** Case analysis on the optional fields of the search options, down to
    closed property lists. *)
Ltac split_options :=
  repeat match goal with
         | |- context [truthy_string (Hangar.sortValue ?x)] => rewrite (sort_truthy x)
         | |- context [truthy_string (Hangar.categoryValue ?x)] =>
             rewrite (category_truthy x)
         | |- context [truthy_string (Hangar.platformValue ?x)] =>
             rewrite (platform_truthy x)
         | H : truthy_string ?s = _ |- context [truthy_string ?s] => rewrite H
         | |- context [truthy_string ?s] => destruct (truthy_string s) eqn:?
         | |- context [match ?o with Some _ => _ | None => _ end] => destruct o
         | |- context [match ?o with Hangar.One _ => _ | Hangar.Many _ => _ end] =>
             destruct o
         end.

(** C10 (as amended). When the options include a limit, every fetch of
    [searchProjects] sends [Math.min(limit, 25)] as the limit, so a value
    above 25 goes out as 25. Of the other options, q and owner are sent when
    they are non-empty strings and left out when empty, sort whenever given,
    offset whenever defined, and category and platform as arrays (a single
    value wrapped into a one-element array), which go out as JSON text. *)
Theorem hangar_search_limit_is_clamped `{Runtime}
    (c : BaseAPIClient.Client) (options : Hangar.HangarProjectSearchOptions)
    (l : number) (script : list Ky.Attempt) :
  Hangar.limit options = Some l ->
  let params := Hangar.searchParams options in
  let sent := BaseAPIClient.buildSearchParams params in
  fetches_only
    {| Ky.r_method := "GET";
       Ky.r_url := BaseAPIClient.baseUrl c +:+ "/projects";
       Ky.r_searchParams := Some sent;
       Ky.r_headers := BaseAPIClient.getHeaders c;
       Ky.r_body := None |}
    (Num.of_Z 10000)
    (Ky.events (Hangar.searchProjects c options script))
  /\ lookup_prop sent "limit" = VNum (Num.min l (Num.of_Z 25))
  /\ (forall s, Hangar.q options = Some s ->
        lookup_prop sent "q" = if truthy_string s then VStr s else VUndefined)
  /\ (forall s, Hangar.owner options = Some s ->
        lookup_prop sent "owner" = if truthy_string s then VStr s else VUndefined)
  /\ (forall s, Hangar.sort options = Some s ->
        lookup_prop sent "sort" = VStr (Hangar.sortValue s))
  /\ (forall o, Hangar.offset options = Some o ->
        lookup_prop sent "offset" = VNum o)
  /\ (forall x, Hangar.category options = Some (Hangar.One x) ->
        lookup_prop params "category" = VArr [VStr (Hangar.categoryValue x)]
        /\ lookup_prop sent "category"
           = VStr (JSON.row_text [Hangar.categoryValue x]))
  /\ (forall xs, Hangar.category options = Some (Hangar.Many xs) ->
        lookup_prop params "category"
        = VArr (List.map VStr (List.map Hangar.categoryValue xs))
        /\ lookup_prop sent "category"
           = VStr (JSON.row_text (List.map Hangar.categoryValue xs)))
  /\ (forall x, Hangar.platform options = Some (Hangar.One x) ->
        lookup_prop params "platform" = VArr [VStr (Hangar.platformValue x)]
        /\ lookup_prop sent "platform"
           = VStr (JSON.row_text [Hangar.platformValue x]))
  /\ (forall xs, Hangar.platform options = Some (Hangar.Many xs) ->
        lookup_prop params "platform"
        = VArr (List.map VStr (List.map Hangar.platformValue xs))
        /\ lookup_prop sent "platform"
           = VStr (JSON.row_text (List.map Hangar.platformValue xs))).
Proof.
  intros Hlimit params sent. subst sent params.
  split.
  { unfold Hangar.searchProjects.
    exact (makeRequest_fetches_only Hangar.handleError c "/projects"
             (Some (Hangar.searchParams options)) script). }
  destruct options as [q category platform owner sort limit offset].
  simpl in Hlimit. subst limit.
  cbn [Hangar.q Hangar.category Hangar.platform Hangar.owner Hangar.sort
       Hangar.limit Hangar.offset].
  repeat match goal with |- _ /\ _ => split end;
    try (intros x Hx; subst);
    try match goal with |- _ /\ _ => split end;
    unfold Hangar.searchParams, Hangar.set_if;
    cbn [Hangar.q Hangar.category Hangar.platform Hangar.owner Hangar.sort
         Hangar.limit Hangar.offset];
    rewrite <- ?(map_map Hangar.categoryValue VStr),
            <- ?(map_map Hangar.platformValue VStr);
    split_options;
    unfold BaseAPIClient.buildSearchParams;
    cbn [fold_left fst snd set_prop lookup_prop String.eqb Ascii.eqb Bool.eqb];
    rewrite ?stringify_row; reflexivity.
Qed.

Lemma hangar_search_limit_witness :
  lookup_prop (BaseAPIClient.buildSearchParams (H := Sample.runtime)
                 (Hangar.searchParams Sample.worldedit_query)) "limit"
  = VNum (Num.min (Num.of_Z 100) (Num.of_Z 25)).
Proof.
  exact (proj1 (proj2 (hangar_search_limit_is_clamped (H := Sample.runtime)
                         Sample.hangar Sample.worldedit_query (Num.of_Z 100) []
                         eq_refl))).
Defined.

(** C10, as stated, fails on an empty query string: [q] is supplied, yet
    the parameters hold no [q]; the rest is forwarded and the limit of 30 is
    sent as 25. *)
Lemma supplied_empty_query_is_not_forwarded :
  Hangar.q Sample.blank_query = Some EmptyString
  /\ Hangar.searchParams Sample.blank_query
     = [("limit"%string, VNum (Num.of_Z 25));
        ("offset"%string, VNum (Num.of_Z 0));
        ("category"%string, VArr [VStr "chat"])]
  /\ lookup_prop (BaseAPIClient.buildSearchParams (H := Sample.runtime)
                    (Hangar.searchParams Sample.blank_query)) "q"
     = VUndefined.
Proof. repeat split; vm_compute; reflexivity. Qed.

(** What goes on the wire for
    [{ q: "worldedit", platform: ["PAPER", "VELOCITY"], sort: "downloads",
       limit: 100 }]. *)
Example worldedit_search_parameters :
  BaseAPIClient.buildSearchParams (H := Sample.runtime)
    (Hangar.searchParams Sample.worldedit_query)
  = [("q"%string, VStr "worldedit");
     ("sort"%string, VStr "downloads");
     ("limit"%string, VNum (Num.of_Z 25));
     ("platform"%string, VStr (Sample.dq "['PAPER','VELOCITY']"))].
Proof. vm_compute. reflexivity. Qed.

(** ** The Modrinth facet builder *)

Section FacetFacts.
Context `{Runtime}.

Lemma build_nonempty (store : gmap nat (list Modrinth.ModrinthFacet))
    (groups : list nat) :
  groups <> [] ->
  Modrinth.build store groups
  = JSON.wire_format (List.map (Modrinth.toArray store) groups).
Proof.
  intros Hne. unfold Modrinth.build.
  destruct groups as [|g groups]; [contradiction|].
  cbn [length Nat.eqb]. now rewrite stringify_array_of_arrays.
Qed.

Lemma adding_from (calls : list (gmap nat (list Modrinth.ModrinthFacet) * nat)) :
  forall groups,
    Forall (fun call => Modrinth.isEmpty (fst call) (snd call) = false) calls ->
    fold_left (fun groups call => Modrinth.addGroup (fst call) groups (snd call))
      calls groups
    = groups ++ List.map snd calls.
Proof.
  induction calls as [|call calls IH]; intros groups Hall.
  - cbn [fold_left List.map]. now rewrite app_nil_r.
  - inversion Hall as [|? ? Hcall Hrest]; subst.
    cbn [fold_left List.map]. unfold Modrinth.addGroup at 2. rewrite Hcall.
    cbn [negb]. rewrite IH by assumption. now rewrite <- app_assoc.
Qed.

Lemma adding_empty_from (calls : list (gmap nat (list Modrinth.ModrinthFacet) * nat)) :
  forall groups,
    Forall (fun call => Modrinth.isEmpty (fst call) (snd call) = true) calls ->
    fold_left (fun groups call => Modrinth.addGroup (fst call) groups (snd call))
      calls groups
    = groups.
Proof.
  induction calls as [|call calls IH]; intros groups Hall; [reflexivity|].
  inversion Hall as [|? ? Hcall Hrest]; subst.
  cbn [fold_left]. unfold Modrinth.addGroup at 2. rewrite Hcall.
  cbn [negb]. now apply IH.
Qed.

End FacetFacts.

(** C8. A builder to which no group was added, or only groups that were
    empty when they were added ([calls] lists each [addGroup] with the store
    of that moment), holds no group, and [build()] returns the empty string,
    which is not the text of an empty array. *)
Theorem empty_builder_builds_empty_string `{Runtime}
    (calls : list (gmap nat (list Modrinth.ModrinthFacet) * nat))
    (store : gmap nat (list Modrinth.ModrinthFacet)) :
  Forall (fun call => Modrinth.isEmpty (fst call) (snd call) = true) calls ->
  Modrinth.adding calls = []
  /\ Modrinth.build store (Modrinth.adding calls) = EmptyString
  /\ Modrinth.build store (Modrinth.adding calls) <> "[]"%string.
Proof.
  intros Hall. unfold Modrinth.adding.
  rewrite adding_empty_from by assumption.
  repeat split. discriminate.
Qed.

Lemma empty_builder_witness :
  Modrinth.adding [(Sample.groups, 1%nat); (Sample.groups, 1%nat)] = []
  /\ Modrinth.build (H := Sample.runtime) Sample.groups
       (Modrinth.adding [(Sample.groups, 1%nat); (Sample.groups, 1%nat)])
     = EmptyString
  /\ Modrinth.build (H := Sample.runtime) Sample.groups
       (Modrinth.adding [(Sample.groups, 1%nat); (Sample.groups, 1%nat)])
     <> "[]"%string.
Proof.
  apply (empty_builder_builds_empty_string (H := Sample.runtime)).
  repeat constructor.
Defined.

(** C5. After groups G1..Gn (n at least 1), each non-empty when it was
    added, were added to a fresh builder, the builder holds exactly these
    groups in the order they were added, and the text [build()] returns
    parses back into an array of n arrays whose i-th array holds the string
    forms of the facets Gi holds when [build()] runs, in their order. *)
Theorem build_parses_back `{Runtime}
    (calls : list (gmap nat (list Modrinth.ModrinthFacet) * nat))
    (store : gmap nat (list Modrinth.ModrinthFacet)) :
  calls <> [] ->
  Forall (fun call => Modrinth.isEmpty (fst call) (snd call) = false) calls ->
  Modrinth.adding calls = List.map snd calls
  /\ exists items,
       JSON.parse (Modrinth.build store (Modrinth.adding calls)) = Some (VArr items)
       /\ length items = length calls
       /\ items = List.map
                    (fun call =>
                       VArr (List.map VStr
                               (List.map Modrinth.toString
                                  (Modrinth.facets_of store (snd call)))))
                    calls.
Proof.
  intros Hne Hall.
  assert (Hgroups : Modrinth.adding calls = List.map snd calls).
  { unfold Modrinth.adding. now rewrite adding_from. }
  split; [exact Hgroups|].
  rewrite Hgroups.
  rewrite build_nonempty by (destruct calls; [contradiction | discriminate]).
  rewrite parse_wire_format. unfold Modrinth.array_of_arrays.
  eexists. split; [reflexivity|].
  split; [now rewrite !length_map|].
  rewrite !map_map. reflexivity.
Qed.

(** The same for [addGroups] over one unchanged store. *)
Lemma addGroups_parse_back `{Runtime}
    (store : gmap nat (list Modrinth.ModrinthFacet)) (added : list nat) :
  added <> [] ->
  Forall (fun g => Modrinth.isEmpty store g = false) added ->
  JSON.parse (Modrinth.build store (Modrinth.addGroups store [] added))
  = Some (Modrinth.array_of_arrays (List.map (Modrinth.toArray store) added)).
Proof.
  intros Hne Hall.
  assert (Hfrom : forall groups,
             fold_left (Modrinth.addGroup store) added groups = groups ++ added).
  { clear Hne. induction Hall as [|g added Hg Hall IH]; intros groups.
    - cbn [fold_left]. now rewrite app_nil_r.
    - cbn [fold_left]. unfold Modrinth.addGroup at 2. rewrite Hg. cbn [negb].
      rewrite IH. now rewrite <- app_assoc. }
  unfold Modrinth.addGroups. rewrite Hfrom. cbn [app].
  rewrite build_nonempty by assumption.
  apply parse_wire_format.
Qed.

Lemma build_parses_back_witness :
  Modrinth.adding [(Sample.groups, 0%nat); (Sample.groups, 2%nat)]
  = List.map snd [(Sample.groups, 0%nat); (Sample.groups, 2%nat)]
  /\ exists items,
       JSON.parse (Modrinth.build (H := Sample.runtime) Sample.groups
                     (Modrinth.adding [(Sample.groups, 0%nat); (Sample.groups, 2%nat)]))
       = Some (VArr items)
       /\ length items = length [(Sample.groups, 0%nat); (Sample.groups, 2%nat)]
       /\ items = List.map
                    (fun call =>
                       VArr (List.map VStr
                               (List.map (Modrinth.toString (H := Sample.runtime))
                                  (Modrinth.facets_of Sample.groups (snd call)))))
                    [(Sample.groups, 0%nat); (Sample.groups, 2%nat)].
Proof.
  apply (build_parses_back (H := Sample.runtime)).
  - discriminate.
  - repeat constructor.
Defined.

(** C4. For a group holding a non-empty list of facets, [processFacets]
    returns the same wire text for the four shapes: the text itself, a fresh
    builder to which only the group was added, the group, and the flat array
    of its facets. *)
Theorem processFacets_shapes_agree `{Runtime}
    (store : gmap nat (list Modrinth.ModrinthFacet)) (g : nat)
    (facets : list Modrinth.ModrinthFacet) :
  Modrinth.facets_of store g = facets ->
  facets <> [] ->
  let wire := JSON.wire_format [List.map Modrinth.toString facets] in
  Modrinth.processFacets store (Modrinth.RawString wire) = wire
  /\ Modrinth.processFacets store (Modrinth.Builder (Modrinth.addGroup store [] g)) = wire
  /\ Modrinth.processFacets store (Modrinth.Group g) = wire
  /\ Modrinth.processFacets store (Modrinth.FacetArray facets) = wire.
Proof.
  intros Hg Hne wire. subst wire.
  split; [reflexivity|].
  split; [|split].
  - cbn [Modrinth.processFacets]. unfold Modrinth.addGroup, Modrinth.isEmpty.
    rewrite Hg. destruct facets as [|f facets]; [contradiction|].
    cbn [length Nat.eqb negb app].
    rewrite build_nonempty by discriminate.
    cbn [List.map]. unfold Modrinth.toArray. now rewrite Hg.
  - cbn [Modrinth.processFacets]. rewrite stringify_array_of_arrays.
    unfold Modrinth.toArray. now rewrite Hg.
  - cbn [Modrinth.processFacets]. now rewrite stringify_array_of_arrays.
Qed.

Lemma processFacets_shapes_witness :
  Modrinth.processFacets (H := Sample.runtime) Sample.groups
    (Modrinth.RawString
       (JSON.wire_format
          [List.map (Modrinth.toString (H := Sample.runtime))
             [Sample.version "1.20.1"; Sample.version "1.19.4"]]))
  = JSON.wire_format
      [List.map (Modrinth.toString (H := Sample.runtime))
         [Sample.version "1.20.1"; Sample.version "1.19.4"]]
  /\ Modrinth.processFacets (H := Sample.runtime) Sample.groups
       (Modrinth.Builder (Modrinth.addGroup Sample.groups [] 0%nat))
     = JSON.wire_format
         [List.map (Modrinth.toString (H := Sample.runtime))
            [Sample.version "1.20.1"; Sample.version "1.19.4"]]
  /\ Modrinth.processFacets (H := Sample.runtime) Sample.groups (Modrinth.Group 0%nat)
     = JSON.wire_format
         [List.map (Modrinth.toString (H := Sample.runtime))
            [Sample.version "1.20.1"; Sample.version "1.19.4"]]
  /\ Modrinth.processFacets (H := Sample.runtime) Sample.groups
       (Modrinth.FacetArray [Sample.version "1.20.1"; Sample.version "1.19.4"])
     = JSON.wire_format
         [List.map (Modrinth.toString (H := Sample.runtime))
            [Sample.version "1.20.1"; Sample.version "1.19.4"]].
Proof.
  apply (processFacets_shapes_agree (H := Sample.runtime) Sample.groups 0%nat
           [Sample.version "1.20.1"; Sample.version "1.19.4"]).
  - reflexivity.
  - discriminate.
Defined.

(** The shapes part for an empty group: the group itself and the flat empty
    array give the text of an array holding one empty array, the builder
    gives the empty string. *)
Example empty_group_shapes :
  Modrinth.processFacets (H := Sample.runtime) Sample.groups (Modrinth.Group 1%nat)
  = "[[]]"%string
  /\ Modrinth.processFacets (H := Sample.runtime) Sample.groups (Modrinth.FacetArray [])
     = "[[]]"%string
  /\ Modrinth.processFacets (H := Sample.runtime) Sample.groups
       (Modrinth.Builder (Modrinth.addGroup Sample.groups [] 1%nat))
     = EmptyString.
Proof. repeat split; vm_compute; reflexivity. Qed.

(** Section 8 of the specification, evaluated. *)
Example project_type_mod :
  Modrinth.toString (H := Sample.runtime)
    {| Modrinth.type := Modrinth.PROJECT_TYPE;
       Modrinth.operation := Modrinth.EQUAL;
       Modrinth.value := Modrinth.FString "mod" |}
  = "project_type:mod"%string.
Proof. reflexivity. Qed.

Example downloads_at_least_1000 :
  Modrinth.toString (H := Sample.runtime) Sample.popular = "downloads>=1000"%string.
Proof. vm_compute. reflexivity. Qed.

Example versions_in_a_builder :
  Modrinth.build (H := Sample.runtime) Sample.groups
    (Modrinth.addGroup Sample.groups [] 0%nat)
  = Sample.dq "[['versions:1.20.1','versions:1.19.4']]".
Proof. vm_compute. reflexivity. Qed.

(** A group cleared after it was added is written as an empty array. *)
Example cleared_after_adding :
  Modrinth.build (H := Sample.runtime) (Modrinth.group_clear Sample.groups 0%nat)
    (Modrinth.addGroup Sample.groups [] 0%nat)
  = "[[]]"%string.
Proof. vm_compute. reflexivity. Qed.


(** * Further properties: the rest of the request core and of the clients *)

(** ** Counting fetches and pauses *)

Lemma gt_of_nat (a b : nat) : Num.gt (Num.of_nat a) (Num.of_nat b) = (b <? a)%nat.
Proof.
  unfold Num.gt, Num.lt, Num.of_nat, Num.of_Z, Num.Qltb, Qle_bool, inject_Z.
  cbn [Qnum Qden]. rewrite !Z.mul_1_r.
  destruct (Z.leb_spec (Z.of_nat a) (Z.of_nat b)), (Nat.ltb_spec b a);
    simpl; solve [reflexivity | lia].
Qed.

Lemma fetch_count_app (a b : list Ky.Event) :
  fetch_count (a ++ b) = (fetch_count a + fetch_count b)%nat.
Proof. unfold fetch_count. now rewrite List.filter_app, List.length_app. Qed.

Lemma delay_count_app (a b : list Ky.Event) :
  delay_count (a ++ b) = (delay_count a + delay_count b)%nat.
Proof. unfold delay_count. now rewrite List.filter_app, List.length_app. Qed.

Lemma attempt_events_counts (o : Ky.KyOptions) (request : Ky.Request) :
  (fetch_count (Ky.attempt_events o request) <= 1)%nat
  /\ delay_count (Ky.attempt_events o request) = 0%nat.
Proof.
  unfold Ky.attempt_events. destruct (Num.gt _ _); cbn; split; lia.
Qed.

Section Counting.
Context `{Runtime}.

(** A delay is only computed while the counter is within the limit. *)
Lemma calculateRetryDelay_returns (r : Ky.RetryOptions) (now : number) (c : nat)
    (error : Ky.KyError) (count : nat) (d : number) :
  Ky._calculateRetryDelay r now c error = (count, Return d) ->
  count = S c /\ Num.gt (Num.of_nat (S c)) (Ky.limit r) = false.
Proof.
  unfold Ky._calculateRetryDelay. intros E.
  injection E as <- E. split; [reflexivity|].
  destruct (Num.gt (Num.of_nat (S c)) (Ky.limit r)); [discriminate E | reflexivity].
Qed.

Lemma retry_counts (o : Ky.KyOptions) (request : Ky.Request) (n : nat)
    (script : list Ky.Attempt) :
  Ky.limit (Ky.retry o) = Num.of_nat n ->
  forall c,
    (fetch_count (Ky.events (Ky._retry o request c script)) <= S (n - c))%nat
    /\ (delay_count (Ky.events (Ky._retry o request c script)) <= n - c)%nat.
Proof.
  intros Hlimit.
  induction script as [|a rest IH]; intros c; cbn [Ky._retry].
  - cbn. split; lia.
  - pose proof (attempt_events_counts o request) as [Hf Hd].
    destruct (Ky.function_ o a) as [response|error]; cbv beta iota.
    + cbn [Ky.events]. split; lia.
    + destruct (Ky._calculateRetryDelay (Ky.retry o) (Ky.clock a) c error)
        as [count [d|e]] eqn:E.
      * apply calculateRetryDelay_returns in E as [-> Hgt].
        rewrite Hlimit, gt_of_nat in Hgt. apply Nat.ltb_ge in Hgt.
        cbn [Nat.ltb Nat.leb].
        cbn [Ky.after_fetch Ky.events].
        rewrite !fetch_count_app, !delay_count_app.
        destruct (IH (S c)) as [IHf IHd].
        cbn [fetch_count delay_count List.filter is_fetch is_delay negb length].
        split; lia.
      * cbn [Ky.events]. split; lia.
Qed.

End Counting.

(** X1. A call makes at most [limit + 1] fetches and at most [limit] pauses,
    whatever the attempts meet. *)
Theorem retry_is_bounded_by_limit `{Runtime} (input : string) (options : Ky.Options)
    (script : list Ky.Attempt) (n : nat) :
  Ky.limit (Ky.retry (Ky.constructor options)) = Num.of_nat n ->
  (fetch_count (Ky.events (Ky.create input options script)) <= S n)%nat
  /\ (delay_count (Ky.events (Ky.create input options script)) <= n)%nat.
Proof.
  intros Hlimit. unfold Ky.create.
  destruct (Ky.includes_str _ _).
  - destruct (retry_counts _ (Ky.request_of input options) n script Hlimit 0%nat).
    split; lia.
  - destruct script as [|a rest]; cbn [Ky.events].
    + cbn. split; lia.
    + destruct (attempt_events_counts (Ky.constructor options)
                  (Ky.request_of input options)). split; lia.
Qed.

Lemma retry_is_bounded_by_limit_witness :
  (fetch_count (Ky.events (Ky.create (H := Sample.runtime) "https://api.spiget.org/v2/status"
      Sample.get
      [Sample.answering Sample.unavailable_2s; Sample.silent;
       Sample.answering Sample.ok_empty])) <= 3)%nat
  /\ (delay_count (Ky.events (Ky.create (H := Sample.runtime) "https://api.spiget.org/v2/status"
      Sample.get
      [Sample.answering Sample.unavailable_2s; Sample.silent;
       Sample.answering Sample.ok_empty])) <= 2)%nat.
Proof.
  refine (retry_is_bounded_by_limit (H := Sample.runtime) _ Sample.get _ 2 _).
  reflexivity.
Defined.

(** ** Pauses *)

Lemma Qltb_asym (x y : Q) : Num.Qltb x y = true -> Num.Qltb y x = false.
Proof.
  unfold Num.Qltb. intros E. apply negb_true_iff in E.
  apply negb_false_iff, Qle_bool_iff.
  destruct (Qlt_le_dec x y) as [Hlt|Hle]; [now apply Qlt_le_weak|].
  apply Qle_bool_iff in Hle. congruence.
Qed.

Lemma Qltb_irrefl (x : Q) : Num.Qltb x x = false.
Proof. unfold Num.Qltb. apply negb_false_iff, Qle_bool_iff, Qle_refl. Qed.

(** [Math.min(d, max)] never exceeds a finite [max]. *)
Lemma min_within (d : number) (m : Q) : Num.gt (Num.min d (Fin m)) (Fin m) = false.
Proof.
  unfold Num.gt. destruct d as [x| | |]; cbn [Num.min].
  - destruct (Num.lt (Fin x) (Fin m)) eqn:E; cbn [Num.lt] in *.
    + now apply Qltb_asym.
    + apply Qltb_irrefl.
  - cbn [Num.lt]. apply Qltb_irrefl.
  - reflexivity.
  - reflexivity.
Qed.

Section Pauses.
Context `{Runtime}.

Lemma attempt_events_pause_within (o : Ky.KyOptions) (request : Ky.Request) :
  Forall pause_within (Ky.attempt_events o request).
Proof. unfold Ky.attempt_events. destruct (Num.gt _ _); repeat constructor. Qed.

Lemma retry_pauses_within (o : Ky.KyOptions) (request : Ky.Request)
    (script : list Ky.Attempt) :
  forall c, Forall pause_within (Ky.events (Ky._retry o request c script)).
Proof.
  induction script as [|a rest IH]; intros c; cbn [Ky._retry].
  - constructor.
  - pose proof (attempt_events_pause_within o request) as Hone.
    destruct (Ky.function_ o a) as [response|error]; cbv beta iota.
    + exact Hone.
    + destruct (Ky._calculateRetryDelay (Ky.retry o) (Ky.clock a) c error)
        as [count [d|e]].
      * destruct (count <? 1)%nat; [exact Hone|].
        cbn [Ky.after_fetch Ky.events].
        apply Forall_app. split; [|apply IH].
        apply Forall_app. split; [exact Hone|].
        constructor; [|constructor]. apply min_within.
      * exact Hone.
Qed.

End Pauses.

(** X2. No pause between two attempts is longer than [maxSafeTimeout]
    (2147483647 ms), whatever delay the retry options or a Retry-After
    header ask for. *)
Theorem pauses_never_exceed_maxSafeTimeout `{Runtime} (input : string)
    (options : Ky.Options) (script : list Ky.Attempt) :
  Forall (fun e => match e with
                   | Ky.EvDelay ms => Num.gt ms Ky.maxSafeTimeout = false
                   | Ky.EvFetch _ _ => True
                   end)
    (Ky.events (Ky.create input options script)).
Proof.
  unfold Ky.create.
  destruct (Ky.includes_str _ _).
  - apply retry_pauses_within.
  - destruct script; cbn [Ky.events]; [constructor|].
    apply attempt_events_pause_within.
Qed.

(** ** A timer above [maxSafeTimeout] *)

Section Oversized.
Context `{Runtime}.




End Oversized.



(** ** The default backoff *)

Lemma Qred_inject_Z (z : Z) : Qred (inject_Z z) = inject_Z z.
Proof.
  unfold Qred, inject_Z.
  pose proof (Z.ggcd_gcd z 1) as Hg.
  pose proof (Z.ggcd_correct_divisors z 1) as Hd.
  destruct (Z.ggcd z 1) as [g [aa bb]]. cbn [fst snd] in *.
  rewrite Z.gcd_1_r in Hg. subst g. destruct Hd as [Ha Hb].
  rewrite Z.mul_1_l in Ha, Hb. now subst.
Qed.

Lemma defaultDelay_value (n : nat) :
  Ky.defaultDelay (S n) = Num.of_Z (300 * 2 ^ Z.of_nat n).
Proof.
  unfold Ky.defaultDelay, Num.pow2, Num.of_Z. cbn [Num.mul]. f_equal.
  rewrite <- (Qred_inject_Z (300 * 2 ^ Z.of_nat n)).
  apply Qred_complete.
  rewrite !Qred_correct.
  replace (Z.of_nat (S n) - 1) with (Z.of_nat n) by lia.
  rewrite inject_Z_mult, (Zpower_Qpower 2 (Z.of_nat n)) by lia.
  change (inject_Z 2) with 2%Q.
  generalize (2 ^ Z.of_nat n)%Q. intros q.
  unfold Qeq, Qmult, inject_Z. cbn [Qnum Qden]. destruct q as [a b]. cbn [Qnum Qden].
  lia.
Qed.

(** X4. With ky's default [delay], a failure that is neither a timeout nor
    an HTTP error (a rejected [fetch]) is retried, while the counter is
    within the limit, after [300 * 2^n] ms, [n] being the number of earlier
    retries: 300 ms, 600 ms, 1200 ms, ..., capped by [backoffLimit]. *)
Theorem default_backoff_doubles `{Runtime} (r : Ky.RetryOptions) (now : number)
    (n : nat) (cause : Ky.Failure) :
  Ky.delay r = Ky.defaultDelay ->
  Num.gt (Num.of_nat (S n)) (Ky.limit r) = false ->
  snd (Ky._calculateRetryDelay r now n (Ky.FetchError cause))
  = Return (Num.min (Ky.backoffLimit r) (Num.of_Z (300 * 2 ^ Z.of_nat n))).
Proof.
  intros Hdelay Hlimit. unfold Ky._calculateRetryDelay. cbn [snd Ky.is_TimeoutError].
  rewrite Hlimit. cbn [orb]. rewrite Hdelay. now rewrite defaultDelay_value.
Qed.

Lemma default_backoff_doubles_witness :
  snd (Ky._calculateRetryDelay (H := Sample.runtime) Ky.defaultRetryOptions Sample.now 1
         (Ky.FetchError {| Ky.failure_name := "TypeError"; Ky.failure_code := None |}))
  = Return (Num.min (Ky.backoffLimit Ky.defaultRetryOptions)
              (Num.of_Z (300 * 2 ^ Z.of_nat 1))).
Proof.
  refine (default_backoff_doubles (H := Sample.runtime) Ky.defaultRetryOptions Sample.now 1
            {| Ky.failure_name := "TypeError"; Ky.failure_code := None |} _ _).
  - reflexivity.
  - reflexivity.
Defined.

Example second_network_failure_waits_600 :
  snd (Ky._calculateRetryDelay (H := Sample.runtime) Ky.defaultRetryOptions Sample.now 1
         (Ky.FetchError {| Ky.failure_name := "TypeError"; Ky.failure_code := None |}))
  = Return (Num.of_Z 600).
Proof. vm_compute. reflexivity. Qed.

(** ** One attempt of a client request *)

Section OneAttempt.
Context `{Runtime}.

(** The first attempt of a request made with ky's defaults, when the server
    answers in time. *)
Lemma function_answered (o : Ky.KyOptions) (a : Ky.Attempt) (response : Ky.Response) :
  Ky.timeout_ms o = Num.of_Z 10000 ->
  Ky.answer a = inl response ->
  Num.lt (Ky.latency a) (Num.of_Z 10000) = true ->
  Ky.function_ o a =
    if negb (Ky.ok response) && Ky.throwHttpErrors o
    then Throw (Ky.HTTPError response) else Return response.
Proof.
  intros Ht Ha Hl. unfold Ky.function_, Ky.timeout. rewrite Ht, Hl, Ha.
  reflexivity.
Qed.

Lemma function_timed_out (o : Ky.KyOptions) (a : Ky.Attempt) :
  Ky.timeout_ms o = Num.of_Z 10000 ->
  Num.lt (Ky.latency a) (Num.of_Z 10000) = false ->
  Ky.function_ o a = Throw Ky.TimeoutError.
Proof.
  intros Ht Hl. unfold Ky.function_, Ky.timeout. rewrite Ht, Hl. reflexivity.
Qed.

Lemma calculateRetryDelay_unlisted (r : Ky.RetryOptions) (now : number) (n : nat)
    (response : Ky.Response) :
  Ky.status response ∉ Ky.statusCodes r ->
  snd (Ky._calculateRetryDelay r now n (Ky.HTTPError response))
  = Throw (Ky.HTTPError response).
Proof.
  intros Hnot. unfold Ky._calculateRetryDelay; cbn [snd Ky.is_TimeoutError].
  rewrite orb_false_r. destruct (Num.gt _ _); [reflexivity|].
  unfold Ky.includes. now rewrite (bool_decide_eq_false_2 _ Hnot).
Qed.

End OneAttempt.

(** X5. A GET answered in time with an error status that is not one of
    ky's retry statuses (408, 413, 429, 500, 502, 503, 504) is not retried:
    after that one fetch [makeRequest] throws what [handleError] makes of
    the HTTP error, with the default code API_REQUEST_FAILED and the message
    naming the endpoint. *)
Theorem unlisted_status_fails_after_one_fetch `{Runtime}
    (handleError : ErrorLike -> ErrorCode -> string -> ServiceError)
    (c : BaseAPIClient.Client) (endpoint : string)
    (searchParams : option (list (string * JSValue)))
    (a : Ky.Attempt) (rest : list Ky.Attempt) (response : Ky.Response) :
  Ky.answer a = inl response ->
  Num.lt (Ky.latency a) (Num.of_Z 10000) = true ->
  Ky.ok response = false ->
  Ky.status response ∉ Ky.retryStatusCodes ->
  BaseAPIClient.makeRequest handleError c endpoint searchParams (a :: rest) =
    {| Ky.result :=
         Some (Throw (Service
           (handleError (of_KyError (Ky.HTTPError response)) API_REQUEST_FAILED
              ("Failed to fetch " +:+ endpoint))));
       Ky.events :=
         [Ky.EvFetch
            {| Ky.r_method := "GET";
               Ky.r_url := BaseAPIClient.baseUrl c +:+ endpoint;
               Ky.r_searchParams :=
                 option_map BaseAPIClient.buildSearchParams searchParams;
               Ky.r_headers := BaseAPIClient.getHeaders c;
               Ky.r_body := None |}
            (Num.of_Z 10000)];
       Ky.remaining := rest |}.
Proof.
  intros Ha Hl Hok Hnot.
  unfold BaseAPIClient.makeRequest, BaseAPIClient.settle, Ky.create.
  match goal with
  | |- context [Ky.constructor ?opts] => set (options := opts)
  end.
  change (Ky.includes_str (Ky.methods (Ky.retry (Ky.constructor options)))
            (toLowerCase (Ky.method (Ky.constructor options)))) with true.
  cbv iota.
  assert (Hf : Ky.function_ (Ky.constructor options) a = Throw (Ky.HTTPError response)).
  { rewrite (function_answered (Ky.constructor options) a response eq_refl Ha Hl), Hok.
    reflexivity. }
  rewrite (retry_rethrows (Ky.constructor options) _ 0 a rest _ _ Hf
             (calculateRetryDelay_unlisted (Ky.retry (Ky.constructor options))
                (Ky.clock a) 0 response Hnot)).
  reflexivity.
Qed.

Lemma unlisted_status_fails_after_one_fetch_witness :
  BaseAPIClient.makeRequest (H := Sample.runtime) Modrinth.handleError Sample.modrinth
    "/project/sodium" None
    [Sample.answering (Sample.respond 403 [] None); Sample.answering Sample.ok_empty] =
    {| Ky.result :=
         Some (Throw (Service
           (Modrinth.handleError
              (of_KyError (Ky.HTTPError (Sample.respond 403 [] None)))
              API_REQUEST_FAILED ("Failed to fetch " +:+ "/project/sodium"))));
       Ky.events :=
         [Ky.EvFetch
            {| Ky.r_method := "GET";
               Ky.r_url := BaseAPIClient.baseUrl Sample.modrinth +:+ "/project/sodium";
               Ky.r_searchParams := None;
               Ky.r_headers := BaseAPIClient.getHeaders Sample.modrinth;
               Ky.r_body := None |}
            (Num.of_Z 10000)];
       Ky.remaining := [Sample.answering Sample.ok_empty] |}.
Proof.
  refine (unlisted_status_fails_after_one_fetch (H := Sample.runtime) Modrinth.handleError
            Sample.modrinth "/project/sodium" None
            (Sample.answering (Sample.respond 403 [] None))
            [Sample.answering Sample.ok_empty] (Sample.respond 403 [] None) _ _ _ _).
  - reflexivity.
  - reflexivity.
  - reflexivity.
  - vm_compute. intros Hin. repeat (apply elem_of_cons in Hin as [Hin|Hin]; [discriminate Hin|]).
    now apply elem_of_nil in Hin.
Defined.


(** X7. An attempt that is not answered within ky's default 10000 ms ends
    the request at once, and the timeout reaches the caller as the
    service's error with the request's default code: API_REQUEST_FAILED
    with the message naming the endpoint for [makeRequest], DOWNLOAD_FAILED
    with the message naming the URL for [makeRawRequest]. *)
Theorem timeout_is_reported_with_the_default_code `{Runtime} (service : ErrorClass)
    (c : BaseAPIClient.Client) (endpoint url : string)
    (searchParams : option (list (string * JSValue)))
    (a : Ky.Attempt) (rest : list Ky.Attempt) :
  Num.lt (Ky.latency a) (Num.of_Z 10000) = false ->
  (exists e,
     Ky.result (BaseAPIClient.makeRequest (handleError_of service) c endpoint
                  searchParams (a :: rest)) = Some (Throw (Service e))
     /\ class e = service /\ code e = API_REQUEST_FAILED
     /\ message e = "Failed to fetch " +:+ endpoint)
  /\ fetch_count (Ky.events (BaseAPIClient.makeRequest (handleError_of service) c
                               endpoint searchParams (a :: rest))) = 1%nat
  /\ (exists e,
        Ky.result (BaseAPIClient.makeRawRequest (handleError_of service) c url
                     (a :: rest)) = Some (Throw (Service e))
        /\ class e = service /\ code e = DOWNLOAD_FAILED
        /\ message e = "Failed to download from " +:+ url)
  /\ fetch_count (Ky.events (BaseAPIClient.makeRawRequest (handleError_of service) c
                               url (a :: rest))) = 1%nat.
Proof.
  intros Hl.
  assert (Hget : forall input options,
            Ky.o_method options = Some "get"%string ->
            Ky.o_retry options = Ky.RetryAbsent ->
            Ky.o_timeout options = None ->
            Ky.create input options (a :: rest) =
              {| Ky.result := Some (Throw Ky.TimeoutError);
                 Ky.events := [Ky.EvFetch (Ky.request_of input options) (Num.of_Z 10000)];
                 Ky.remaining := rest |}).
  { intros input options Hm Hr Ht. unfold Ky.create.
    assert (Ho : Ky.constructor options =
                 {| Ky.method := "GET"; Ky.retry := Ky.defaultRetryOptions;
                    Ky.throwHttpErrors :=
                      negb (bool_decide (Ky.o_throwHttpErrors options = Some false));
                    Ky.timeout_ms := Num.of_Z 10000 |}).
    { unfold Ky.constructor. rewrite Hm, Hr, Ht. reflexivity. }
    rewrite Ho.
    change (Ky.includes_str _ _) with true. cbv iota.
    erewrite retry_rethrows;
      [reflexivity | now apply function_timed_out | apply calculateRetryDelay_timeout]. }
  unfold BaseAPIClient.makeRequest, BaseAPIClient.makeRawRequest, BaseAPIClient.settle.
  rewrite !Hget by reflexivity. cbn [Ky.result Ky.events].
  repeat split; try reflexivity.
  - eexists. split; [reflexivity|]. destruct service; repeat split; reflexivity.
  - eexists. split; [reflexivity|]. destruct service; repeat split; reflexivity.
Qed.

Lemma timeout_is_reported_with_the_default_code_witness :
  (exists e,
     Ky.result (BaseAPIClient.makeRequest (H := Sample.runtime)
                  (handleError_of HangarError) Sample.hangar "/projects/WorldEdit"
                  None [Sample.silent]) = Some (Throw (Service e))
     /\ class e = HangarError /\ code e = API_REQUEST_FAILED
     /\ message e = "Failed to fetch " +:+ "/projects/WorldEdit")
  /\ fetch_count (Ky.events (BaseAPIClient.makeRequest (H := Sample.runtime)
                               (handleError_of HangarError) Sample.hangar
                               "/projects/WorldEdit" None [Sample.silent])) = 1%nat
  /\ (exists e,
        Ky.result (BaseAPIClient.makeRawRequest (H := Sample.runtime)
                     (handleError_of HangarError) Sample.hangar
                     "https://hangar.papermc.io/file.jar" [Sample.silent])
        = Some (Throw (Service e))
        /\ class e = HangarError /\ code e = DOWNLOAD_FAILED
        /\ message e = "Failed to download from " +:+ "https://hangar.papermc.io/file.jar")
  /\ fetch_count (Ky.events (BaseAPIClient.makeRawRequest (H := Sample.runtime)
                               (handleError_of HangarError) Sample.hangar
                               "https://hangar.papermc.io/file.jar" [Sample.silent]))
     = 1%nat.
Proof.
  refine (timeout_is_reported_with_the_default_code (H := Sample.runtime) HangarError
            Sample.hangar "/projects/WorldEdit" "https://hangar.papermc.io/file.jar"
            None Sample.silent [] _).
  reflexivity.
Defined.

(** X8. A success whose body is not JSON text (an empty body, as with 204,
    included) makes [makeRequest] reject with the SyntaxError of
    [response.json()] itself: the promise is returned from inside the [try]
    without being awaited, so [handleError] never sees it and the error is
    not one of the service's. *)
Theorem unparsable_body_is_not_a_service_error `{Runtime}
    (handleError : ErrorLike -> ErrorCode -> string -> ServiceError)
    (c : BaseAPIClient.Client) (endpoint : string)
    (searchParams : option (list (string * JSValue)))
    (a : Ky.Attempt) (rest : list Ky.Attempt) (response : Ky.Response) :
  Ky.answer a = inl response ->
  Num.lt (Ky.latency a) (Num.of_Z 10000) = true ->
  Ky.ok response = true ->
  Ky.body response = None ->
  Ky.result (BaseAPIClient.makeRequest handleError c endpoint searchParams (a :: rest))
  = Some (Throw SyntaxError)
  /\ fetch_count (Ky.events (BaseAPIClient.makeRequest handleError c endpoint
                               searchParams (a :: rest))) = 1%nat
  /\ Ky.remaining (BaseAPIClient.makeRequest handleError c endpoint searchParams
                     (a :: rest)) = rest.
Proof.
  intros Ha Hl Hok Hbody.
  unfold BaseAPIClient.makeRequest, BaseAPIClient.settle, Ky.create.
  match goal with
  | |- context [Ky.constructor ?opts] => set (options := opts)
  end.
  change (Ky.includes_str (Ky.methods (Ky.retry (Ky.constructor options)))
            (toLowerCase (Ky.method (Ky.constructor options)))) with true.
  cbv iota. cbn [Ky._retry].
  rewrite (function_answered (Ky.constructor options) a response eq_refl Ha Hl), Hok.
  cbn [negb andb Ky.result Ky.events Ky.remaining].
  unfold BaseAPIClient.response_json. rewrite Hbody.
  repeat split; reflexivity.
Qed.

Lemma unparsable_body_is_not_a_service_error_witness :
  Ky.result (BaseAPIClient.makeRequest (H := Sample.runtime) Spiget.handleError
               Sample.spiget "/status" None
               [Sample.answering (Sample.respond 204 [] None)])
  = Some (Throw SyntaxError)
  /\ fetch_count (Ky.events (BaseAPIClient.makeRequest (H := Sample.runtime)
                               Spiget.handleError Sample.spiget "/status" None
                               [Sample.answering (Sample.respond 204 [] None)]))
     = 1%nat
  /\ Ky.remaining (BaseAPIClient.makeRequest (H := Sample.runtime) Spiget.handleError
                     Sample.spiget "/status" None
                     [Sample.answering (Sample.respond 204 [] None)]) = [].
Proof.
  refine (unparsable_body_is_not_a_service_error (H := Sample.runtime) Spiget.handleError
            Sample.spiget "/status" None
            (Sample.answering (Sample.respond 204 [] None)) []
            (Sample.respond 204 [] None) _ _ _ _); reflexivity.
Defined.

(** ** Request methods *)

Lemma lower_upper_ascii (c : ascii) : lower_ascii (Ky.upper_ascii c) = lower_ascii c.
Proof. destruct c as [[] [] [] [] [] [] [] []]; reflexivity. Qed.

Lemma toLowerCase_toUpperCase (s : string) :
  toLowerCase (Ky.toUpperCase s) = toLowerCase s.
Proof.
  induction s as [|c s IH]; [reflexivity|].
  cbn [Ky.toUpperCase toLowerCase]. now rewrite lower_upper_ascii, IH.
Qed.

(** X9. Normalising the method never changes whether the request is
    retried: the constructor upper-cases the six methods it knows, and
    [create] lower-cases the method again before it looks it up in
    [retry.methods]. *)
Theorem method_normalisation_keeps_retriability (options : Ky.Options) :
  toLowerCase (Ky.method (Ky.constructor options))
  = toLowerCase (default "GET"%string (Ky.o_method options))
  /\ Ky.includes_str (Ky.methods (Ky.retry (Ky.constructor options)))
       (toLowerCase (Ky.method (Ky.constructor options)))
     = Ky.includes_str (Ky.methods (Ky.retry (Ky.constructor options)))
         (toLowerCase (default "GET"%string (Ky.o_method options))).
Proof.
  assert (E : toLowerCase (Ky.method (Ky.constructor options))
              = toLowerCase (default "GET"%string (Ky.o_method options))).
  { unfold Ky.constructor; cbn [Ky.method]. unfold Ky.normalizeRequestMethod.
    destruct (Ky.includes_str _ _); [apply toLowerCase_toUpperCase | reflexivity]. }
  split; [exact E | now rewrite E].
Qed.

(** ** The [prefixUrl] option *)

Lemma endsWith_slash_app (p : string) : Ky.endsWith_slash (p +:+ "/") = true.
Proof.
  induction p as [|c p IH]; [reflexivity|].
  rewrite app_cons. cbn [Ky.endsWith_slash].
  destruct (p +:+ "/") eqn:E; [|exact IH].
  destruct p; discriminate E.
Qed.

Lemma truthy_string_app (p t : string) :
  truthy_string p = true -> truthy_string (p +:+ t) = true.
Proof. destruct p; [discriminate | reflexivity]. Qed.

(** X10. A non-empty [prefixUrl] is joined to the input with exactly one
    slash, whether or not it ends in one, and an input that begins with a
    slash is refused. *)
Theorem prefixUrl_trailing_slash_is_optional (prefixUrl input : string) :
  prefixUrl <> EmptyString ->
  Ky.endsWith_slash prefixUrl = false ->
  Ky.prefixed_input (Some (prefixUrl +:+ "/")) input
  = Ky.prefixed_input (Some prefixUrl) input
  /\ Ky.prefixed_input (Some prefixUrl) input
     = if Ky.startsWith_slash input
       then Throw "`input` must not begin with a slash when using `prefixUrl`"%string
       else Return ((prefixUrl +:+ "/") +:+ input).
Proof.
  intros Hne Hends. unfold Ky.prefixed_input. cbn [default from_option id]. cbv zeta.
  rewrite (truthy_string_nonempty prefixUrl Hne).
  rewrite (truthy_string_app prefixUrl "/" (truthy_string_nonempty prefixUrl Hne)).
  rewrite endsWith_slash_app, Hends.
  destruct (Ky.startsWith_slash input); split; reflexivity.
Qed.

Lemma prefixUrl_trailing_slash_is_optional_witness :
  Ky.prefixed_input (Some ("https://api.spiget.org/v2" +:+ "/")) "resources/42"
  = Ky.prefixed_input (Some "https://api.spiget.org/v2"%string) "resources/42"
  /\ Ky.prefixed_input (Some "https://api.spiget.org/v2"%string) "resources/42"
     = if Ky.startsWith_slash "resources/42"
       then Throw "`input` must not begin with a slash when using `prefixUrl`"%string
       else Return (("https://api.spiget.org/v2" +:+ "/") +:+ "resources/42").
Proof.
  refine (prefixUrl_trailing_slash_is_optional "https://api.spiget.org/v2" "resources/42" _ _).
  - discriminate.
  - reflexivity.
Defined.

Example prefixUrl_refuses_a_leading_slash :
  Ky.prefixed_input (Some "https://api.spiget.org/v2"%string) "/resources/42"
  = Throw "`input` must not begin with a slash when using `prefixUrl`"%string
  /\ Ky.prefixed_input None "/resources/42" = Return "/resources/42"%string
  /\ Ky.prefixed_input (Some EmptyString) "/resources/42" = Return "/resources/42"%string.
Proof. repeat split; reflexivity. Qed.

(** ** Query parameters *)

Lemma lookup_set_prop (props : list (string * JSValue)) (key k : string) (v : JSValue) :
  lookup_prop (set_prop props key v) k
  = if String.eqb key k then v else lookup_prop props k.
Proof.
  induction props as [|[k0 x] rest IH]; cbn [set_prop lookup_prop].
  - reflexivity.
  - destruct (String.eqb_spec k0 key) as [->|Hne]; cbn [lookup_prop].
    + destruct (String.eqb key k); reflexivity.
    + rewrite IH. destruct (String.eqb_spec k0 k) as [->|Hne']; [|reflexivity].
      destruct (String.eqb_spec key k) as [->|_]; [contradiction | reflexivity].
Qed.

Lemma lookup_prop_absent (props : list (string * JSValue)) (k : string) :
  k ∉ List.map fst props -> lookup_prop props k = VUndefined.
Proof.
  induction props as [|[k0 x] rest IH]; cbn [List.map fst lookup_prop]; intros Hnot.
  - reflexivity.
  - destruct (String.eqb_spec k0 k) as [->|Hne].
    + exfalso. apply Hnot. left.
    + apply IH. intros Hin. apply Hnot. now right.
Qed.

Lemma Forall_set_prop (P : string * JSValue -> Prop) (props : list (string * JSValue))
    (key : string) (v : JSValue) :
  (forall k, P (k, v)) -> Forall P props -> Forall P (set_prop props key v).
Proof.
  intros Hv. induction 1 as [|[k0 x] rest Hx Hrest IH]; cbn [set_prop].
  - repeat constructor. apply Hv.
  - destruct (String.eqb k0 key); constructor; auto.
Qed.

Section Params.
Context `{Runtime}.

Lemma params_step_lookup (params : list (string * JSValue)) (k0 : string) (v : JSValue)
    (k : string) :
  lookup_prop (params_step params (k0, v)) k
  = if String.eqb k0 k
    then match v with VUndefined => lookup_prop params k | _ => sent_value v end
    else lookup_prop params k.
Proof.
  unfold params_step; cbn [fst snd].
  destruct v; try (rewrite lookup_set_prop; reflexivity).
  destruct (String.eqb k0 k); reflexivity.
Qed.

Lemma fold_params_lookup (options : list (string * JSValue)) :
  NoDup (List.map fst options) ->
  forall (acc : list (string * JSValue)) (k : string),
    lookup_prop (fold_left params_step options acc) k
    = match lookup_prop options k with
      | VUndefined => lookup_prop acc k
      | v => sent_value v
      end.
Proof.
  induction options as [|[k0 v] rest IH]; intros Hnd acc k.
  - reflexivity.
  - cbn [List.map fst] in Hnd. apply NoDup_cons in Hnd as [Hk0 Hnd].
    cbn [fold_left lookup_prop]. rewrite (IH Hnd), params_step_lookup.
    destruct (String.eqb_spec k0 k) as [->|Hne].
    + rewrite (lookup_prop_absent rest k Hk0). destruct v; reflexivity.
    + reflexivity.
Qed.

Lemma fold_params_values (options acc : list (string * JSValue)) :
  Forall (fun kv => snd kv <> VUndefined /\ forall items, snd kv <> VArr items) acc ->
  Forall (fun kv => snd kv <> VUndefined /\ forall items, snd kv <> VArr items)
    (fold_left params_step options acc).
Proof.
  revert acc. induction options as [|[k0 v] rest IH]; intros acc Hacc; [exact Hacc|].
  cbn [fold_left]. apply IH. unfold params_step; cbn [fst snd].
  destruct v; try exact Hacc;
    (apply Forall_set_prop; [|exact Hacc]); intros k; cbn [snd];
    (split; [discriminate | intros ?; discriminate]).
Qed.

End Params.

(** X11. For an options object (its keys are distinct), the parameter sent
    under a key is the option's value, with an array replaced by its JSON
    text; a key that is absent or whose value is [undefined] is not sent. *)
Theorem buildSearchParams_lookup `{Runtime} (options : list (string * JSValue))
    (key : string) :
  NoDup (List.map fst options) ->
  lookup_prop (BaseAPIClient.buildSearchParams options) key
  = match lookup_prop options key with
    | VArr items => VStr (default EmptyString (JSON.stringify (VArr items)))
    | value => value
    end.
Proof.
  intros Hnd.
  change (BaseAPIClient.buildSearchParams options) with (fold_left params_step options []).
  rewrite (fold_params_lookup options Hnd [] key).
  destruct (lookup_prop options key); reflexivity.
Qed.

Lemma buildSearchParams_lookup_witness :
  lookup_prop (BaseAPIClient.buildSearchParams (H := Sample.runtime)
                 [("ids", VArr [VStr "AANobbMI"; VStr "P7dR8mSH"]);
                  ("featured", VUndefined);
                  ("count", VNum (Num.of_Z 3))]%string) "ids"
  = match lookup_prop [("ids", VArr [VStr "AANobbMI"; VStr "P7dR8mSH"]);
                       ("featured", VUndefined);
                       ("count", VNum (Num.of_Z 3))]%string "ids" with
    | VArr items =>
        VStr (default EmptyString (JSON.stringify (H := Sample.runtime) (VArr items)))
    | value => value
    end.
Proof.
  refine (buildSearchParams_lookup (H := Sample.runtime)
            [("ids", VArr [VStr "AANobbMI"; VStr "P7dR8mSH"]);
             ("featured", VUndefined);
             ("count", VNum (Num.of_Z 3))]%string "ids" _).
  cbn [List.map fst]. repeat (apply NoDup_cons; split; [vm_compute; intros Hin;
    repeat (apply elem_of_cons in Hin as [Hin|Hin]; [discriminate Hin|]);
    now apply elem_of_nil in Hin|]). apply NoDup_nil. exact I.
Defined.

(** X12. No parameter handed to ky is [undefined] or an array: the former
    are left out, the latter have become JSON text. *)
Theorem buildSearchParams_sends_no_array `{Runtime} (options : list (string * JSValue)) :
  Forall (fun kv => snd kv <> VUndefined /\ forall items, snd kv <> VArr items)
    (BaseAPIClient.buildSearchParams options).
Proof.
  change (BaseAPIClient.buildSearchParams options) with (fold_left params_step options []).
  apply fold_params_values. constructor.
Qed.

Example ids_are_sent_as_json_text :
  BaseAPIClient.buildSearchParams (H := Sample.runtime)
    [("ids", VArr [VStr "AANobbMI"; VStr "P7dR8mSH"]);
     ("featured", VUndefined);
     ("count", VNum (Num.of_Z 3))]%string
  = [("ids", VStr (Sample.dq "['AANobbMI','P7dR8mSH']"));
     ("count", VNum (Num.of_Z 3))]%string.
Proof. vm_compute. reflexivity. Qed.

(** ** The User-Agent header *)



(** ** Calls in sequence *)

Lemma andThen_returned {A B} (first : Call A) (next : A -> Call B)
    (script : list Ky.Attempt) (a : A) :
  Ky.result (first script) = Some (Return a) ->
  andThen first next script =
    {| Ky.result := Ky.result (next a (Ky.remaining (first script)));
       Ky.events := Ky.events (first script)
                    ++ Ky.events (next a (Ky.remaining (first script)));
       Ky.remaining := Ky.remaining (next a (Ky.remaining (first script))) |}.
Proof. intros E. unfold andThen. now rewrite E. Qed.

Lemma andThen_thrown {A B} (first : Call A) (next : A -> Call B)
    (script : list Ky.Attempt) (e : Thrown) :
  Ky.result (first script) = Some (Throw e) ->
  andThen first next script =
    {| Ky.result := Some (Throw e);
       Ky.events := Ky.events (first script);
       Ky.remaining := Ky.remaining (first script) |}.
Proof. intros E. unfold andThen. now rewrite E. Qed.

Lemma andThen_pending {A B} (first : Call A) (next : A -> Call B)
    (script : list Ky.Attempt) :
  Ky.result (first script) = None ->
  andThen first next script =
    {| Ky.result := None;
       Ky.events := Ky.events (first script);
       Ky.remaining := Ky.remaining (first script) |}.
Proof. intros E. unfold andThen. now rewrite E. Qed.

Lemma andThen_read {A B} (a : A) (next : A -> Call B) (script : list Ky.Attempt) :
  andThen (reading (Some a)) next script = next a script.
Proof.
  unfold andThen, reading, returning. cbn. now destruct (next a script).
Qed.

Lemma andThen_returning {A B} (a : A) (next : A -> Call B) (script : list Ky.Attempt) :
  andThen (returning a) next script = next a script.
Proof. exact (andThen_read a next script). Qed.

Lemma andThen_TypeError {A B} (next : A -> Call B) (script : list Ky.Attempt) :
  andThen (reading None) next script = throwing TypeError script.
Proof. reflexivity. Qed.

(** ** What a client request fetches *)

Lemma fetched_urls_app (a b : list Ky.Event) :
  fetched_urls (a ++ b) = fetched_urls a ++ fetched_urls b.
Proof. unfold fetched_urls. apply List.flat_map_app. Qed.

Lemma fetches_only_urls (request : Ky.Request) (timer : number)
    (events : list Ky.Event) :
  fetches_only request timer events ->
  Forall (fun u => u = Ky.r_url request) (fetched_urls events).
Proof.
  unfold fetches_only, fetched_urls.
  induction 1 as [|[r t|ms] rest He Hrest IH]; cbn [List.flat_map app].
  - constructor.
  - destruct He as [-> _]. now constructor.
  - exact IH.
Qed.

Section Urls.
Context `{Runtime}.

Lemma makeRequest_urls
    (handleError : ErrorLike -> ErrorCode -> string -> ServiceError)
    (c : BaseAPIClient.Client) (endpoint : string)
    (searchParams : option (list (string * JSValue))) (script : list Ky.Attempt) :
  Forall (fun u => u = BaseAPIClient.baseUrl c +:+ endpoint)
    (fetched_urls (Ky.events (BaseAPIClient.makeRequest handleError c endpoint
                                searchParams script))).
Proof.
  exact (fetches_only_urls _ _ _
           (makeRequest_fetches_only handleError c endpoint searchParams script)).
Qed.

Lemma makeRawRequest_urls
    (handleError : ErrorLike -> ErrorCode -> string -> ServiceError)
    (c : BaseAPIClient.Client) (url : string) (script : list Ky.Attempt) :
  Forall (fun u => u = url)
    (fetched_urls (Ky.events (BaseAPIClient.makeRawRequest handleError c url script))).
Proof.
  exact (fetches_only_urls _ _ _ (makeRawRequest_fetches_only handleError c url script)).
Qed.

Lemma makeRawRequest_value_urls
    (handleError : ErrorLike -> ErrorCode -> string -> ServiceError)
    (c : BaseAPIClient.Client) (url : JSValue) (script : list Ky.Attempt) :
  Forall (fun u => VStr u = url)
    (fetched_urls (Ky.events (BaseAPIClient.makeRawRequest_value handleError c url
                                script))).
Proof.
  destruct url; try constructor.
  cbn [BaseAPIClient.makeRawRequest_value].
  eapply Forall_impl; [apply makeRawRequest_urls|]. now intros u ->.
Qed.

(** The metadata URL of a resource is a proper prefix of its download URLs. *)
Lemma metadata_url_differs (base id tail : string) :
  tail <> EmptyString ->
  base +:+ "/resources/" +:+ id <> base +:+ "/resources/" +:+ id +:+ tail.
Proof.
  intros Ht E. rewrite <- !app_assoc_string in E.
  revert E. now apply app_longer.
Qed.

End Urls.

(** ** Spiget downloads, continued *)

(** X14. [downloadResourceVersion] fails fast on an external resource, as
    [downloadResource] does: the error is EXTERNAL_FILE_DOWNLOAD, its
    details carry the resource id, the version id asked for and the
    resource's externalUrl, and only the metadata was fetched. *)
Theorem external_version_download_fails_fast `{Runtime}
    (c : BaseAPIClient.Client) (resourceId : number) (versionId : JSValue)
    (script : list Ky.Attempt) (resource external file externalUrl : JSValue) :
  Ky.result (Spiget.getResource c resourceId script) = Some (Return resource) ->
  get_prop resource "external" = Some external ->
  truthy external = true ->
  get_prop resource "file" = Some file ->
  get_prop file "externalUrl" = Some externalUrl ->
  let outcome := Spiget.downloadResourceVersion c resourceId versionId script in
  Ky.result outcome =
    Some (Throw (Service
      {| class := SpigetError;
         code := EXTERNAL_FILE_DOWNLOAD;
         message := "Cannot download external resource "
                    +:+ Number_toString resourceId +:+ ". Use externalUrl instead.";
         details := [("resourceId"%string, DValue (VNum resourceId));
                     ("versionId"%string, DValue versionId);
                     ("externalUrl"%string, DValue externalUrl)] |}))
  /\ Ky.events outcome = Ky.events (Spiget.getResource c resourceId script)
  /\ Forall (fun u => u = BaseAPIClient.baseUrl c +:+ "/resources/"
                          +:+ Number_toString resourceId)
       (fetched_urls (Ky.events outcome)).
Proof.
  intros Hmeta Hext Htruthy Hfile Hurl outcome. subst outcome.
  unfold Spiget.downloadResourceVersion.
  rewrite (andThen_returned _ _ script resource Hmeta).
  rewrite Hext, andThen_read, Htruthy, Hfile, andThen_read, Hurl, andThen_read.
  cbn [throwing Ky.result Ky.events]. rewrite app_nil_r.
  split; [reflexivity|]. split; [reflexivity|].
  exact (makeRequest_urls Spiget.handleError c
           ("/resources/" +:+ Number_toString resourceId) None script).
Qed.

Lemma external_version_download_fails_fast_witness :
  Ky.result (Spiget.downloadResourceVersion (H := Sample.runtime) Sample.spiget
               (Num.of_Z 42) (VStr "latest") Sample.external_script) =
    Some (Throw (Service
      {| class := SpigetError;
         code := EXTERNAL_FILE_DOWNLOAD;
         message := "Cannot download external resource "
                    +:+ Number_toString (Runtime := Sample.runtime) (Num.of_Z 42)
                    +:+ ". Use externalUrl instead.";
         details := [("resourceId"%string, DValue (VNum (Num.of_Z 42)));
                     ("versionId"%string, DValue (VStr "latest"));
                     ("externalUrl"%string,
                      DValue (VStr "https://example.org/plugin.jar"))] |}))
  /\ Ky.events (Spiget.downloadResourceVersion (H := Sample.runtime) Sample.spiget
                  (Num.of_Z 42) (VStr "latest") Sample.external_script)
     = Ky.events (Spiget.getResource (H := Sample.runtime) Sample.spiget (Num.of_Z 42)
                    Sample.external_script)
  /\ Forall (fun u => u = BaseAPIClient.baseUrl Sample.spiget +:+ "/resources/"
                          +:+ Number_toString (Runtime := Sample.runtime) (Num.of_Z 42))
       (fetched_urls (Ky.events (Spiget.downloadResourceVersion (H := Sample.runtime)
                                   Sample.spiget (Num.of_Z 42) (VStr "latest")
                                   Sample.external_script))).
Proof.
  refine (external_version_download_fails_fast (H := Sample.runtime) Sample.spiget
            (Num.of_Z 42) (VStr "latest") Sample.external_script
            Sample.external_resource (VBool true) Sample.external_file
            (VStr "https://example.org/plugin.jar") _ _ _ _ _).
  - vm_compute. reflexivity.
  - reflexivity.
  - reflexivity.
  - reflexivity.
  - reflexivity.
Defined.

(** X15. Neither download method requests the file unless the metadata
    request returned a resource whose [external] flag is falsy: a failed
    metadata request, a body without the flag's owner, or an external
    resource all end the call before the download URL is fetched. *)
Theorem download_follows_hosted_metadata `{Runtime}
    (c : BaseAPIClient.Client) (resourceId : number) (versionId : JSValue)
    (script : list Ky.Attempt) :
  let hosted :=
    exists resource external,
      Ky.result (Spiget.getResource c resourceId script) = Some (Return resource)
      /\ get_prop resource "external" = Some external
      /\ truthy external = false in
  (In (BaseAPIClient.baseUrl c +:+ "/resources/" +:+ Number_toString resourceId
       +:+ "/download")
      (fetched_urls (Ky.events (Spiget.downloadResource c resourceId script)))
   -> hosted)
  /\ (In (BaseAPIClient.baseUrl c +:+ "/resources/" +:+ Number_toString resourceId
          +:+ "/versions/" +:+ ToString versionId +:+ "/download")
         (fetched_urls (Ky.events (Spiget.downloadResourceVersion c resourceId
                                     versionId script)))
      -> hosted).
Proof.
  intros hosted.
  pose proof (makeRequest_urls Spiget.handleError c
                ("/resources/" +:+ Number_toString resourceId) None script) as Hmeta.
  fold (Spiget.getResource c resourceId script) in Hmeta.
  assert (Hnot : forall tail, tail <> EmptyString ->
            ~ In (BaseAPIClient.baseUrl c +:+ "/resources/"
                  +:+ Number_toString resourceId +:+ tail)
                 (fetched_urls (Ky.events (Spiget.getResource c resourceId script)))).
  { intros tail Ht Hin. rewrite List.Forall_forall in Hmeta.
    specialize (Hmeta _ Hin). symmetry in Hmeta. revert Hmeta.
    now apply metadata_url_differs. }
  split.
  - unfold Spiget.downloadResource.
    destruct (Ky.result (Spiget.getResource c resourceId script))
      as [[resource|e]|] eqn:Hres; cbn [Ky.events];
      try (intros Hin; now apply (Hnot "/download"%string) in Hin).
    destruct (get_prop resource "external") as [external|] eqn:Hext; cbn [Ky.events];
      try (intros Hin; now apply (Hnot "/download"%string) in Hin).
    destruct (truthy external) eqn:Htruthy.
    + destruct (get_prop resource "file") as [file|]; cbn [Ky.events];
        try (intros Hin; now apply (Hnot "/download"%string) in Hin).
      destruct (get_prop file "externalUrl"); cbn [Ky.events];
        intros Hin; now apply (Hnot "/download"%string) in Hin.
    + intros _. now exists resource, external.
  - unfold Spiget.downloadResourceVersion.
    set (tail := ("/versions/" +:+ ToString versionId +:+ "/download")%string).
    assert (Ht : tail <> EmptyString) by discriminate.
    destruct (Ky.result (Spiget.getResource c resourceId script))
      as [[resource|e]|] eqn:Hres.
    + rewrite (andThen_returned _ _ script resource Hres).
      destruct (get_prop resource "external") as [external|] eqn:Hext.
      * rewrite andThen_read.
        destruct (truthy external) eqn:Htruthy; [|intros _; now exists resource, external].
        destruct (get_prop resource "file") as [file|];
          [rewrite andThen_read | rewrite andThen_TypeError];
          [destruct (get_prop file "externalUrl");
             [rewrite andThen_read | rewrite andThen_TypeError]|];
          cbn [throwing Ky.events]; rewrite app_nil_r;
          intros Hin; now apply (Hnot tail) in Hin.
      * rewrite andThen_TypeError. cbn [throwing Ky.events]. rewrite app_nil_r.
        intros Hin; now apply (Hnot tail) in Hin.
    + rewrite (andThen_thrown _ _ script e Hres). cbn [Ky.events].
      intros Hin; now apply (Hnot tail) in Hin.
    + rewrite (andThen_pending _ _ script Hres). cbn [Ky.events].
      intros Hin; now apply (Hnot tail) in Hin.
Qed.

(** ** Modrinth: search and random projects *)

Lemma Qltb_lt (x y : Q) : Num.Qltb x y = true <-> (x < y)%Q.
Proof.
  unfold Num.Qltb. rewrite negb_true_iff. split.
  - intros E. apply Qnot_le_lt. intros Hle. apply Qle_bool_iff in Hle. congruence.
  - intros Hlt. destruct (Qle_bool y x) eqn:E; [|reflexivity].
    apply Qle_bool_iff in E. exfalso. now apply (Qlt_not_le x y).
Qed.

Lemma Qltb_ge (x y : Q) : Num.Qltb x y = false <-> (y <= x)%Q.
Proof.
  unfold Num.Qltb. rewrite negb_false_iff. apply Qle_bool_iff.
Qed.

Lemma download_follows_hosted_metadata_witness :
  exists resource external,
    Ky.result (Spiget.getResource (H := Sample.runtime) Sample.spiget (Num.of_Z 42)
                 Sample.hosted_script) = Some (Return resource)
    /\ get_prop resource "external" = Some external
    /\ truthy external = false.
Proof.
  refine (proj1 (download_follows_hosted_metadata (H := Sample.runtime) Sample.spiget
                   (Num.of_Z 42) (VStr "latest") Sample.hosted_script) _).
  vm_compute. right. left. reflexivity.
Defined.

(** X16. [getRandomProjects] checks the count before anything is sent: a
    count below 0 or above 100 is refused with INVALID_SEARCH_PARAMETERS and
    no fetch is made, the bounds 0 and 100 themselves are accepted, and an
    accepted count is the one query parameter of a request to
    [/projects_random]. *)
Theorem random_projects_count_is_checked_first `{Runtime}
    (c : BaseAPIClient.Client) (q : Q) (script : list Ky.Attempt) :
  ((q < 0 \/ 100 < q)%Q ->
   Modrinth.getRandomProjects c (Some (Fin q)) script =
     {| Ky.result :=
          Some (Throw (Service
            {| class := ModrinthError;
               code := INVALID_SEARCH_PARAMETERS;
               message := "Count must be between 0 and 100";
               details := [] |}));
        Ky.events := [];
        Ky.remaining := script |})
  /\ ((0 <= q /\ q <= 100)%Q ->
      Modrinth.getRandomProjects c (Some (Fin q)) script =
        BaseAPIClient.makeRequest Modrinth.handleError c "/projects_random"
          (Some [("count"%string, VNum (Fin q))]) script).
Proof.
  unfold Modrinth.getRandomProjects. cbn [default from_option id].
  unfold Num.gt, Num.of_Z. cbn [Num.lt].
  change (inject_Z 0) with 0%Q. change (inject_Z 100) with 100%Q.
  split.
  - intros [Hlt|Hgt].
    + apply Qltb_lt in Hlt. rewrite Hlt. reflexivity.
    + apply Qltb_lt in Hgt. rewrite Hgt, orb_true_r. reflexivity.
  - intros [Hlo Hhi]. apply Qltb_ge in Hlo, Hhi. rewrite Hlo, Hhi. reflexivity.
Qed.

Lemma random_projects_count_is_checked_first_witness :
  Modrinth.getRandomProjects (H := Sample.runtime) Sample.modrinth
    (Some (Fin (inject_Z 101))) [Sample.answering Sample.ok_empty]
  = {| Ky.result :=
         Some (Throw (Service
           {| class := ModrinthError;
              code := INVALID_SEARCH_PARAMETERS;
              message := "Count must be between 0 and 100";
              details := [] |}));
       Ky.events := [];
       Ky.remaining := [Sample.answering Sample.ok_empty] |}.
Proof.
  refine (proj1 (random_projects_count_is_checked_first (H := Sample.runtime)
                   Sample.modrinth (inject_Z 101) [Sample.answering Sample.ok_empty]) _).
  right. reflexivity.
Defined.

Example random_projects_edge_counts :
  let run count :=
    Modrinth.getRandomProjects (H := Sample.runtime) Sample.modrinth count
      [Sample.answering (Sample.respond 200 [] (Some (VArr [])))] in
  fetch_count (Ky.events (run (Some (Num.of_Z 101)))) = 0%nat
  /\ fetch_count (Ky.events (run (Some (Num.of_Z (-1))))) = 0%nat
  /\ fetch_count (Ky.events (run (Some PosInf))) = 0%nat
  /\ Ky.result (run (Some (Num.of_Z 100))) = Some (Return (VArr []))
  /\ Ky.result (run (Some (Num.of_Z 0))) = Some (Return (VArr []))
  /\ Ky.result (run None) = Some (Return (VArr []))
  /\ Ky.result (run (Some NaN)) = Some (Return (VArr [])).
Proof. repeat split; vm_compute; reflexivity. Qed.

(** X17. Every Modrinth search sends [index], [offset] and [limit], with
    the defaults [relevance], 0 and 10 for the ones not given; the limit goes
    out as given, without a cap. A query is sent unless it is empty. *)
Theorem modrinth_search_defaults `{Runtime}
    (store : gmap nat (list Modrinth.ModrinthFacet)) (c : BaseAPIClient.Client)
    (options : Modrinth.ModrinthSearchOptions) (script : list Ky.Attempt) :
  let sent := BaseAPIClient.buildSearchParams (Modrinth.searchParams store options) in
  fetches_only
    {| Ky.r_method := "GET";
       Ky.r_url := BaseAPIClient.baseUrl c +:+ "/search";
       Ky.r_searchParams := Some sent;
       Ky.r_headers := BaseAPIClient.getHeaders c;
       Ky.r_body := None |}
    (Num.of_Z 10000)
    (Ky.events (Modrinth.searchProjects store c options script))
  /\ lookup_prop sent "index"
     = VStr (Modrinth.ModrinthSortIndex.value
               (default Modrinth.ModrinthSortIndex.RELEVANCE (Modrinth.index options)))
  /\ lookup_prop sent "offset" = VNum (default (Num.of_Z 0) (Modrinth.offset options))
  /\ lookup_prop sent "limit" = VNum (default (Num.of_Z 10) (Modrinth.limit options))
  /\ lookup_prop sent "query"
     = match Modrinth.query options with
       | Some s => if truthy_string s then VStr s else VUndefined
       | None => VUndefined
       end.
Proof.
  intros sent. subst sent.
  split.
  { unfold Modrinth.searchProjects.
    exact (makeRequest_fetches_only Modrinth.handleError c "/search"
             (Some (Modrinth.searchParams store options)) script). }
  destruct options as [query facets index offset limit].
  cbn [Modrinth.query Modrinth.facets Modrinth.index Modrinth.offset Modrinth.limit].
  repeat match goal with |- _ /\ _ => split end;
    unfold Modrinth.searchParams;
    cbn [Modrinth.query Modrinth.facets Modrinth.index Modrinth.offset Modrinth.limit];
    repeat match goal with
           | |- context [truthy_string ?s] => destruct (truthy_string s)
           | |- context [Modrinth.facets_truthy ?f] => destruct (Modrinth.facets_truthy f)
           | |- context [match ?o with Some _ => _ | None => _ end] => destruct o
           end;
    unfold BaseAPIClient.buildSearchParams;
    cbn [fold_left fst snd set_prop lookup_prop String.eqb Ascii.eqb Bool.eqb];
    reflexivity.
Qed.

(** X18. The [facets] parameter is sent whenever the option is truthy, and
    then carries what [processFacets] makes of it. So a builder without
    groups sends [facets] with the empty string as its value, whereas the
    empty string given as [facets] sends no such parameter. *)
Theorem modrinth_search_facets_parameter `{Runtime}
    (store : gmap nat (list Modrinth.ModrinthFacet))
    (options : Modrinth.ModrinthSearchOptions) :
  let sent := BaseAPIClient.buildSearchParams (Modrinth.searchParams store options) in
  lookup_prop sent "facets"
  = match Modrinth.facets options with
    | Some f =>
        if Modrinth.facets_truthy f then VStr (Modrinth.processFacets store f)
        else VUndefined
    | None => VUndefined
    end
  /\ (Modrinth.facets options = Some (Modrinth.Builder []) ->
      In ("facets"%string, VStr EmptyString) sent)
  /\ (Modrinth.facets options = Some (Modrinth.RawString EmptyString) ->
      ~ In "facets"%string (List.map fst sent)).
Proof.
  intros sent. subst sent.
  destruct options as [query facets index offset limit].
  cbn [Modrinth.query Modrinth.facets Modrinth.index Modrinth.offset Modrinth.limit].
  repeat match goal with |- _ /\ _ => split end;
    try (intros ->);
    unfold Modrinth.searchParams;
    cbn [Modrinth.query Modrinth.facets Modrinth.index Modrinth.offset Modrinth.limit
         Modrinth.facets_truthy Modrinth.processFacets Modrinth.build length Nat.eqb
         truthy_string String.eqb negb];
    repeat match goal with
           | |- context [truthy_string ?s] => destruct (truthy_string s)
           | |- context [Modrinth.facets_truthy ?f] => destruct (Modrinth.facets_truthy f)
           | |- context [match ?o with Some _ => _ | None => _ end] => destruct o
           end;
    unfold BaseAPIClient.buildSearchParams;
    cbn [fold_left fst snd set_prop lookup_prop String.eqb Ascii.eqb Bool.eqb
         List.map In];
    try reflexivity;
    try (intuition discriminate);
    intuition (try discriminate; auto).
Qed.

(** ** Modrinth: downloads *)

Lemma truthy_get_prop (v : JSValue) (key : string) :
  truthy v = true -> get_prop v key = Some (default VUndefined (get_prop v key)).
Proof. destruct v; try discriminate; reflexivity. Qed.

Lemma is_primary_truthy (file : JSValue) : is_primary file = true -> truthy file = true.
Proof. unfold is_primary. destruct file; try discriminate; reflexivity. Qed.

Lemma find_primary (files : list JSValue) :
  Forall (fun file => get_prop file "primary" <> None) files ->
  find (fun file => get_prop file "primary") files
  = Some (match List.filter is_primary files with
          | file :: _ => file
          | [] => VUndefined
          end).
Proof.
  induction 1 as [|file rest Hfile Hrest IH]; [reflexivity|].
  cbn [find List.filter]. unfold is_primary at 1.
  destruct (get_prop file "primary") as [p|]; [|contradiction].
  cbn [default from_option id]. destruct (truthy p); [reflexivity | exact IH].
Qed.

Lemma find_nothing (callback : JSValue -> option JSValue) (items : list JSValue) :
  Forall (fun x => exists t, callback x = Some t /\ truthy t = false) items ->
  find callback items = Some VUndefined.
Proof.
  induction 1 as [|x rest (t & Ht & Hfalse) Hrest IH]; [reflexivity|].
  cbn [find]. now rewrite Ht, Hfalse.
Qed.

Lemma is_string_false (s : string) (v : JSValue) : v <> VStr s -> is_string s v = false.
Proof.
  intros Hv. destruct v; try reflexivity. cbn [is_string].
  destruct (String.eqb_spec s0 s) as [->|]; [contradiction | reflexivity].
Qed.

(** X19. [downloadVersionFile] downloads the first file flagged primary,
    or the first file when none is flagged: after the version request, the
    one further request goes to that file's [url]. *)
Theorem version_download_picks_primary_or_first `{Runtime}
    (c : BaseAPIClient.Client) (versionId : JSValue) (script : list Ky.Attempt)
    (version : JSValue) (files : list JSValue) :
  Ky.result (Modrinth.getVersion c versionId script) = Some (Return version) ->
  get_prop version "files" = Some (VArr files) ->
  Forall (fun file => get_prop file "primary" <> None) files ->
  truthy (primary_or_first files) = true ->
  Modrinth.downloadVersionFile c versionId script
  = andThen (Modrinth.getVersion c versionId)
      (fun _ => Modrinth.downloadFile c
                  (default VUndefined (get_prop (primary_or_first files) "url")))
      script.
Proof.
  intros Hmeta Hfiles Hsafe Htruthy.
  unfold Modrinth.downloadVersionFile.
  rewrite !(andThen_returned _ _ script version Hmeta).
  rewrite Hfiles, andThen_read. cbn [array_find].
  rewrite (find_primary files Hsafe), andThen_read.
  assert (Hpick : forall (next : JSValue -> Call Ky.Response) rest,
            andThen (if truthy (match List.filter is_primary files with
                                | file :: _ => file
                                | [] => VUndefined
                                end)
                     then returning (match List.filter is_primary files with
                                     | file :: _ => file
                                     | [] => VUndefined
                                     end)
                     else reading (first_item (VArr files))) next rest
            = next (primary_or_first files) rest).
  { intros next rest. unfold primary_or_first.
    destruct (List.filter is_primary files) as [|file others] eqn:E.
    - cbn [truthy first_item]. apply andThen_read.
    - assert (Hin : In file (List.filter is_primary files)) by (rewrite E; now left).
      apply List.filter_In in Hin as [_ Hp].
      rewrite (is_primary_truthy file Hp). apply andThen_returning. }
  rewrite Hpick, Htruthy. cbn [negb].
  rewrite (truthy_get_prop _ "url" Htruthy), andThen_read.
  reflexivity.
Qed.

Lemma version_download_picks_primary_or_first_witness :
  Modrinth.downloadVersionFile (H := Sample.runtime) Sample.modrinth (VStr "Yp8wLY1P")
    Sample.version_script
  = andThen (Modrinth.getVersion (H := Sample.runtime) Sample.modrinth (VStr "Yp8wLY1P"))
      (fun _ => Modrinth.downloadFile (H := Sample.runtime) Sample.modrinth
                  (default VUndefined
                     (get_prop (primary_or_first Sample.version_files) "url")))
      Sample.version_script.
Proof.
  refine (version_download_picks_primary_or_first (H := Sample.runtime) Sample.modrinth
            (VStr "Yp8wLY1P") Sample.version_script Sample.version_body
            Sample.version_files _ _ _ _).
  - vm_compute. reflexivity.
  - reflexivity.
  - repeat constructor; discriminate.
  - reflexivity.
Defined.

Example primary_file_is_downloaded :
  fetched_urls (Ky.events (Modrinth.downloadVersionFile (H := Sample.runtime)
                             Sample.modrinth (VStr "Yp8wLY1P") Sample.version_script))
  = ["https://api.modrinth.com/v2/version/Yp8wLY1P";
     "https://cdn.modrinth.com/data/AANobbMI/sodium.jar"]%string.
Proof. vm_compute. reflexivity. Qed.

(** X20. A version without files is reported as RESOURCE_NOT_FOUND by
    [downloadVersionFile], and nothing is requested after the version. *)
Theorem version_without_files_is_not_found `{Runtime}
    (c : BaseAPIClient.Client) (versionId : JSValue) (script : list Ky.Attempt)
    (version : JSValue) :
  Ky.result (Modrinth.getVersion c versionId script) = Some (Return version) ->
  get_prop version "files" = Some (VArr []) ->
  Modrinth.downloadVersionFile c versionId script
  = {| Ky.result :=
         Some (Throw (Service
           {| class := ModrinthError;
              code := RESOURCE_NOT_FOUND;
              message := "No files found for version " +:+ ToString versionId;
              details := [] |}));
       Ky.events := Ky.events (Modrinth.getVersion c versionId script);
       Ky.remaining := Ky.remaining (Modrinth.getVersion c versionId script) |}.
Proof.
  intros Hmeta Hfiles.
  unfold Modrinth.downloadVersionFile.
  rewrite (andThen_returned _ _ script version Hmeta).
  rewrite Hfiles, andThen_read. cbn [array_find find].
  rewrite andThen_read. cbn [truthy first_item List.hd].
  rewrite andThen_read. cbn [truthy negb throwing Ky.result Ky.events Ky.remaining].
  now rewrite app_nil_r.
Qed.

Lemma version_without_files_is_not_found_witness :
  Modrinth.downloadVersionFile (H := Sample.runtime) Sample.modrinth (VStr "Yp8wLY1P")
    [Sample.answering (Sample.respond 200 [] (Some (VObj [("files"%string, VArr [])])))]
  = {| Ky.result :=
         Some (Throw (Service
           {| class := ModrinthError;
              code := RESOURCE_NOT_FOUND;
              message := "No files found for version "
                         +:+ ToString (H := Sample.runtime) (VStr "Yp8wLY1P");
              details := [] |}));
       Ky.events :=
         Ky.events (Modrinth.getVersion (H := Sample.runtime) Sample.modrinth
                      (VStr "Yp8wLY1P")
                      [Sample.answering
                         (Sample.respond 200 [] (Some (VObj [("files"%string, VArr [])])))]);
       Ky.remaining :=
         Ky.remaining (Modrinth.getVersion (H := Sample.runtime) Sample.modrinth
                         (VStr "Yp8wLY1P")
                         [Sample.answering
                            (Sample.respond 200 []
                               (Some (VObj [("files"%string, VArr [])])))]) |}.
Proof.
  refine (version_without_files_is_not_found (H := Sample.runtime) Sample.modrinth
            (VStr "Yp8wLY1P")
            [Sample.answering (Sample.respond 200 [] (Some (VObj [("files"%string, VArr [])])))]
            (VObj [("files"%string, VArr [])]) _ _).
  - vm_compute. reflexivity.
  - reflexivity.
Defined.

(** X21. [downloadVersionFileByName] reports RESOURCE_NOT_FOUND when no
    file of the version has exactly the name asked for, and requests
    nothing after the version. *)
Theorem unknown_file_name_is_not_found `{Runtime}
    (c : BaseAPIClient.Client) (versionId : JSValue) (filename : string)
    (script : list Ky.Attempt) (version : JSValue) (files : list JSValue) :
  Ky.result (Modrinth.getVersion c versionId script) = Some (Return version) ->
  get_prop version "files" = Some (VArr files) ->
  Forall (fun file => exists name,
            get_prop file "filename" = Some name /\ name <> VStr filename) files ->
  Modrinth.downloadVersionFileByName c versionId filename script
  = {| Ky.result :=
         Some (Throw (Service
           {| class := ModrinthError;
              code := RESOURCE_NOT_FOUND;
              message := "File " +:+ filename +:+ " not found in version "
                         +:+ ToString versionId;
              details := [] |}));
       Ky.events := Ky.events (Modrinth.getVersion c versionId script);
       Ky.remaining := Ky.remaining (Modrinth.getVersion c versionId script) |}.
Proof.
  intros Hmeta Hfiles Hnames.
  unfold Modrinth.downloadVersionFileByName.
  rewrite (andThen_returned _ _ script version Hmeta).
  rewrite Hfiles, andThen_read. cbn [array_find].
  rewrite find_nothing.
  - rewrite andThen_read. cbn [truthy negb throwing Ky.result Ky.events Ky.remaining].
    now rewrite app_nil_r.
  - eapply Forall_impl; [exact Hnames|].
    intros file (name & Hname & Hne). rewrite Hname. cbn [option_map].
    eexists. split; [reflexivity|]. cbn [truthy]. now apply is_string_false.
Qed.

Lemma unknown_file_name_is_not_found_witness :
  Modrinth.downloadVersionFileByName (H := Sample.runtime) Sample.modrinth
    (VStr "Yp8wLY1P") "sodium-forge.jar" Sample.version_script
  = {| Ky.result :=
         Some (Throw (Service
           {| class := ModrinthError;
              code := RESOURCE_NOT_FOUND;
              message := "File " +:+ "sodium-forge.jar" +:+ " not found in version "
                         +:+ ToString (H := Sample.runtime) (VStr "Yp8wLY1P");
              details := [] |}));
       Ky.events :=
         Ky.events (Modrinth.getVersion (H := Sample.runtime) Sample.modrinth
                      (VStr "Yp8wLY1P") Sample.version_script);
       Ky.remaining :=
         Ky.remaining (Modrinth.getVersion (H := Sample.runtime) Sample.modrinth
                         (VStr "Yp8wLY1P") Sample.version_script) |}.
Proof.
  refine (unknown_file_name_is_not_found (H := Sample.runtime) Sample.modrinth
            (VStr "Yp8wLY1P") "sodium-forge.jar" Sample.version_script
            Sample.version_body Sample.version_files _ _ _).
  - vm_compute. reflexivity.
  - reflexivity.
  - repeat constructor; eexists; (split; [reflexivity | discriminate]).
Defined.

Example named_file_is_downloaded :
  fetched_urls (Ky.events (Modrinth.downloadVersionFileByName (H := Sample.runtime)
                             Sample.modrinth (VStr "Yp8wLY1P") "sodium-sources.jar"
                             Sample.version_script))
  = ["https://api.modrinth.com/v2/version/Yp8wLY1P";
     "https://cdn.modrinth.com/data/AANobbMI/sodium-sources.jar"]%string.
Proof. vm_compute. reflexivity. Qed.

(** X22. [downloadLatestProjectFile] goes by the first version listed: an
    empty list is reported as RESOURCE_NOT_FOUND after the one request,
    otherwise the call continues as [downloadVersionFile] on the [id] of the
    first element. *)
Theorem latest_project_file_is_of_the_first_version `{Runtime}
    (c : BaseAPIClient.Client) (projectId : string)
    (options : list (string * JSValue)) (script : list Ky.Attempt)
    (versions : list JSValue) :
  Ky.result (Modrinth.getProjectVersions c projectId options script)
  = Some (Return (VArr versions)) ->
  Modrinth.downloadLatestProjectFile c projectId options script
  = andThen (Modrinth.getProjectVersions c projectId options)
      (fun _ =>
         match versions with
         | [] =>
             throwing (Service
               {| class := ModrinthError;
                  code := RESOURCE_NOT_FOUND;
                  message := "No versions found for project " +:+ projectId;
                  details := [] |})
         | latest :: _ =>
             andThen (reading (get_prop latest "id")) (Modrinth.downloadVersionFile c)
         end)
      script.
Proof.
  intros Hlist.
  unfold Modrinth.downloadLatestProjectFile.
  rewrite !(andThen_returned _ _ script (VArr versions) Hlist).
  cbn [get_length]. rewrite andThen_read.
  destruct versions as [|latest others].
  - reflexivity.
  - assert (Hlen : is_zero (VNum (Num.of_nat (length (latest :: others)))) = false).
    { cbn [is_zero length Num.of_nat Num.of_Z]. unfold Qeq_bool, inject_Z.
      cbn [Qnum Qden]. apply Z.eqb_neq. lia. }
    rewrite Hlen. cbn [first_item List.hd]. rewrite andThen_read. reflexivity.
Qed.

Lemma latest_project_file_is_of_the_first_version_witness :
  Modrinth.downloadLatestProjectFile (H := Sample.runtime) Sample.modrinth "sodium"
    [("loaders"%string, VArr [VStr "fabric"])] Sample.latest_file_script
  = andThen (Modrinth.getProjectVersions (H := Sample.runtime) Sample.modrinth "sodium"
               [("loaders"%string, VArr [VStr "fabric"])])
      (fun _ =>
         match [VObj [("id", VStr "Yp8wLY1P")]; VObj [("id", VStr "rAfhHfow")]]%string with
         | [] =>
             throwing (Service
               {| class := ModrinthError;
                  code := RESOURCE_NOT_FOUND;
                  message := "No versions found for project " +:+ "sodium";
                  details := [] |})
         | latest :: _ =>
             andThen (reading (get_prop latest "id"))
               (Modrinth.downloadVersionFile (H := Sample.runtime) Sample.modrinth)
         end)
      Sample.latest_file_script.
Proof.
  refine (latest_project_file_is_of_the_first_version (H := Sample.runtime)
            Sample.modrinth "sodium" [("loaders"%string, VArr [VStr "fabric"])]
            Sample.latest_file_script
            [VObj [("id", VStr "Yp8wLY1P")]; VObj [("id", VStr "rAfhHfow")]]%string _).
  vm_compute. reflexivity.
Defined.

Example latest_project_file_takes_three_requests :
  fetched_urls (Ky.events (Modrinth.downloadLatestProjectFile (H := Sample.runtime)
                             Sample.modrinth "sodium"
                             [("loaders"%string, VArr [VStr "fabric"])]
                             Sample.latest_file_script))
  = ["https://api.modrinth.com/v2/project/sodium/version";
     "https://api.modrinth.com/v2/version/Yp8wLY1P";
     "https://cdn.modrinth.com/data/AANobbMI/sodium.jar"]%string.
Proof. vm_compute. reflexivity. Qed.

(** ** Hangar: versions and downloads *)

Lemma channel_truthy (c : Hangar.HangarVersionChannel) :
  truthy_string (Hangar.channelValue c) = true.
Proof. destruct c; reflexivity. Qed.

(** X23. [getProjectVersions] sends the limit as it is given: unlike the
    project search, the version list has no cap of 25. The offset is sent
    whenever defined, and platform and channel go out as the JSON text of an
    array, a single value wrapped into a one-element array. *)
Theorem hangar_version_limit_is_not_clamped `{Runtime}
    (c : BaseAPIClient.Client) (slugOrId : JSValue)
    (options : Hangar.HangarVersionSearchOptions) (script : list Ky.Attempt) :
  let sent := BaseAPIClient.buildSearchParams (Hangar.versionParams options) in
  fetches_only
    {| Ky.r_method := "GET";
       Ky.r_url := BaseAPIClient.baseUrl c
                   +:+ "/projects/" +:+ ToString slugOrId +:+ "/versions";
       Ky.r_searchParams := Some sent;
       Ky.r_headers := BaseAPIClient.getHeaders c;
       Ky.r_body := None |}
    (Num.of_Z 10000)
    (Ky.events (Hangar.getProjectVersions c slugOrId options script))
  /\ lookup_prop sent "limit"
     = match Hangar.version_limit options with
       | Some l => VNum l
       | None => VUndefined
       end
  /\ lookup_prop sent "offset"
     = match Hangar.version_offset options with
       | Some o => VNum o
       | None => VUndefined
       end
  /\ lookup_prop sent "platform"
     = match Hangar.version_platform options with
       | Some (Hangar.One p) => VStr (JSON.row_text [Hangar.platformValue p])
       | Some (Hangar.Many ps) =>
           VStr (JSON.row_text (List.map Hangar.platformValue ps))
       | None => VUndefined
       end
  /\ lookup_prop sent "channel"
     = match Hangar.version_channel options with
       | Some (Hangar.One ch) => VStr (JSON.row_text [Hangar.channelValue ch])
       | Some (Hangar.Many chs) =>
           VStr (JSON.row_text (List.map Hangar.channelValue chs))
       | None => VUndefined
       end.
Proof.
  intros sent. subst sent.
  split.
  { unfold Hangar.getProjectVersions.
    exact (makeRequest_fetches_only Hangar.handleError c
             ("/projects/" +:+ ToString slugOrId +:+ "/versions")
             (Some (Hangar.versionParams options)) script). }
  destruct options as [platform channel limit offset].
  cbn [Hangar.version_platform Hangar.version_channel Hangar.version_limit
       Hangar.version_offset].
  repeat match goal with |- _ /\ _ => split end;
    unfold Hangar.versionParams, Hangar.set_if;
    cbn [Hangar.version_platform Hangar.version_channel Hangar.version_limit
         Hangar.version_offset];
    repeat match goal with
           | |- context [truthy_string (Hangar.channelValue ?x)] =>
               rewrite (channel_truthy x)
           | |- context [truthy_string (Hangar.platformValue ?x)] =>
               rewrite (platform_truthy x)
           | |- context [match ?o with Some _ => _ | None => _ end] => destruct o
           | |- context [match ?o with Hangar.One _ => _ | Hangar.Many _ => _ end] =>
               destruct o
           end;
    rewrite <- ?(map_map Hangar.channelValue VStr),
            <- ?(map_map Hangar.platformValue VStr);
    unfold BaseAPIClient.buildSearchParams;
    cbn [fold_left fst snd set_prop lookup_prop String.eqb Ascii.eqb Bool.eqb];
    rewrite ?stringify_row; reflexivity.
Qed.

(** X24. [downloadVersion] requests no file for a platform the version
    does not list: the error is RESOURCE_NOT_FOUND, its message names the
    version and the platform, and its details list the platforms that are
    available, in the order of the version's [downloads]. *)
Theorem unavailable_platform_is_not_downloaded `{Runtime}
    (c : BaseAPIClient.Client) (slugOrId version : JSValue)
    (platform : Hangar.HangarPlatform) (script : list Ky.Attempt)
    (versionDetails : JSValue) (downloads : list (string * JSValue)) :
  Ky.result (Hangar.getProjectVersion c slugOrId version script)
  = Some (Return versionDetails) ->
  get_prop versionDetails "downloads" = Some (VObj downloads) ->
  truthy (lookup_prop downloads (Hangar.platformValue platform)) = false ->
  Hangar.downloadVersion c slugOrId version platform script
  = {| Ky.result :=
         Some (Throw (Service
           {| class := HangarError;
              code := RESOURCE_NOT_FOUND;
              message := "Version " +:+ ToString version
                         +:+ " is not available for platform "
                         +:+ Hangar.platformValue platform;
              details :=
                [("slugOrId"%string, DValue slugOrId);
                 ("version"%string, DValue version);
                 ("platform"%string, DValue (VStr (Hangar.platformValue platform)));
                 ("availablePlatforms"%string,
                  DValue (VArr (List.map VStr (List.map fst downloads))))] |}));
       Ky.events := Ky.events (Hangar.getProjectVersion c slugOrId version script);
       Ky.remaining :=
         Ky.remaining (Hangar.getProjectVersion c slugOrId version script) |}.
Proof.
  intros Hmeta Hdownloads Hmissing.
  unfold Hangar.downloadVersion.
  rewrite (andThen_returned _ _ script versionDetails Hmeta).
  rewrite Hdownloads, andThen_read. cbn [get_prop]. rewrite andThen_read, Hmissing.
  cbn [negb keys]. rewrite andThen_read.
  cbn [throwing Ky.result Ky.events Ky.remaining]. now rewrite app_nil_r.
Qed.

Lemma unavailable_platform_is_not_downloaded_witness :
  Hangar.downloadVersion (H := Sample.runtime) Sample.hangar (VStr "WorldEdit")
    (VStr "7.2.15") Hangar.VELOCITY
    [Sample.answering (Sample.respond 200 [] (Some Sample.paper_only));
     Sample.answering Sample.ok_empty]
  = {| Ky.result :=
         Some (Throw (Service
           {| class := HangarError;
              code := RESOURCE_NOT_FOUND;
              message := "Version " +:+ ToString (H := Sample.runtime) (VStr "7.2.15")
                         +:+ " is not available for platform "
                         +:+ Hangar.platformValue Hangar.VELOCITY;
              details :=
                [("slugOrId"%string, DValue (VStr "WorldEdit"));
                 ("version"%string, DValue (VStr "7.2.15"));
                 ("platform"%string,
                  DValue (VStr (Hangar.platformValue Hangar.VELOCITY)));
                 ("availablePlatforms"%string,
                  DValue (VArr (List.map VStr
                    (List.map fst
                       [("PAPER"%string,
                         VObj [("downloadUrl"%string,
                                VStr "https://hangar.papermc.io/api/v1/projects/WorldEdit/versions/7.2.15/PAPER/download")])]))))] |}));
       Ky.events :=
         Ky.events (Hangar.getProjectVersion (H := Sample.runtime) Sample.hangar
                      (VStr "WorldEdit") (VStr "7.2.15")
                      [Sample.answering (Sample.respond 200 [] (Some Sample.paper_only));
                       Sample.answering Sample.ok_empty]);
       Ky.remaining :=
         Ky.remaining (Hangar.getProjectVersion (H := Sample.runtime) Sample.hangar
                         (VStr "WorldEdit") (VStr "7.2.15")
                         [Sample.answering
                            (Sample.respond 200 [] (Some Sample.paper_only));
                          Sample.answering Sample.ok_empty]) |}.
Proof.
  refine (unavailable_platform_is_not_downloaded (H := Sample.runtime) Sample.hangar
            (VStr "WorldEdit") (VStr "7.2.15") Hangar.VELOCITY
            [Sample.answering (Sample.respond 200 [] (Some Sample.paper_only));
             Sample.answering Sample.ok_empty]
            Sample.paper_only _ _ _ _).
  - vm_compute. reflexivity.
  - reflexivity.
  - reflexivity.
Defined.

Example paper_version_is_downloaded :
  fetched_urls (Ky.events (Hangar.downloadVersion (H := Sample.runtime) Sample.hangar
                             (VStr "WorldEdit") (VStr "7.2.15") Hangar.PAPER
                             [Sample.answering
                                (Sample.respond 200 [] (Some Sample.paper_only));
                              Sample.answering Sample.ok_empty]))
  = ["https://hangar.papermc.io/api/v1/projects/WorldEdit/versions/7.2.15";
     "https://hangar.papermc.io/api/v1/projects/WorldEdit/versions/7.2.15/PAPER/download"]%string.
Proof. vm_compute. reflexivity. Qed.

(** X25. [getLatestVersion] asks for a page of one version, filtered by the
    platform and channel given, and goes by its first entry: an empty page
    is reported as RESOURCE_NOT_FOUND with the filters in the details,
    otherwise the version named by the first entry is fetched. *)
Theorem latest_version_is_the_first_of_one `{Runtime}
    (c : BaseAPIClient.Client) (slugOrId : JSValue)
    (platform : option Hangar.HangarPlatform)
    (channel : option Hangar.HangarVersionChannel) (script : list Ky.Attempt)
    (versionsResult : JSValue) (result : list JSValue) :
  let options := Hangar.latestOptions platform channel in
  Ky.result (Hangar.getProjectVersions c slugOrId options script)
  = Some (Return versionsResult) ->
  get_prop versionsResult "result" = Some (VArr result) ->
  Hangar.versionParams options
  = [("limit"%string, VNum (Num.of_Z 1))]
    ++ match platform with
       | Some p => [("platform"%string, VArr [VStr (Hangar.platformValue p)])]
       | None => []
       end
    ++ match channel with
       | Some ch => [("channel"%string, VArr [VStr (Hangar.channelValue ch)])]
       | None => []
       end
  /\ Hangar.getLatestVersion c slugOrId platform channel script
     = andThen (Hangar.getProjectVersions c slugOrId options)
         (fun _ =>
            match result with
            | [] =>
                throwing (Service
                  {| class := HangarError;
                     code := RESOURCE_NOT_FOUND;
                     message := "No versions found for project " +:+ ToString slugOrId;
                     details :=
                       [("slugOrId"%string, DValue slugOrId);
                        ("platform"%string,
                         DValue (Hangar.optional_value Hangar.platformValue platform));
                        ("channel"%string,
                         DValue (Hangar.optional_value Hangar.channelValue channel))] |})
            | latestVersionCompact :: _ =>
                andThen (reading (get_prop latestVersionCompact "name"))
                  (Hangar.getProjectVersion c slugOrId)
            end)
         script.
Proof.
  intros options Hpage Hresult. subst options.
  split.
  { unfold Hangar.versionParams, Hangar.latestOptions, Hangar.set_if.
    cbn [Hangar.version_platform Hangar.version_channel Hangar.version_limit
         Hangar.version_offset].
    destruct platform as [p|], channel as [ch|];
      rewrite ?platform_truthy, ?channel_truthy; reflexivity. }
  unfold Hangar.getLatestVersion.
  rewrite !(andThen_returned _ _ script versionsResult Hpage).
  rewrite Hresult, andThen_read. cbn [get_length]. rewrite andThen_read.
  destruct result as [|latestVersionCompact others].
  - reflexivity.
  - assert (Hlen : is_zero (VNum (Num.of_nat (length (latestVersionCompact :: others))))
                   = false).
    { cbn [is_zero length Num.of_nat Num.of_Z]. unfold Qeq_bool, inject_Z.
      cbn [Qnum Qden]. apply Z.eqb_neq. lia. }
    rewrite Hlen. cbn [first_item List.hd]. rewrite andThen_read. reflexivity.
Qed.

Lemma latest_version_is_the_first_of_one_witness :
  Hangar.versionParams (Hangar.latestOptions (Some Hangar.PAPER) None)
  = [("limit"%string, VNum (Num.of_Z 1))]
    ++ [("platform"%string, VArr [VStr (Hangar.platformValue Hangar.PAPER)])]
    ++ []
  /\ Hangar.getLatestVersion (H := Sample.runtime) Sample.hangar (VStr "WorldEdit")
       (Some Hangar.PAPER) None
       [Sample.answering (Sample.respond 200 [] (Some Sample.one_version));
        Sample.answering (Sample.respond 200 [] (Some Sample.paper_only))]
     = andThen (Hangar.getProjectVersions (H := Sample.runtime) Sample.hangar
                  (VStr "WorldEdit") (Hangar.latestOptions (Some Hangar.PAPER) None))
         (fun _ =>
            match [VObj [("name"%string, VStr "7.2.15")]] with
            | [] =>
                throwing (Service
                  {| class := HangarError;
                     code := RESOURCE_NOT_FOUND;
                     message := "No versions found for project "
                                +:+ ToString (H := Sample.runtime) (VStr "WorldEdit");
                     details :=
                       [("slugOrId"%string, DValue (VStr "WorldEdit"));
                        ("platform"%string,
                         DValue (Hangar.optional_value Hangar.platformValue (Some Hangar.PAPER)));
                        ("channel"%string,
                         DValue (Hangar.optional_value Hangar.channelValue None))] |})
            | latestVersionCompact :: _ =>
                andThen (reading (get_prop latestVersionCompact "name"))
                  (Hangar.getProjectVersion (H := Sample.runtime) Sample.hangar
                     (VStr "WorldEdit"))
            end)
         [Sample.answering (Sample.respond 200 [] (Some Sample.one_version));
          Sample.answering (Sample.respond 200 [] (Some Sample.paper_only))].
Proof.
  refine (latest_version_is_the_first_of_one (H := Sample.runtime) Sample.hangar
            (VStr "WorldEdit") (Some Hangar.PAPER) None
            [Sample.answering (Sample.respond 200 [] (Some Sample.one_version));
             Sample.answering (Sample.respond 200 [] (Some Sample.paper_only))]
            Sample.one_version [VObj [("name"%string, VStr "7.2.15")]] _ _).
  - vm_compute. reflexivity.
  - reflexivity.
Defined.

Example latest_version_of_nothing :
  let outcome :=
    Hangar.downloadLatestVersion (H := Sample.runtime) Sample.hangar (VStr "WorldEdit")
      Hangar.PAPER (Some Hangar.RELEASE)
      [Sample.answering (Sample.respond 200 [] (Some Sample.no_version));
       Sample.answering Sample.ok_empty] in
  option_map (fun r => match r with
                       | Throw (Service e) => Some (code e)
                       | _ => None
                       end) (Ky.result outcome)
  = Some (Some RESOURCE_NOT_FOUND)
  /\ fetch_count (Ky.events outcome) = 1%nat.
Proof. split; vm_compute; reflexivity. Qed.

Example latest_version_is_downloaded :
  fetched_urls (Ky.events (Hangar.downloadLatestVersion (H := Sample.runtime)
                             Sample.hangar (VStr "WorldEdit") Hangar.PAPER None
                             [Sample.answering
                                (Sample.respond 200 [] (Some Sample.one_version));
                              Sample.answering
                                (Sample.respond 200 [] (Some Sample.paper_only));
                              Sample.answering
                                (Sample.respond 200 [] (Some Sample.paper_only));
                              Sample.answering Sample.ok_empty]))
  = ["https://hangar.papermc.io/api/v1/projects/WorldEdit/versions";
     "https://hangar.papermc.io/api/v1/projects/WorldEdit/versions/7.2.15";
     "https://hangar.papermc.io/api/v1/projects/WorldEdit/versions/7.2.15";
     "https://hangar.papermc.io/api/v1/projects/WorldEdit/versions/7.2.15/PAPER/download"]%string.
Proof. vm_compute. reflexivity. Qed.

(** ** Facet groups and builders, continued *)

Lemma facets_of_insert (store : gmap nat (list Modrinth.ModrinthFacet)) (g g' : nat)
    (facets : list Modrinth.ModrinthFacet) :
  Modrinth.facets_of (<[g := facets]> store) g'
  = if decide (g = g') then facets else Modrinth.facets_of store g'.
Proof.
  unfold Modrinth.facets_of. rewrite lookup_insert. now destruct (decide (g = g')).
Qed.

Lemma newGroup_fresh (store : gmap nat (list Modrinth.ModrinthFacet))
    (facets : list Modrinth.ModrinthFacet) :
  fst (Modrinth.newGroup store facets) ∉ dom store.
Proof. unfold Modrinth.newGroup; cbn [fst]. apply is_fresh. Qed.






Example removeGroup_takes_the_first_of_two :
  Modrinth.removeGroup [0; 2; 0; 1]%nat 0%nat = [2; 0; 1]%nat.
Proof. reflexivity. Qed.

Section BuilderFacts.
Context `{Runtime}.

(** The groups a builder holds are objects of the store; [addFacets] puts
    each facet into a new object of its own and leaves the others alone. *)
Lemma addFacets_from (facets : list Modrinth.ModrinthFacet) :
  forall (store : gmap nat (list Modrinth.ModrinthFacet)) (groups : list nat),
    Forall (fun g => g ∈ dom store) groups ->
    List.map (Modrinth.facets_of (snd (Modrinth.addFacets store groups facets)))
      (fst (Modrinth.addFacets store groups facets))
    = List.map (Modrinth.facets_of store) groups ++ List.map (fun f => [f]) facets
    /\ length (fst (Modrinth.addFacets store groups facets))
       = (length groups + length facets)%nat.
Proof.
  induction facets as [|facet rest IH]; intros store groups Hdom.
  - cbn [Modrinth.addFacets fold_left fst snd List.map length].
    rewrite app_nil_r. split; [reflexivity | lia].
  - set (g := fresh (dom store)).
    set (store' := <[g := [facet]]> store).
    assert (Hstep : Modrinth.addFacets store groups (facet :: rest)
                    = Modrinth.addFacets store' (groups ++ [g]) rest) by reflexivity.
    rewrite Hstep.
    assert (Hfresh : g ∉ dom store) by apply is_fresh.
    assert (Hdom' : Forall (fun x => x ∈ dom store') (groups ++ [g])).
    { apply Forall_app. split.
      - eapply Forall_impl; [exact Hdom|]. intros x Hx. unfold store'.
        rewrite dom_insert_L. apply elem_of_union. now right.
      - constructor; [|constructor]. unfold store'. rewrite dom_insert_L.
        apply elem_of_union. left. now apply elem_of_singleton. }
    destruct (IH store' (groups ++ [g]) Hdom') as [IHmap IHlen].
    split.
    + rewrite IHmap. rewrite List.map_app. cbn [List.map].
      rewrite <- app_assoc. cbn [app]. f_equal.
      * apply Forall_fmap_ext_1. eapply Forall_impl; [exact Hdom|].
        intros x Hx. unfold store'. rewrite facets_of_insert.
        destruct (decide (g = x)) as [<-|]; [contradiction | reflexivity].
      * f_equal. unfold store'. rewrite facets_of_insert.
        now destruct (decide (g = g)).
    + rewrite IHlen, List.length_app. cbn [length]. lia.
Qed.

End BuilderFacts.

(** X27. [addFacets] on a builder gives every facet a group of its own,
    after the groups the builder held: [build()] then writes the earlier
    groups unchanged, followed by one single-element array per facet, in
    order. *)
Theorem builder_addFacets_one_group_per_facet `{Runtime}
    (store : gmap nat (list Modrinth.ModrinthFacet)) (groups : list nat)
    (facets : list Modrinth.ModrinthFacet) :
  Forall (fun g => g ∈ dom store) groups ->
  facets <> [] ->
  let builder := Modrinth.addFacets store groups facets in
  Modrinth.builder_size (fst builder) = (Modrinth.builder_size groups + length facets)%nat
  /\ Modrinth.build (snd builder) (fst builder)
     = JSON.wire_format
         (List.map (Modrinth.toArray store) groups
          ++ List.map (fun f => [Modrinth.toString f]) facets)
  /\ JSON.parse (Modrinth.build (snd builder) (fst builder))
     = Some (Modrinth.array_of_arrays
               (List.map (Modrinth.toArray store) groups
                ++ List.map (fun f => [Modrinth.toString f]) facets)).
Proof.
  intros Hdom Hne builder. subst builder.
  destruct (addFacets_from facets store groups Hdom) as [Hmap Hlen].
  assert (Hbuild : Modrinth.build (snd (Modrinth.addFacets store groups facets))
                     (fst (Modrinth.addFacets store groups facets))
                   = JSON.wire_format
                       (List.map (Modrinth.toArray store) groups
                        ++ List.map (fun f => [Modrinth.toString f]) facets)).
  { rewrite build_nonempty.
    - f_equal. unfold Modrinth.toArray.
      rewrite <- (map_map (Modrinth.facets_of _) (List.map Modrinth.toString)).
      rewrite Hmap, List.map_app, !map_map. reflexivity.
    - intros E. rewrite E in Hlen. cbn [length] in Hlen.
      destruct facets; [contradiction | cbn [length] in Hlen; lia]. }
  split; [exact Hlen|]. split; [exact Hbuild|].
  rewrite Hbuild. apply parse_wire_format.
Qed.

Lemma builder_addFacets_one_group_per_facet_witness :
  Modrinth.builder_size
    (fst (Modrinth.addFacets Sample.groups [0%nat]
            [Sample.popular; Sample.version "1.21"]))
  = (Modrinth.builder_size [0%nat] + length [Sample.popular; Sample.version "1.21"])%nat
  /\ Modrinth.build (H := Sample.runtime)
       (snd (Modrinth.addFacets Sample.groups [0%nat]
               [Sample.popular; Sample.version "1.21"]))
       (fst (Modrinth.addFacets Sample.groups [0%nat]
               [Sample.popular; Sample.version "1.21"]))
     = JSON.wire_format
         (List.map (Modrinth.toArray (H := Sample.runtime) Sample.groups) [0%nat]
          ++ List.map (fun f => [Modrinth.toString (H := Sample.runtime) f])
               [Sample.popular; Sample.version "1.21"])
  /\ JSON.parse
       (Modrinth.build (H := Sample.runtime)
          (snd (Modrinth.addFacets Sample.groups [0%nat]
                  [Sample.popular; Sample.version "1.21"]))
          (fst (Modrinth.addFacets Sample.groups [0%nat]
                  [Sample.popular; Sample.version "1.21"])))
     = Some (Modrinth.array_of_arrays
               (List.map (Modrinth.toArray (H := Sample.runtime) Sample.groups) [0%nat]
                ++ List.map (fun f => [Modrinth.toString (H := Sample.runtime) f])
                     [Sample.popular; Sample.version "1.21"])).
Proof.
  refine (builder_addFacets_one_group_per_facet (H := Sample.runtime) Sample.groups
            [0%nat] [Sample.popular; Sample.version "1.21"] _ _).
  - constructor; [|constructor]. vm_compute. reflexivity.
  - discriminate.
Defined.

Example facets_added_to_a_builder :
  let builder :=
    Modrinth.addFacets Sample.groups [0%nat]
      [Sample.popular; Sample.version "1.21"] in
  Modrinth.build (H := Sample.runtime) (snd builder) (fst builder)
  = Sample.dq "[['versions:1.20.1','versions:1.19.4'],['downloads>=1000'],['versions:1.21']]".
Proof. vm_compute. reflexivity. Qed.

(** X28. The text [toString()] of a group returns parses back, as JSON,
    into the array of the string forms of its facets, in order. *)
Theorem group_toString_parses_back `{Runtime}
    (store : gmap nat (list Modrinth.ModrinthFacet)) (g : nat) :
  Modrinth.group_toString store g = JSON.row_text (Modrinth.toArray store g)
  /\ JSON.parse (Modrinth.group_toString store g)
     = Some (VArr (List.map VStr (Modrinth.toArray store g))).
Proof.
  assert (E : Modrinth.group_toString store g = JSON.row_text (Modrinth.toArray store g)).
  { unfold Modrinth.group_toString. now rewrite stringify_row. }
  split; [exact E|]. rewrite E. unfold JSON.parse.
  pose proof (parse_value_row (Modrinth.toArray store g)
                (S (String.length (JSON.row_text (Modrinth.toArray store g)))) "") as Hp.
  assert (Hnil : forall s, s +:+ "" = s).
  { induction s as [|c s IHs]; [reflexivity|]. rewrite app_cons. now rewrite IHs. }
  rewrite Hnil in Hp. rewrite Hp; [reflexivity|].
  pose proof (length_row_text (Modrinth.toArray store g)). lia.
Qed.

Section FactoryFacts.
Context `{Runtime}.

Lemma group_filled (make : string -> Modrinth.ModrinthFacet) (values : list string) :
  forall (store : gmap nat (list Modrinth.ModrinthFacet)) (g g' : nat),
    Modrinth.facets_of
      (fold_left (fun st v => Modrinth.group_addFacet st g (make v)) values store) g'
    = if decide (g = g')
      then Modrinth.facets_of store g ++ List.map make values
      else Modrinth.facets_of store g'.
Proof.
  induction values as [|v rest IH]; intros store g g'.
  - cbn [fold_left List.map]. rewrite app_nil_r. now destruct (decide (g = g')) as [->|].
  - cbn [fold_left List.map]. rewrite IH. unfold Modrinth.group_addFacet.
    rewrite !facets_of_insert.
    destruct (decide (g = g')) as [->|Hne].
    + destruct (decide (g' = g')); [|contradiction]. now rewrite <- app_assoc.
    + reflexivity.
Qed.

Lemma group_factory (make : string -> Modrinth.ModrinthFacet) (values : list string)
    (store : gmap nat (list Modrinth.ModrinthFacet)) :
  let g := fresh (dom store) in
  let store' :=
    fold_left (fun st v => Modrinth.group_addFacet st g (make v)) values
      (<[g := []]> store) in
  (g ∉ dom store)
  /\ Modrinth.facets_of store' g = List.map make values
  /\ forall g', g' ∈ dom store -> Modrinth.facets_of store' g' = Modrinth.facets_of store g'.
Proof.
  intros g store'. subst store'.
  assert (Hfresh : g ∉ dom store) by apply is_fresh.
  split; [exact Hfresh|]. split.
  - rewrite group_filled, facets_of_insert. now destruct (decide (g = g)).
  - intros g' Hg'. rewrite group_filled, !facets_of_insert.
    destruct (decide (g = g')) as [<-|]; [contradiction | reflexivity].
Qed.

End FactoryFacts.

(** X29. The factories [ModrinthFacetGroup.projectTypes], [.categories]
    and [.versions] return a new group, distinct from every existing one and
    leaving them unchanged, that holds one equality facet per value, in
    order: its string forms are [project_type:v], [categories:v] and
    [versions:v]. *)
Theorem group_factories_hold_one_facet_per_value `{Runtime}
    (store : gmap nat (list Modrinth.ModrinthFacet)) (values : list string) :
  let made (factory : gmap nat (list Modrinth.ModrinthFacet) -> list string ->
                      nat * gmap nat (list Modrinth.ModrinthFacet))
           (name : string) :=
    (fst (factory store values) ∉ dom store)
    /\ Modrinth.toArray (snd (factory store values)) (fst (factory store values))
       = List.map (fun v => name +:+ ":" +:+ v) values
    /\ forall g, g ∈ dom store ->
         Modrinth.facets_of (snd (factory store values)) g = Modrinth.facets_of store g in
  made Modrinth.group_projectTypes "project_type"%string
  /\ made Modrinth.group_categories "categories"%string
  /\ made Modrinth.group_versions "versions"%string.
Proof.
  intros made. subst made. cbv beta.
  unfold Modrinth.group_projectTypes, Modrinth.group_categories, Modrinth.group_versions,
    Modrinth.newGroup. cbn [fst snd].
  pose proof (group_factory Modrinth.facet_projectType values store) as (H1 & H2 & H3).
  pose proof (group_factory Modrinth.facet_categories values store) as (H4 & H5 & H6).
  pose proof (group_factory Modrinth.facet_versions values store) as (H7 & H8 & H9).
  unfold Modrinth.toArray.
  repeat split; try assumption.
  - rewrite H2, map_map. reflexivity.
  - rewrite H5, map_map. reflexivity.
  - rewrite H8, map_map. reflexivity.
Qed.

Example categories_group_on_the_wire :
  let made := Modrinth.group_categories Sample.groups
                ["optimization"; "utility"]%string in
  fst made = 3%nat
  /\ Modrinth.processFacets (H := Sample.runtime) (snd made) (Modrinth.Group (fst made))
     = Sample.dq "[['categories:optimization','categories:utility']]".
Proof. split; vm_compute; reflexivity. Qed.

(** ** A request that keeps failing *)

Section GivingUp.
Context `{Runtime}.

Lemma retried_by_backoff_not_ok (response : Ky.Response) :
  retried_by_backoff response -> Ky.ok response = false.
Proof.
  intros [Hin _]. unfold Ky.ok, Ky.retryStatusCodes in *.
  repeat (apply elem_of_cons in Hin as [->|Hin]; [reflexivity|]).
  now apply elem_of_nil in Hin.
Qed.

(** The first two failures of a request under ky's defaults wait for the
    backoff; the third is rethrown. *)
Lemma calculateRetryDelay_backoff (now : number) (n : nat) (response : Ky.Response) :
  retried_by_backoff response ->
  Ky._calculateRetryDelay Ky.defaultRetryOptions now n (Ky.HTTPError response)
  = (S n,
     if (n <? 2)%nat then Return (Num.of_Z (300 * 2 ^ Z.of_nat n))
     else Throw (Ky.HTTPError response)).
Proof.
  intros (Hin & H413 & Hhint). unfold Ky._calculateRetryDelay. f_equal.
  cbn [Ky.limit Ky.defaultRetryOptions Ky.is_TimeoutError Ky.statusCodes
       Ky.afterStatusCodes Ky.backoffLimit Ky.delay].
  change (Num.of_Z 2) with (Num.of_nat 2). rewrite gt_of_nat, orb_false_r.
  destruct (Nat.ltb_spec 2 (S n)) as [Hgt|Hle].
  - destruct (Nat.ltb_spec n 2); [lia | reflexivity].
  - destruct (Nat.ltb_spec n 2); [|lia].
    unfold Ky.includes at 1. rewrite (bool_decide_eq_true_2 _ Hin). cbn [negb].
    rewrite Hhint. cbn [truthy_nullable andb].
    destruct (Z.eqb_spec (Ky.status response) 413) as [E|_]; [contradiction|].
    rewrite defaultDelay_value. reflexivity.
Qed.

End GivingUp.

(** X30. A GET that meets three answers in a row with a retry status
    (408, 429, 500, 502, 503 or 504) and no Retry-After hint gives up after
    the third: it fetches three times, pauses 300 ms and then 600 ms in
    between, and throws what [handleError] makes of the third response. *)
Theorem persistent_failure_gives_up_after_three_fetches `{Runtime}
    (handleError : ErrorLike -> ErrorCode -> string -> ServiceError)
    (c : BaseAPIClient.Client) (endpoint : string)
    (searchParams : option (list (string * JSValue)))
    (a1 a2 a3 : Ky.Attempt) (r1 r2 r3 : Ky.Response) (rest : list Ky.Attempt) :
  Ky.answer a1 = inl r1 -> Ky.answer a2 = inl r2 -> Ky.answer a3 = inl r3 ->
  Num.lt (Ky.latency a1) (Num.of_Z 10000) = true ->
  Num.lt (Ky.latency a2) (Num.of_Z 10000) = true ->
  Num.lt (Ky.latency a3) (Num.of_Z 10000) = true ->
  retried_by_backoff r1 -> retried_by_backoff r2 -> retried_by_backoff r3 ->
  let request :=
    {| Ky.r_method := "GET";
       Ky.r_url := BaseAPIClient.baseUrl c +:+ endpoint;
       Ky.r_searchParams := option_map BaseAPIClient.buildSearchParams searchParams;
       Ky.r_headers := BaseAPIClient.getHeaders c;
       Ky.r_body := None |} in
  BaseAPIClient.makeRequest handleError c endpoint searchParams (a1 :: a2 :: a3 :: rest)
  = {| Ky.result :=
         Some (Throw (Service
           (handleError (of_KyError (Ky.HTTPError r3)) API_REQUEST_FAILED
              ("Failed to fetch " +:+ endpoint))));
       Ky.events :=
         [Ky.EvFetch request (Num.of_Z 10000); Ky.EvDelay (Num.of_Z 300);
          Ky.EvFetch request (Num.of_Z 10000); Ky.EvDelay (Num.of_Z 600);
          Ky.EvFetch request (Num.of_Z 10000)];
       Ky.remaining := rest |}.
Proof.
  intros Ha1 Ha2 Ha3 Hl1 Hl2 Hl3 Hr1 Hr2 Hr3 request. subst request.
  unfold BaseAPIClient.makeRequest, BaseAPIClient.settle, Ky.create.
  match goal with
  | |- context [Ky.constructor ?opts] => set (options := opts)
  end.
  change (Ky.includes_str (Ky.methods (Ky.retry (Ky.constructor options)))
            (toLowerCase (Ky.method (Ky.constructor options)))) with true.
  cbv iota.
  assert (Hf : forall a r, Ky.answer a = inl r ->
            Num.lt (Ky.latency a) (Num.of_Z 10000) = true -> retried_by_backoff r ->
            Ky.function_ (Ky.constructor options) a = Throw (Ky.HTTPError r)).
  { intros a r Ha Hl Hr.
    rewrite (function_answered (Ky.constructor options) a r eq_refl Ha Hl).
    now rewrite (retried_by_backoff_not_ok r Hr). }
  change (Ky.retry (Ky.constructor options)) with Ky.defaultRetryOptions.
  cbn [Ky._retry].
  change (Ky.retry (Ky.constructor options)) with Ky.defaultRetryOptions.
  rewrite (Hf a1 r1 Ha1 Hl1 Hr1), (calculateRetryDelay_backoff (Ky.clock a1) 0 r1 Hr1).
  rewrite (Hf a2 r2 Ha2 Hl2 Hr2), (calculateRetryDelay_backoff (Ky.clock a2) 1 r2 Hr2).
  rewrite (Hf a3 r3 Ha3 Hl3 Hr3), (calculateRetryDelay_backoff (Ky.clock a3) 2 r3 Hr3).
  reflexivity.
Qed.

Lemma persistent_failure_gives_up_after_three_fetches_witness :
  BaseAPIClient.makeRequest (H := Sample.runtime) Spiget.handleError Sample.spiget
    "/status" None
    [Sample.answering (Sample.respond 503 [] None);
     Sample.answering (Sample.respond 502 [] None);
     Sample.answering (Sample.respond 500 [] None);
     Sample.answering Sample.ok_empty]
  = {| Ky.result :=
         Some (Throw (Service
           (Spiget.handleError (of_KyError (Ky.HTTPError (Sample.respond 500 [] None)))
              API_REQUEST_FAILED ("Failed to fetch " +:+ "/status"))));
       Ky.events :=
         [Ky.EvFetch
            {| Ky.r_method := "GET";
               Ky.r_url := BaseAPIClient.baseUrl Sample.spiget +:+ "/status";
               Ky.r_searchParams := None;
               Ky.r_headers := BaseAPIClient.getHeaders Sample.spiget;
               Ky.r_body := None |} (Num.of_Z 10000);
          Ky.EvDelay (Num.of_Z 300);
          Ky.EvFetch
            {| Ky.r_method := "GET";
               Ky.r_url := BaseAPIClient.baseUrl Sample.spiget +:+ "/status";
               Ky.r_searchParams := None;
               Ky.r_headers := BaseAPIClient.getHeaders Sample.spiget;
               Ky.r_body := None |} (Num.of_Z 10000);
          Ky.EvDelay (Num.of_Z 600);
          Ky.EvFetch
            {| Ky.r_method := "GET";
               Ky.r_url := BaseAPIClient.baseUrl Sample.spiget +:+ "/status";
               Ky.r_searchParams := None;
               Ky.r_headers := BaseAPIClient.getHeaders Sample.spiget;
               Ky.r_body := None |} (Num.of_Z 10000)];
       Ky.remaining := [Sample.answering Sample.ok_empty] |}.
Proof.
  refine (persistent_failure_gives_up_after_three_fetches (H := Sample.runtime)
            Spiget.handleError Sample.spiget "/status" None
            (Sample.answering (Sample.respond 503 [] None))
            (Sample.answering (Sample.respond 502 [] None))
            (Sample.answering (Sample.respond 500 [] None))
            (Sample.respond 503 [] None) (Sample.respond 502 [] None)
            (Sample.respond 500 [] None) [Sample.answering Sample.ok_empty]
            _ _ _ _ _ _ _ _ _); try reflexivity.
  - split; [refine (bool_decide_unpack _ _); vm_compute; exact I|].
    split; [discriminate | reflexivity].
  - split; [refine (bool_decide_unpack _ _); vm_compute; exact I|].
    split; [discriminate | reflexivity].
  - split; [refine (bool_decide_unpack _ _); vm_compute; exact I|].
    split; [discriminate | reflexivity].
Defined.
